(** * The web service layer of daily_stock_analysis (web/services.py)

    A shallow embedding of the three services of [web/services.py]:
    - [ConfigService]: reading and rewriting the [STOCK_LIST] entry of the
      env file;
    - [AnalysisService]: the task table, its durable JSON file, the worker
      that fills it and the age-based eviction;
    - [MarketService]: the daily review cache.

    Python dictionaries are insertion-ordered association lists, JSON
    documents are values of [json], and a method of a service is a
    computation in the monad [M], which threads the state of the process
    and of its environment ([world]) and a Python exception.  The functions
    of the [datetime] module are an interface ([Platform]); the wall clock
    and the outcomes of the external collaborators are oracles held in the
    [world].

    Conventions of the model:
    - a method runs as one step: it holds the lock of its service.  The
      worker is cut in two steps at the call of the collaborator, and the
      saves that follow each of its writes to the table, which only read
      the table, run with that write;
    - what happens to a task service is a sequence of events ([event]):
      the calls of its methods, the two steps of each job and the runs
      of the detached saves, in any order.  The executor is the queue of
      the jobs that wait ([pool]) and the jobs that its [max_workers]
      workers run ([running]); it begins the job at the head of the
      queue when a worker is idle ([can_begin]);
    - instants are integers, in microseconds.  A difference compared with
      [total_seconds() <= 259200] is compared exactly: the float division
      by [10**6] is monotone and 259200.000001 is a float of its own;
    - a write to a file succeeds or raises, by the flag [disk_ok] of the
      world; [disk_failure] says where a refused write fails: at
      [os.makedirs], at [open], or after the [open], which has emptied
      the file, and before the document is complete.  A file that cannot
      be read or decoded, as an empty or partial document, is [Garbage];
    - a string of a JSON document is a text that UTF-8 encodes; the text
      of the env file is a list of code points, which may hold a
      surrogate that does not encode. *)

From Stdlib Require Import ZArith List String Ascii Bool Lia Sorted Permutation.
Import ListNotations.

Local Open Scope string_scope.
Local Open Scope list_scope.
Local Open Scope Z_scope.

Set Warnings "-register-all".

(* ================================================================= *)
(** ** Python values *)

(** What [json.load] returns and [json.dump] accepts. *)
Inductive json : Type :=
| JNull
| JBool (b : bool)
| JNum (n : Z)
| JStr (s : string)
| JArr (items : list json)
| JObj (fields : list (string * json)).

(** Truth value of a decoded value, as tested by [if not x]. *)
Definition truthy (v : json) : bool :=
  match v with
  | JNull => false
  | JBool b => b
  | JNum n => negb (n =? 0)
  | JStr s => negb (s =? "")%string
  | JArr items => match items with [] => false | _ => true end
  | JObj fields => match fields with [] => false | _ => true end
  end.

(** A [dict] with string keys: the pairs in insertion order, one pair per
    key. *)
Definition dict (V : Type) : Type := list (string * V).

Section Dict.
Context {V : Type}.

(** [d.get(k)] *)
Fixpoint dict_get (k : string) (d : dict V) : option V :=
  match d with
  | [] => None
  | (k', v) :: rest => if (k' =? k)%string then Some v else dict_get k rest
  end.

(** [k in d] *)
Definition dict_mem (k : string) (d : dict V) : bool :=
  match dict_get k d with Some _ => true | None => false end.

(** [d[k] = v]: an existing key keeps its position. *)
Fixpoint dict_set (k : string) (v : V) (d : dict V) : dict V :=
  match d with
  | [] => [(k, v)]
  | (k', v') :: rest =>
      if (k' =? k)%string then (k, v) :: rest
      else (k', v') :: dict_set k v rest
  end.

(** [del d[k]] *)
Definition dict_del (k : string) (d : dict V) : dict V :=
  filter (fun kv => negb (fst kv =? k)%string) d.

(** [d.update(new)] *)
Definition dict_update (new : dict V) (d : dict V) : dict V :=
  fold_left (fun acc kv => dict_set (fst kv) (snd kv) acc) new d.

(** [list(d.values())] *)
Definition dict_values (d : dict V) : list V := map snd d.

Definition dict_keys (d : dict V) : list string := map fst d.
End Dict.

(** [task.get(k)]: an absent key reads as [None]. *)
Definition py_get (k : string) (d : dict json) : json :=
  match dict_get k d with Some v => v | None => JNull end.

(** [x.get(k, '')] *)
Definition py_get_default (k : string) (d : dict json) : json :=
  match dict_get k d with Some v => v | None => JStr "" end.

(* ================================================================= *)
(** ** Text as code points

    The env-file code classifies characters (white space, line
    boundaries), so its text is a sequence of Unicode code points. *)
Definition pystr : Type := list N.

Definition code_point (c : ascii) : N := N_of_ascii c.

(** An ASCII literal as text. *)
Definition text (s : string) : pystr := map code_point (list_ascii_of_string s).

(* ================================================================= *)
(** ** Exceptions and results *)

Inductive exn : Type :=
| ValueError
| TypeError
| AttributeError
| KeyError (key : string)
| OSError
| JSONDecodeError
| UnicodeEncodeError        (* a [ValueError] of Python; no [except ValueError]
                               of the services encloses a write *)
| Failure (msg : string).   (* raised by a collaborator; [str(e) = msg] *)

Inductive result (A : Type) : Type :=
| Ok (a : A)
| Raise (e : exn).
Arguments Ok {A} a.
Arguments Raise {A} e.

(** [str(e)] *)
Definition str_exn (e : exn) : string :=
  match e with
  | Failure msg => msg
  | KeyError key => ("'" ++ key ++ "'")%string
  | ValueError | TypeError | AttributeError | OSError | JSONDecodeError
  | UnicodeEncodeError => ""
  end.

(* ================================================================= *)
(** ** Comparing and sorting decoded values *)

(** The number that Python sees in a decoded value: [True] is 1 and
    [False] is 0. *)
Definition as_number (v : json) : option Z :=
  match v with
  | JNum n => Some n
  | JBool b => Some (if b then 1 else 0)
  | _ => None
  end.

(** [a == b].  Lists are equal item by item, dicts when they have the
    same keys with equal values, in any order. *)
Fixpoint py_eq (a b : json) {struct a} : bool :=
  match a, b with
  | JNull, JNull => true
  | JStr s, JStr t => (s =? t)%string
  | JArr l, JArr m =>
      (fix eq_items (l m : list json) {struct l} : bool :=
         match l, m with
         | [], [] => true
         | x :: l', y :: m' => py_eq x y && eq_items l' m'
         | _, _ => false
         end) l m
  | JObj f, JObj g =>
      (List.length f =? List.length g)%nat
      && (fix eq_fields (f : list (string * json)) {struct f} : bool :=
            match f with
            | [] => true
            | (k, v) :: f' =>
                match dict_get k g with
                | Some v' => py_eq v v'
                | None => false
                end && eq_fields f'
            end) f
  | _, _ =>
      match as_number a, as_number b with
      | Some x, Some y => x =? y
      | _, _ => false
      end
  end.

(** [a < b].  Strings are ordered by code point, numbers by value, lists
    by their first items that are not equal, or by length; anything else
    raises [TypeError], [None < None] and [{} < {}] included. *)
Fixpoint py_lt (a b : json) {struct a} : result bool :=
  match a, b with
  | JStr s, JStr t => Ok (String.ltb s t)
  | JArr l, JArr m =>
      (fix lt_items (l m : list json) {struct l} : result bool :=
         match l, m with
         | [], [] => Ok false
         | [], _ :: _ => Ok true
         | _ :: _, [] => Ok false
         | x :: l', y :: m' => if py_eq x y then lt_items l' m' else py_lt x y
         end) l m
  | _, _ =>
      match as_number a, as_number b with
      | Some x, Some y => Ok (x <? y)
      | _, _ => Raise TypeError
      end
  end.

Definition comparable (a b : json) : bool :=
  match py_lt a b, py_lt b a with
  | Ok _, Ok _ => true
  | _, _ => false
  end.

(** Any two keys at different places can be ordered. *)
Fixpoint all_comparable (keys : list json) : bool :=
  match keys with
  | [] => true
  | k :: rest => forallb (comparable k) rest && all_comparable rest
  end.

Definition key_lt (a b : json) : bool :=
  match py_lt a b with
  | Ok c => c
  | Raise _ => false
  end.

(** An item with its key goes in front of the first item whose key is not
    greater. *)
Fixpoint insert_keyed {A} (x : json * A) (l : list (json * A)) : list (json * A) :=
  match l with
  | [] => [x]
  | y :: rest =>
      if key_lt (fst x) (fst y) then y :: insert_keyed x rest
      else x :: y :: rest
  end.

(** The keys of all the items, which the sort computes first. *)
Fixpoint keys_of {A} (key : A -> result json) (l : list A) : result (list json) :=
  match l with
  | [] => Ok []
  | x :: rest =>
      match key x with
      | Ok k =>
          match keys_of key rest with
          | Ok ks => Ok (k :: ks)
          | Raise e => Raise e
          end
      | Raise e => Raise e
      end
  end.

(** [l.sort(key=key, reverse=True)].  The keys are computed once, before
    any comparison.  The sort is stable: items of equal key keep their
    order.  It raises [TypeError] when two of the keys cannot be ordered:
    a sort that ends has compared every item with its neighbours, and two
    values that can each be ordered with the values between them can be
    ordered with each other.  A list of one item is not compared. *)
Definition py_sort_desc {A} (key : A -> result json) (l : list A) : result (list A) :=
  match keys_of key l with
  | Raise e => Raise e
  | Ok keys =>
      if all_comparable keys
      then Ok (map snd (fold_right insert_keyed [] (combine keys l)))
      else Raise TypeError
  end.

(* ================================================================= *)
(** ** The datetime interface

    Instants are naive local datetimes, counted in microseconds. *)

Inductive iso_parse : Type :=
| Naive (t : Z)      (* a datetime without tzinfo *)
| Aware              (* a datetime with a UTC offset *)
| Invalid.           (* [ValueError] *)

Class Platform : Type := {
  (** [datetime.fromisoformat(s)] *)
  fromisoformat : string -> iso_parse;
  (** [t.isoformat()] *)
  isoformat : Z -> string;
  (** [datetime.strptime(s, '%Y-%m-%d')], [None] for [ValueError] *)
  strptime_ymd : string -> option Z;
  (** [t.strftime('%Y-%m-%d')] *)
  strftime_ymd : Z -> string;
  (** [t.strftime('%Y%m%d_%H%M%S_%f')] *)
  strftime_stamp : Z -> string
}.

(* ================================================================= *)
(** ** The process and its environment *)

(** A file of the [data] directory. *)
Inductive file : Type :=
| NoFile                 (* [os.path.exists] is false *)
| Garbage                (* [json.load] raises *)
| Json (doc : json).

(** What the body of the [try] of [_run_analysis] gets from the pipeline:
    a result object, with its [to_dict()] and its [operation_advice], a
    falsy result, or an exception of the imports, of the configuration or
    of the pipeline. *)
Inductive analysis : Type :=
| Analysed (result_data : json)   (* a result; [result.to_dict()] *)
| NoResult                        (* a falsy result *)
| Crashed (msg : string).         (* an exception, [str(e) = msg] *)

(** What the body of the [try] of [get_today_review] gets from the market
    analyzer: the report text with the overview as it is stored, or an
    exception. *)
Inductive generation : Type :=
| Generated (report overview : json)
| GenFailed (msg : string).   (* [str(e) = msg] *)

(** Targets of the detached threads. *)
Inductive thread : Type :=
| SaveTasksThread.

(** Where a write that the file system refuses fails.  The files are
    opened with mode ['w'], which empties them: a failure that comes after
    the [open] leaves a file that is empty or holds the start of what was
    being written. *)
Inductive write_failure : Type :=
| AtMakedirs                  (* [os.makedirs] raises *)
| AtOpen                      (* [open] raises *)
| AfterOpen (written : nat).  (* the write raises after [written] characters *)

Record world : Type := {
  tasks : dict (dict json);        (* AnalysisService._tasks *)
  task_file : file;                (* data/tasks.json *)
  reviews : dict json;             (* MarketService._reviews *)
  review_file : file;              (* data/market_reviews.json *)
  env_file : option pystr;         (* the env file, [None] when missing *)
  disk_ok : bool;                  (* the file system accepts writes *)
  disk_failure : write_failure;    (* how a write fails when it does not *)
  clock : nat -> Z;                (* the n-th reading of datetime.now() *)
  ticks : nat;                     (* readings made so far *)
  pool : list (string * string);   (* jobs queued in the executor *)
  running : list (string * string);  (* jobs that a worker is running *)
  max_workers : nat;               (* AnalysisService._max_workers *)
  threads : list thread;           (* detached threads not yet run *)
  market : nat -> generation;      (* the n-th report generation *)
  gen_calls : nat                  (* generations started so far *)
}.

Definition with_tasks (x : dict (dict json)) (w : world) : world :=
  {| tasks := x; task_file := w.(task_file); reviews := w.(reviews);
     review_file := w.(review_file); env_file := w.(env_file);
     disk_ok := w.(disk_ok); disk_failure := w.(disk_failure);
     clock := w.(clock); ticks := w.(ticks);
     pool := w.(pool); running := w.(running);
     max_workers := w.(max_workers); threads := w.(threads); market := w.(market);
     gen_calls := w.(gen_calls) |}.

Definition with_task_file (x : file) (w : world) : world :=
  {| tasks := w.(tasks); task_file := x; reviews := w.(reviews);
     review_file := w.(review_file); env_file := w.(env_file);
     disk_ok := w.(disk_ok); disk_failure := w.(disk_failure);
     clock := w.(clock); ticks := w.(ticks);
     pool := w.(pool); running := w.(running);
     max_workers := w.(max_workers); threads := w.(threads); market := w.(market);
     gen_calls := w.(gen_calls) |}.

Definition with_reviews (x : dict json) (w : world) : world :=
  {| tasks := w.(tasks); task_file := w.(task_file); reviews := x;
     review_file := w.(review_file); env_file := w.(env_file);
     disk_ok := w.(disk_ok); disk_failure := w.(disk_failure);
     clock := w.(clock); ticks := w.(ticks);
     pool := w.(pool); running := w.(running);
     max_workers := w.(max_workers); threads := w.(threads); market := w.(market);
     gen_calls := w.(gen_calls) |}.

Definition with_review_file (x : file) (w : world) : world :=
  {| tasks := w.(tasks); task_file := w.(task_file); reviews := w.(reviews);
     review_file := x; env_file := w.(env_file);
     disk_ok := w.(disk_ok); disk_failure := w.(disk_failure);
     clock := w.(clock); ticks := w.(ticks);
     pool := w.(pool); running := w.(running);
     max_workers := w.(max_workers); threads := w.(threads); market := w.(market);
     gen_calls := w.(gen_calls) |}.

Definition with_env_file (x : option pystr) (w : world) : world :=
  {| tasks := w.(tasks); task_file := w.(task_file); reviews := w.(reviews);
     review_file := w.(review_file); env_file := x;
     disk_ok := w.(disk_ok); disk_failure := w.(disk_failure);
     clock := w.(clock); ticks := w.(ticks);
     pool := w.(pool); running := w.(running);
     max_workers := w.(max_workers); threads := w.(threads); market := w.(market);
     gen_calls := w.(gen_calls) |}.

Definition with_ticks (x : nat) (w : world) : world :=
  {| tasks := w.(tasks); task_file := w.(task_file); reviews := w.(reviews);
     review_file := w.(review_file); env_file := w.(env_file);
     disk_ok := w.(disk_ok); disk_failure := w.(disk_failure);
     clock := w.(clock); ticks := x;
     pool := w.(pool); running := w.(running);
     max_workers := w.(max_workers); threads := w.(threads); market := w.(market);
     gen_calls := w.(gen_calls) |}.

Definition with_pool (x : list (string * string)) (w : world) : world :=
  {| tasks := w.(tasks); task_file := w.(task_file); reviews := w.(reviews);
     review_file := w.(review_file); env_file := w.(env_file);
     disk_ok := w.(disk_ok); disk_failure := w.(disk_failure);
     clock := w.(clock); ticks := w.(ticks);
     pool := x; running := w.(running);
     max_workers := w.(max_workers); threads := w.(threads); market := w.(market);
     gen_calls := w.(gen_calls) |}.

Definition with_running (x : list (string * string)) (w : world) : world :=
  {| tasks := w.(tasks); task_file := w.(task_file); reviews := w.(reviews);
     review_file := w.(review_file); env_file := w.(env_file);
     disk_ok := w.(disk_ok); disk_failure := w.(disk_failure);
     clock := w.(clock); ticks := w.(ticks);
     pool := w.(pool); running := x;
     max_workers := w.(max_workers); threads := w.(threads); market := w.(market);
     gen_calls := w.(gen_calls) |}.

Definition with_threads (x : list thread) (w : world) : world :=
  {| tasks := w.(tasks); task_file := w.(task_file); reviews := w.(reviews);
     review_file := w.(review_file); env_file := w.(env_file);
     disk_ok := w.(disk_ok); disk_failure := w.(disk_failure);
     clock := w.(clock); ticks := w.(ticks);
     pool := w.(pool); running := w.(running);
     max_workers := w.(max_workers); threads := x; market := w.(market);
     gen_calls := w.(gen_calls) |}.

Definition with_gen_calls (x : nat) (w : world) : world :=
  {| tasks := w.(tasks); task_file := w.(task_file); reviews := w.(reviews);
     review_file := w.(review_file); env_file := w.(env_file);
     disk_ok := w.(disk_ok); disk_failure := w.(disk_failure);
     clock := w.(clock); ticks := w.(ticks);
     pool := w.(pool); running := w.(running);
     max_workers := w.(max_workers); threads := w.(threads); market := w.(market);
     gen_calls := x |}.

(* ================================================================= *)
(** ** The monad of service methods

    A computation maps a world to a result and the world it leaves; what
    was written before an exception stays written. *)

Definition M (A : Type) : Type := world -> result A * world.

Definition ret {A} (a : A) : M A := fun w => (Ok a, w).

Definition bind {A B} (c : M A) (k : A -> M B) : M B :=
  fun w =>
    match c w with
    | (Ok a, w') => k a w'
    | (Raise e, w') => (Raise e, w')
    end.

Definition raise {A} (e : exn) : M A := fun w => (Raise e, w).

(** [try: c  except Exception as e: h e] *)
Definition try_except {A} (c : M A) (h : exn -> M A) : M A :=
  fun w =>
    match c w with
    | (Ok a, w') => (Ok a, w')
    | (Raise e, w') => h e w'
    end.

(** A pure step that may raise. *)
Definition lift {A} (r : result A) : M A := fun w => (r, w).

Definition gets {A} (f : world -> A) : M A := fun w => (Ok (f w), w).

Definition modify (f : world -> world) : M unit := fun w => (Ok tt, f w).

Declare Scope monad_scope.
Delimit Scope monad_scope with monad.
Notation "x <- c ;; k" := (bind c (fun x => k))
  (at level 61, c at next level, right associativity) : monad_scope.
Notation "c ;; k" := (bind c (fun _ => k))
  (at level 61, right associativity) : monad_scope.
Local Open Scope monad_scope.

(** [datetime.now()] *)
Definition datetime_now : M Z :=
  fun w => (Ok (w.(clock) w.(ticks)), with_ticks (S w.(ticks)) w).

(* ================================================================= *)
(** ** AnalysisService *)

Section Services.
Context {P : Platform}.

(** [now - datetime.fromisoformat(v)], in microseconds.  A value that is
    not a string, and an aware datetime subtracted from the naive [now],
    raise [TypeError]. *)
Definition elapsed (now : Z) (v : json) : result Z :=
  match v with
  | JStr s =>
      match fromisoformat s with
      | Naive start_time => Ok (now - start_time)
      | Aware => Raise TypeError
      | Invalid => Raise ValueError
      end
  | _ => Raise TypeError
  end.

(** [3 * 24 * 3600] seconds, in microseconds. *)
Definition retention_us : Z := 3 * 24 * 3600 * 1000000.

(** [d.total_seconds() <= 3 * 24 * 3600] for a difference of [d]
    microseconds. *)
Definition within_retention (d : Z) : bool :=
  d <=? retention_us.

(** The loop of [_save_tasks]. *)
Fixpoint save_scan (now : Z) (items : dict (dict json))
         (tasks_to_save : dict (dict json)) : result (dict (dict json)) :=
  match items with
  | [] => Ok tasks_to_save
  | (task_id, task) :: rest =>
      let start_time_str := py_get "start_time" task in
      if truthy start_time_str then
        match elapsed now start_time_str with
        | Ok d =>
            if within_retention d
            then save_scan now rest (dict_set task_id task tasks_to_save)
            else save_scan now rest tasks_to_save
        | Raise ValueError => save_scan now rest tasks_to_save
        | Raise e => Raise e
        end
      else save_scan now rest tasks_to_save
  end.

(** [json.dump] of a table. *)
Definition json_of_tasks (d : dict (dict json)) : json :=
  JObj (map (fun kv => (fst kv, JObj (snd kv))) d).

(** [os.makedirs(os.path.dirname(file), exist_ok=True)] for the [data]
    directory. *)
Definition makedirs : M unit :=
  fun w =>
    if w.(disk_ok) then (Ok tt, w)
    else
      match w.(disk_failure) with
      | AtMakedirs => (Raise OSError, w)
      | AtOpen | AfterOpen _ => (Ok tt, w)
      end.

(** [open(task_file, 'w')] and [json.dump].  A write that fails after the
    [open] leaves an empty or partial document, which does not decode. *)
Definition write_task_file (doc : json) : M unit :=
  fun w =>
    if w.(disk_ok) then (Ok tt, with_task_file (Json doc) w)
    else
      match w.(disk_failure) with
      | AtMakedirs | AtOpen => (Raise OSError, w)
      | AfterOpen _ => (Raise OSError, with_task_file Garbage w)
      end.

(** [_save_tasks]: the table is filtered once more and written whole; an
    exception is logged and dropped. *)
Definition _save_tasks : M unit :=
  try_except
    (makedirs ;;
     now <- datetime_now ;;
     ts <- gets tasks ;;
     tasks_to_save <- lift (save_scan now ts []) ;;
     write_task_file (json_of_tasks tasks_to_save))
    (fun _ => ret tt).

(** [json.load(f)] *)
Definition read_json (f : file) : result json :=
  match f with
  | Json doc => Ok doc
  | NoFile | Garbage => Raise JSONDecodeError
  end.

(** [data.items()] *)
Definition items_of (data : json) : result (list (string * json)) :=
  match data with
  | JObj fields => Ok fields
  | _ => Raise AttributeError
  end.

(** The loop of [_load_tasks]. *)
Fixpoint load_scan (now : Z) (items : list (string * json))
         (valid_tasks : dict (dict json)) (has_changes : bool)
  : result (dict (dict json) * bool) :=
  match items with
  | [] => Ok (valid_tasks, has_changes)
  | (task_id, JObj task) :: rest =>
      let start_time_str := py_get "start_time" task in
      if negb (truthy start_time_str) then
        load_scan now rest valid_tasks has_changes
      else
        match elapsed now start_time_str with
        | Ok d =>
            if within_retention d
            then load_scan now rest (dict_set task_id task valid_tasks) has_changes
            else load_scan now rest valid_tasks true
        | Raise ValueError => load_scan now rest valid_tasks has_changes
        | Raise e => Raise e
        end
  | (task_id, _) :: rest => Raise AttributeError   (* no [get] *)
  end.

(** [_load_tasks]: nothing happens without a file; otherwise the document
    is filtered into a new table, which is saved at once if a record was
    found expired; an exception is logged and dropped, the table staying
    as it was. *)
Definition _load_tasks : M unit :=
  f <- gets task_file ;;
  match f with
  | NoFile => ret tt
  | _ =>
      try_except
        (data <- lift (read_json f) ;;
         now <- datetime_now ;;
         items <- lift (items_of data) ;;
         scanned <- lift (load_scan now items [] false) ;;
         modify (with_tasks (fst scanned)) ;;
         if snd scanned then _save_tasks else ret tt)
        (fun _ => ret tt)
  end.

(** [AnalysisService.__init__] *)
Definition init_analysis : M unit :=
  modify (with_tasks []) ;;
  _load_tasks ;;
  _load_tasks.

(** [submit_analysis]: the id is the code and the instant of the call; the
    job goes to the executor. *)
Definition submit_analysis (code : string) : M json :=
  now <- datetime_now ;;
  let task_id := (code ++ "_" ++ strftime_stamp now)%string in
  modify (fun w => with_pool (w.(pool) ++ [(code, task_id)]) w) ;;
  ret (JObj [("success", JBool true);
             ("message", JStr "分析任务已提交，将异步执行并推送通知");
             ("code", JStr code);
             ("task_id", JStr task_id)]).

(** [get_task_status]: [self._tasks.get(task_id)]. *)
Definition get_task_status (task_id : string) : M (option (dict json)) :=
  ts <- gets tasks ;;
  ret (dict_get task_id ts).

(** [delete_task] *)
Definition delete_task (task_id : string) : M bool :=
  ts <- gets tasks ;;
  if dict_mem task_id ts then
    modify (with_tasks (dict_del task_id ts)) ;;
    _save_tasks ;;
    ret true
  else ret false.

(** The scan of [list_tasks] for expired ids. *)
Fixpoint expired_scan (now : Z) (items : dict (dict json))
         (expired_ids : list string) : result (list string) :=
  match items with
  | [] => Ok expired_ids
  | (task_id, task) :: rest =>
      let start_time_str := py_get "start_time" task in
      if truthy start_time_str then
        match elapsed now start_time_str with
        | Ok d =>
            if negb (within_retention d)
            then expired_scan now rest (expired_ids ++ [task_id])
            else expired_scan now rest expired_ids
        | Raise ValueError => expired_scan now rest expired_ids
        | Raise e => Raise e
        end
      else expired_scan now rest expired_ids
  end.

(** The in-memory cleaning block of [list_tasks]; the source runs it
    twice. *)
Definition evict_expired : M unit :=
  now <- datetime_now ;;
  ts <- gets tasks ;;
  expired_ids <- lift (expired_scan now ts []) ;;
  modify (with_tasks (fold_left (fun d tid => dict_del tid d) expired_ids ts)) ;;
  match expired_ids with
  | [] => ret tt
  | _ :: _ => modify (fun w => with_threads (w.(threads) ++ [SaveTasksThread]) w)
  end.

(** The sort key [x.get('start_time', '')]. *)
Definition start_key (x : dict json) : string :=
  match py_get_default "start_time" x with
  | JStr s => s
  | _ => ""
  end.

Definition is_str (v : json) : bool :=
  match v with JStr _ => true | _ => false end.

(** What the sort of [list_tasks] is on keys that are strings, which are
    ordered by code point: [insert_desc] puts a record in front of the
    first one whose key is not greater. *)
Fixpoint insert_desc (x : dict json) (l : list (dict json)) : list (dict json) :=
  match l with
  | [] => [x]
  | y :: rest =>
      if String.ltb (start_key x) (start_key y) then y :: insert_desc x rest
      else x :: y :: rest
  end.

Definition sort_desc (l : list (dict json)) : list (dict json) :=
  fold_right insert_desc [] l.

(** The sort of [list_tasks]:
    [tasks.sort(key=lambda x: x.get('start_time', ''), reverse=True)]. *)
Definition sort_by_start_time (l : list (dict json)) : result (list (dict json)) :=
  py_sort_desc (fun x => Ok (py_get_default "start_time" x)) l.

(** [l[:limit]] *)
Definition py_slice_to {A} (limit : Z) (l : list A) : list A :=
  if 0 <=? limit then firstn (Z.to_nat limit) l
  else firstn (List.length l - Z.to_nat (- limit)) l.

(** [list_tasks]: two cleaning blocks, then the records sorted by start
    time, newest first, and cut at [limit]. *)
Definition list_tasks (limit : Z) : M (list (dict json)) :=
  evict_expired ;;
  evict_expired ;;
  ts <- gets tasks ;;
  sorted <- lift (sort_by_start_time (dict_values ts)) ;;
  ret (py_slice_to limit sorted).

(** [self._tasks[task_id].update(fields)], where [fields] holds a
    reading of the clock. *)
Definition update_task (task_id : string) (fields : Z -> dict json) : M unit :=
  ts <- gets tasks ;;
  match dict_get task_id ts with
  | None => raise (KeyError task_id)
  | Some task =>
      now <- datetime_now ;;
      modify (with_tasks (dict_set task_id (dict_update (fields now) task) ts))
  end.

Definition empty_result_message : string := "分析返回空结果".

(** [_run_analysis] up to the call of the collaborator. *)
Definition run_begin (code task_id : string) : M unit :=
  now <- datetime_now ;;
  ts <- gets tasks ;;
  modify (with_tasks
            (dict_set task_id
                      [("task_id", JStr task_id);
                       ("code", JStr code);
                       ("status", JStr "running");
                       ("start_time", JStr (isoformat now));
                       ("result", JNull);
                       ("error", JNull)]
                      ts)) ;;
  _save_tasks ;;
  _save_tasks.

(** [_run_analysis] from the return of the collaborator. *)
Definition run_end (code task_id : string) (outcome : analysis) : M json :=
  try_except
    (match outcome with
     | Crashed msg => raise (Failure msg)
     | Analysed result_data =>
         update_task task_id
           (fun now => [("status", JStr "completed");
                        ("end_time", JStr (isoformat now));
                        ("result", result_data)]) ;;
         _save_tasks ;;
         _save_tasks ;;
         ret (JObj [("success", JBool true);
                    ("task_id", JStr task_id);
                    ("result", result_data)])
     | NoResult =>
         update_task task_id
           (fun now => [("status", JStr "failed");
                        ("end_time", JStr (isoformat now));
                        ("error", JStr empty_result_message)]) ;;
         _save_tasks ;;
         _save_tasks ;;
         ret (JObj [("success", JBool false);
                    ("task_id", JStr task_id);
                    ("error", JStr empty_result_message)])
     end)
    (fun e =>
       let error_msg := str_exn e in
       update_task task_id
         (fun now => [("status", JStr "failed");
                      ("end_time", JStr (isoformat now));
                      ("error", JStr error_msg)]) ;;
       _save_tasks ;;
       _save_tasks ;;
       ret (JObj [("success", JBool false);
                  ("task_id", JStr task_id);
                  ("error", JStr error_msg)])).

(** [_run_analysis], the collaborator yielding [outcome]. *)
Definition _run_analysis (code task_id : string) (outcome : analysis) : M json :=
  run_begin code task_id ;;
  run_end code task_id outcome.

(* =============================================================== *)
(** ** MarketService *)

(** The loop of [_load_reviews]; [(now - review_date).days] is the floor
    of the difference in days. *)
Fixpoint reviews_scan (now : Z) (items : list (string * json))
         (valid_reviews : dict json) : dict json :=
  match items with
  | [] => valid_reviews
  | (date_str, review) :: rest =>
      match strptime_ymd date_str with
      | Some review_date =>
          if (now - review_date) / (24 * 3600 * 1000000) <=? 7
          then reviews_scan now rest (dict_set date_str review valid_reviews)
          else reviews_scan now rest valid_reviews
      | None => reviews_scan now rest valid_reviews
      end
  end.

(** [_load_reviews]: as [_load_tasks], on the dates and without a save. *)
Definition _load_reviews : M unit :=
  f <- gets review_file ;;
  match f with
  | NoFile => ret tt
  | _ =>
      try_except
        (data <- lift (read_json f) ;;
         now <- datetime_now ;;
         items <- lift (items_of data) ;;
         modify (with_reviews (reviews_scan now items [])))
        (fun _ => ret tt)
  end.

(** [open(review_file, 'w')] and [json.dump], as [write_task_file]. *)
Definition write_review_file (doc : json) : M unit :=
  fun w =>
    if w.(disk_ok) then (Ok tt, with_review_file (Json doc) w)
    else
      match w.(disk_failure) with
      | AtMakedirs | AtOpen => (Raise OSError, w)
      | AfterOpen _ => (Raise OSError, with_review_file Garbage w)
      end.

(** [_save_reviews]: the cache written whole, unfiltered. *)
Definition _save_reviews : M unit :=
  try_except
    (makedirs ;;
     rs <- gets reviews ;;
     write_review_file (JObj rs))
    (fun _ => ret tt).

(** The call of the market analyzer: overview, news and report. *)
Definition generate_review : M generation :=
  fun w => (Ok (w.(market) w.(gen_calls)), with_gen_calls (S w.(gen_calls)) w).

(** [get_today_review]: the cached record of the day unless a refresh is
    forced; otherwise a generation, whose record is stored and saved when
    it succeeds and whose failure is answered as an error record. *)
Definition get_today_review (force_refresh : bool) : M json :=
  now <- datetime_now ;;
  let today := strftime_ymd now in
  rs <- gets reviews ;;
  match (if force_refresh then None else dict_get today rs) with
  | Some cached => ret cached
  | None =>
      try_except
        (g <- generate_review ;;
         match g with
         | GenFailed msg => raise (Failure msg)
         | Generated report overview =>
             generated_at <- datetime_now ;;
             let review_data :=
               JObj [("date", JStr today);
                     ("report", report);
                     ("generated_at", JStr (isoformat generated_at));
                     ("overview", overview)] in
             rs' <- gets reviews ;;
             modify (with_reviews (dict_set today review_data rs')) ;;
             _save_reviews ;;
             ret review_data
         end)
        (fun e =>
           generated_at <- datetime_now ;;
           ret (JObj [("date", JStr today);
                      ("error", JStr (str_exn e));
                      ("generated_at", JStr (isoformat generated_at))]))
  end.

(** [get_review_by_date]: [self._reviews.get(date)]. *)
Definition get_review_by_date (date : string) : M (option json) :=
  rs <- gets reviews ;;
  ret (dict_get date rs).

(** The sort key [x.get('date', '')] of [list_reviews]; a review that is
    not a dict has no [get]. *)
Definition date_key (x : json) : result json :=
  match x with
  | JObj fields => Ok (py_get_default "date" fields)
  | _ => Raise AttributeError
  end.

(** The key of a review as a string. *)
Definition date_string (x : json) : string :=
  match date_key x with
  | Ok (JStr s) => s
  | _ => ""
  end.

(** What the sort of [list_reviews] is on dates that are strings, as
    [insert_desc] on the start times. *)
Fixpoint insert_by_date (x : json) (l : list json) : list json :=
  match l with
  | [] => [x]
  | y :: rest =>
      if String.ltb (date_string x) (date_string y) then y :: insert_by_date x rest
      else x :: y :: rest
  end.

Definition sort_by_date_desc (l : list json) : list json :=
  fold_right insert_by_date [] l.

(** The sort of [list_reviews]:
    [reviews.sort(key=lambda x: x.get('date', ''), reverse=True)]. *)
Definition sort_reviews (l : list json) : result (list json) :=
  py_sort_desc date_key l.

(** [list_reviews]: the cached reviews, newest date first, cut at [limit];
    nothing is cleaned. *)
Definition list_reviews (limit : Z) : M (list json) :=
  rs <- gets reviews ;;
  sorted <- lift (sort_reviews (dict_values rs)) ;;
  ret (py_slice_to limit sorted).
End Services.

(* ================================================================= *)
(** ** ConfigService *)

Local Open Scope N_scope.

(** [c.isspace()], which is also the class [\s] of a [str] pattern. *)
Definition is_space (c : N) : bool :=
  ((9 <=? c) && (c <=? 13)) || ((28 <=? c) && (c <=? 32))
  || (c =? 133) || (c =? 160) || (c =? 5760)
  || ((8192 <=? c) && (c <=? 8202))
  || (c =? 8232) || (c =? 8233) || (c =? 8239) || (c =? 8287) || (c =? 12288).

(** The line boundaries of [str.splitlines]. *)
Definition is_linebreak (c : N) : bool :=
  ((10 <=? c) && (c <=? 13)) || ((28 <=? c) && (c <=? 30))
  || (c =? 133) || (c =? 8232) || (c =? 8233).

Definition LF : N := 10.
Definition CR : N := 13.
Definition comma : N := 44.
Definition equals_sign : N := 61.
Definition double_quote : N := 34.
Definition single_quote : N := 39.

(** [s.splitlines()]: a carriage return followed by a line feed is one
    boundary, and no empty line follows the last boundary. *)
Fixpoint splitlines (s : pystr) : list pystr :=
  match s with
  | [] => []
  | c :: rest =>
      if is_linebreak c then
        [] :: match rest with
              | c' :: rest' =>
                  if (c =? CR) && (c' =? LF) then splitlines rest'
                  else splitlines rest
              | [] => []
              end
      else
        match splitlines rest with
        | [] => [[c]]
        | line :: lines => (c :: line) :: lines
        end
  end.

(** [s.split(sep)] for a separator of one character. *)
Fixpoint split_on (sep : N) (s : pystr) : list pystr :=
  match s with
  | [] => [[]]
  | c :: rest =>
      if c =? sep then [] :: split_on sep rest
      else
        match split_on sep rest with
        | [] => [[c]]
        | part :: parts => (c :: part) :: parts
        end
  end.

(** [sep.join(parts)] *)
Fixpoint join (sep : pystr) (parts : list pystr) : pystr :=
  match parts with
  | [] => []
  | p :: rest =>
      match rest with
      | [] => p
      | _ :: _ => p ++ sep ++ join sep rest
      end
  end.

(** [s.replace(a, b)] for single characters. *)
Definition replace_char (a b : N) (s : pystr) : pystr :=
  map (fun c => if c =? a then b else c) s.

Fixpoint lstrip (s : pystr) : pystr :=
  match s with
  | [] => []
  | c :: rest => if is_space c then lstrip rest else s
  end.

(** The white space that [lstrip] removes. *)
Fixpoint leading_space (s : pystr) : pystr :=
  match s with
  | [] => []
  | c :: rest => if is_space c then c :: leading_space rest else []
  end.

Definition rstrip (s : pystr) : pystr := rev (lstrip (rev s)).

(** The white space that [rstrip] removes. *)
Definition trailing_space (s : pystr) : pystr := rev (leading_space (rev s)).

(** [s.strip()] *)
Definition strip (s : pystr) : pystr := lstrip (rstrip s).

Definition is_empty (s : pystr) : bool :=
  match s with [] => true | _ :: _ => false end.

Definition startswith_char (c : N) (s : pystr) : bool :=
  match s with [] => false | c' :: _ => c' =? c end.

Definition endswith_char (c : N) (s : pystr) : bool :=
  startswith_char c (rev s).

(** [s] without the prefix [p], when it starts with it. *)
Fixpoint strip_prefix (p s : pystr) : option pystr :=
  match p, s with
  | [], _ => Some s
  | a :: p', b :: s' => if a =? b then strip_prefix p' s' else None
  | _ :: _, [] => None
  end.

(** [_STOCK_LIST_RE.match(line)] with its groups [prefix], [value] and
    [suffix].  The pattern is, between [^] and [$], the group [prefix] =
    white space, [STOCK_LIST], white space, [=], white space (each a greedy
    [\s] star), the group [value] = a lazy star of [.], and the group
    [suffix] = a greedy [\s] star.  Each white space of the prefix is
    followed by a character that is not white space, so it takes all there
    is; the lazy [value] ends where only white space remains, which is the
    [suffix]; [.] matches no line feed. *)
Definition stock_list_re_match (line : pystr) : option (pystr * pystr * pystr) :=
  match strip_prefix (text "STOCK_LIST") (lstrip line) with
  | None => None
  | Some after_name =>
      match lstrip after_name with
      | c :: after_eq =>
          if c =? equals_sign then
            let rest := lstrip after_eq in
            let value := rstrip rest in
            if existsb (N.eqb LF) value then None
            else Some (leading_space line ++ text "STOCK_LIST"
                         ++ leading_space after_name ++ [equals_sign]
                         ++ leading_space after_eq,
                       value,
                       trailing_space rest)
          else None
      | [] => None
      end
  end.

(** [raw[1:-1]] *)
Definition drop_ends (raw : pystr) : pystr := removelast (tl raw).

(** The quote removal of [_extract_stock_list]. *)
Definition unquote (raw : pystr) : pystr :=
  if (startswith_char double_quote raw && endswith_char double_quote raw)
     || (startswith_char single_quote raw && endswith_char single_quote raw)
  then drop_ends raw
  else raw.

(** The loop of [_extract_stock_list]. *)
Fixpoint extract_from (lines : list pystr) : pystr :=
  match lines with
  | [] => []
  | line :: rest =>
      match stock_list_re_match line with
      | Some (_, value, _) => unquote (strip value)
      | None => extract_from rest
      end
  end.

(** [_extract_stock_list]: the value of the first [STOCK_LIST] line,
    stripped and unquoted. *)
Definition _extract_stock_list (env_text : pystr) : pystr :=
  extract_from (splitlines env_text).

(** [_normalize_stock_list] *)
Definition _normalize_stock_list (value : pystr) : pystr :=
  let parts := map strip (split_on comma (replace_char LF comma value)) in
  let parts := filter (fun p => negb (is_empty p)) parts in
  join [comma] parts.

(** The line that the loop of [_update_stock_list] appends for [line]. *)
Definition update_line (new_value line : pystr) : pystr :=
  match stock_list_re_match line with
  | Some (prefix, _, suffix) => prefix ++ new_value ++ suffix
  | None => line
  end.

Definition is_stock_list_line (line : pystr) : bool :=
  match stock_list_re_match line with Some _ => true | None => false end.

(** [_update_stock_list]: every [STOCK_LIST] line gets the new value
    between its prefix and its suffix; without such a line one is added,
    after an empty line if the text does not end with one. *)
Definition _update_stock_list (env_text new_value : pystr) : pystr :=
  let lines := splitlines env_text in
  let out_lines := map (update_line new_value) lines in
  let replaced := existsb is_stock_list_line lines in
  let out_lines :=
    if replaced then out_lines
    else
      (match out_lines with
       | [] => out_lines
       | _ :: _ =>
           if is_empty (strip (last out_lines [])) then out_lines
           else out_lines ++ [[]]
       end) ++ [text "STOCK_LIST=" ++ new_value] in
  let trailing_newline :=
    match env_text with
    | [] => true
    | _ :: _ => endswith_char LF env_text
    end in
  join [LF] out_lines ++ (if trailing_newline then [LF] else []).

(** Reading in text mode turns a carriage return, with the line feed that
    may follow it, into a line feed. *)
Fixpoint universal_newlines (s : pystr) : pystr :=
  match s with
  | [] => []
  | c :: rest =>
      if c =? CR then
        LF :: match rest with
              | c' :: rest' =>
                  if c' =? LF then universal_newlines rest'
                  else universal_newlines rest
              | [] => []
              end
      else c :: universal_newlines rest
  end.

(** [read_env_text]: the text of the env file, empty when it is missing. *)
Definition read_env_text : M pystr :=
  f <- gets env_file ;;
  ret (match f with
       | Some content => universal_newlines content
       | None => []
       end).

(** A character that UTF-8 encodes: any but a surrogate. *)
Definition encodable (c : N) : bool :=
  negb ((55296 <=? c) && (c <=? 57343)).

Definition encodes (s : pystr) : bool := forallb encodable s.

(** [write_env_text]: [open(env_path, 'w', encoding='utf-8')], which
    empties the file, and [f.write(text)], which encodes the text before
    any of it is written. *)
Definition write_env_text (content : pystr) : M unit :=
  fun w =>
    match w.(disk_ok), w.(disk_failure) with
    | false, (AtMakedirs | AtOpen) => (Raise OSError, w)
    | ok, failure =>
        if negb (encodes content) then
          (Raise UnicodeEncodeError, with_env_file (Some []) w)
        else if ok then (Ok tt, with_env_file (Some content) w)
        else
          match failure with
          | AfterOpen written =>
              (Raise OSError, with_env_file (Some (firstn written content)) w)
          | AtMakedirs | AtOpen => (Raise OSError, w)
          end
    end.

(** [get_stock_list] *)
Definition get_stock_list : M pystr :=
  env_text <- read_env_text ;;
  ret (_extract_stock_list env_text).

(** [set_stock_list] *)
Definition set_stock_list (stock_list : pystr) : M pystr :=
  env_text <- read_env_text ;;
  let normalized := _normalize_stock_list stock_list in
  let updated := _update_stock_list env_text normalized in
  write_env_text updated ;;
  ret normalized.

Local Close Scope N_scope.

(* ================================================================= *)
(** ** A datetime platform

    The functions of [Platform] for the layouts that the service itself
    writes: [YYYY-MM-DD], [YYYY-MM-DDTHH:MM:SS] and
    [YYYY-MM-DDTHH:MM:SS.ffffff], the last two also with a UTC offset
    [+HH:MM] or [-HH:MM].  Instants count microseconds from
    1970-01-01T00:00:00; any other layout is rejected. *)

Module Iso.

Definition us_per_second : Z := 1000000.
Definition us_per_day : Z := 24 * 3600 * us_per_second.

(** Days from 1970-01-01 to the civil date [y]-[m]-[d]. *)
Definition days_of_civil (y m d : Z) : Z :=
  let y := if m <=? 2 then y - 1 else y in
  let era := y / 400 in
  let yoe := y - era * 400 in
  let doy := (153 * (if 2 <? m then m - 3 else m + 9) + 2) / 5 + d - 1 in
  let doe := yoe * 365 + yoe / 4 - yoe / 100 + doy in
  era * 146097 + doe - 719468.

(** The civil date of a day number. *)
Definition civil_of_days (days : Z) : Z * Z * Z :=
  let z := days + 719468 in
  let era := z / 146097 in
  let doe := z - era * 146097 in
  let yoe := (doe - doe / 1460 + doe / 36524 - doe / 146096) / 365 in
  let doy := doe - (365 * yoe + yoe / 4 - yoe / 100) in
  let mp := (5 * doy + 2) / 153 in
  let d := doy - (153 * mp + 2) / 5 + 1 in
  let m := if mp <? 10 then mp + 3 else mp - 9 in
  let y := yoe + era * 400 in
  (if m <=? 2 then y + 1 else y, m, d).

Definition is_leap (y : Z) : bool :=
  ((y mod 4 =? 0) && negb (y mod 100 =? 0)) || (y mod 400 =? 0).

Definition days_in_month (y m : Z) : Z :=
  if m =? 2 then (if is_leap y then 29 else 28)
  else if (m =? 4) || (m =? 6) || (m =? 9) || (m =? 11) then 30
  else 31.

Definition digit_char (n : Z) : ascii :=
  ascii_of_nat (48 + Z.to_nat (n mod 10)).

(** [n] in decimal on [width] digits. *)
Fixpoint digits (width : nat) (n : Z) : string :=
  match width with
  | O => ""
  | S w => (digits w (n / 10) ++ String (digit_char n) "")%string
  end.

Definition digit_value (c : ascii) : option Z :=
  let n := Z.of_nat (nat_of_ascii c) in
  if (48 <=? n) && (n <=? 57) then Some (n - 48) else None.

Fixpoint number_from (acc : Z) (s : string) : option Z :=
  match s with
  | EmptyString => Some acc
  | String c rest =>
      match digit_value c with
      | Some v => number_from (acc * 10 + v) rest
      | None => None
      end
  end.

(** The number written by the [len] digits of [s] at [start]. *)
Definition field (start len : nat) (s : string) : option Z :=
  let part := substring start len s in
  if (String.length part =? len)%nat then number_from 0 part else None.

Definition char_is (pos : nat) (c : ascii) (s : string) : bool :=
  match String.get pos s with
  | Some c' => (c' =? c)%char
  | None => false
  end.

Definition valid_date (y m d : Z) : bool :=
  (1 <=? y) && (1 <=? m) && (m <=? 12) && (1 <=? d) && (d <=? days_in_month y m).

(** [YYYY-MM-DD] at the head of [s], as microseconds. *)
Definition parse_date (s : string) : option Z :=
  match field 0 4 s, field 5 2 s, field 8 2 s with
  | Some y, Some m, Some d =>
      if char_is 4 "-" s && char_is 7 "-" s && valid_date y m d
      then Some (days_of_civil y m d * us_per_day)
      else None
  | _, _, _ => None
  end.

(** [HH:MM:SS] at position 11 of [s], as microseconds. *)
Definition parse_time (s : string) : option Z :=
  match field 11 2 s, field 14 2 s, field 17 2 s with
  | Some h, Some mi, Some sec =>
      if char_is 13 ":" s && char_is 16 ":" s
         && (h <? 24) && (mi <? 60) && (sec <? 60)
      then Some ((h * 3600 + mi * 60 + sec) * us_per_second)
      else None
  | _, _, _ => None
  end.

(** [.ffffff] at position 19 of [s]. *)
Definition parse_fraction (s : string) : option Z :=
  if char_is 19 "." s then field 20 6 s else None.

(** A UTC offset [+HH:MM] or [-HH:MM] at [pos]. *)
Definition is_offset (pos : nat) (s : string) : bool :=
  (char_is pos "+" s || char_is pos "-" s)
  && match field (pos + 1) 2 s, field (pos + 4) 2 s with
     | Some h, Some mi => char_is (pos + 3) ":" s && (h <? 24) && (mi <? 60)
     | _, _ => false
     end.

Definition add_parts (a b : option Z) : option Z :=
  match a, b with
  | Some x, Some y => Some (x + y)
  | _, _ => None
  end.

Definition naive_or_invalid (t : option Z) : iso_parse :=
  match t with Some t => Naive t | None => Invalid end.

Definition aware_or_invalid (t : option Z) (offset_ok : bool) : iso_parse :=
  match t with
  | Some _ => if offset_ok then Aware else Invalid
  | None => Invalid
  end.

Definition fromisoformat (s : string) : iso_parse :=
  let n := String.length s in
  let date_time := add_parts (parse_date s) (parse_time s) in
  let with_fraction := add_parts date_time (parse_fraction s) in
  if (n =? 10)%nat then naive_or_invalid (parse_date s)
  else if (n =? 19)%nat then naive_or_invalid date_time
  else if (n =? 26)%nat then naive_or_invalid with_fraction
  else if (n =? 25)%nat then aware_or_invalid date_time (is_offset 19 s)
  else if (n =? 32)%nat then aware_or_invalid with_fraction (is_offset 26 s)
  else Invalid.

Definition strftime_ymd (t : Z) : string :=
  let '(y, m, d) := civil_of_days (t / us_per_day) in
  (digits 4 y ++ "-" ++ digits 2 m ++ "-" ++ digits 2 d)%string.

Definition clock_parts (t : Z) : Z * Z * Z :=
  let s := (t mod us_per_day) / us_per_second in
  (s / 3600, (s / 60) mod 60, s mod 60).

Definition isoformat (t : Z) : string :=
  let '(h, mi, sec) := clock_parts t in
  let us := t mod us_per_second in
  (strftime_ymd t ++ "T" ++ digits 2 h ++ ":" ++ digits 2 mi ++ ":" ++ digits 2 sec
   ++ (if (us =? 0)%Z then "" else "." ++ digits 6 us))%string.

Definition strptime_ymd (s : string) : option Z :=
  if (String.length s =? 10)%nat then parse_date s else None.

Definition strftime_stamp (t : Z) : string :=
  let '(y, m, d) := civil_of_days (t / us_per_day) in
  let '(h, mi, sec) := clock_parts t in
  (digits 4 y ++ digits 2 m ++ digits 2 d ++ "_"
   ++ digits 2 h ++ digits 2 mi ++ digits 2 sec ++ "_"
   ++ digits 6 (t mod us_per_second))%string.

(** The instant of a civil date and time of day. *)
Definition instant (y m d h mi sec : Z) : Z :=
  days_of_civil y m d * us_per_day + (h * 3600 + mi * 60 + sec) * us_per_second.

End Iso.

#[export] Instance iso_platform : Platform := {
  fromisoformat := Iso.fromisoformat;
  isoformat := Iso.isoformat;
  strptime_ymd := Iso.strptime_ymd;
  strftime_ymd := Iso.strftime_ymd;
  strftime_stamp := Iso.strftime_stamp
}.

(* ================================================================= *)
(** ** Vocabulary of the statements *)

Section Vocabulary.
Context {P : Platform}.

(** How the eviction policy reads the [start_time] of a record at the
    instant [now]. *)
Inductive stamp : Type :=
| Fresh        (* parses, at most 72 hours old: kept *)
| Stale        (* parses, older than 72 hours *)
| Unusable     (* missing, empty or falsy, or [ValueError] on parsing *)
| Faulty.      (* [TypeError]: not a string, or an aware datetime *)

Definition classify (now : Z) (task : dict json) : stamp :=
  let start_time_str := py_get "start_time" task in
  if truthy start_time_str then
    match elapsed now start_time_str with
    | Ok d => if within_retention d then Fresh else Stale
    | Raise ValueError => Unusable
    | Raise _ => Faulty
    end
  else Unusable.

Definition is_fresh (now : Z) (task : dict json) : bool :=
  match classify now task with Fresh => true | _ => false end.

Definition is_stale (now : Z) (task : dict json) : bool :=
  match classify now task with Stale => true | _ => false end.

Definition is_unusable (now : Z) (task : dict json) : bool :=
  match classify now task with Unusable => true | _ => false end.

Definition is_faulty (now : Z) (task : dict json) : bool :=
  match classify now task with Faulty => true | _ => false end.

(** The same reading for a value of the persisted document. *)
Definition stale_doc (now : Z) (v : json) : bool :=
  match v with JObj task => is_stale now task | _ => false end.

(** The [start_time] of the record is a string that parses to the naive
    instant [t]. *)
Definition started_at (task : dict json) (t : Z) : Prop :=
  exists s, py_get "start_time" task = JStr s /\ s <> "" /\ fromisoformat s = Naive t.

(** A table as the service builds it: one record per key, each started
    at some instant. *)
Definition tasks_wf (ts : dict (dict json)) : Prop :=
  NoDup (dict_keys ts) /\ Forall (fun kv => exists t, started_at (snd kv) t) ts.

(** The world that [_save_tasks] leaves. *)
Definition saved_world (w : world) : world :=
  let w1 := with_ticks (S w.(ticks)) w in
  match w.(disk_ok), w.(disk_failure) with
  | false, AtMakedirs => w
  | ok, failure =>
      match save_scan (w.(clock) w.(ticks)) w.(tasks) [] with
      | Ok tasks_to_save =>
          if ok then with_task_file (Json (json_of_tasks tasks_to_save)) w1
          else
            match failure with
            | AfterOpen _ => with_task_file Garbage w1
            | AtMakedirs | AtOpen => w1
            end
      | Raise _ => w1
      end
  end.

Definition keep_fresh (now : Z) (ts : dict (dict json)) : dict (dict json) :=
  filter (fun kv => is_fresh now (snd kv)) ts.

(** The persisted form of a table. *)
Definition doc_items (ts : dict (dict json)) : list (string * json) :=
  map (fun kv => (fst kv, JObj (snd kv))) ts.

(** The world that [_load_tasks] leaves. *)
Definition loaded_world (w : world) : world :=
  match task_file w with
  | Json doc =>
      let w1 := with_ticks (S (ticks w)) w in
      match doc with
      | JObj items =>
          match load_scan (clock w (ticks w)) items [] false with
          | Ok (valid_tasks, has_changes) =>
              let w2 := with_tasks valid_tasks w1 in
              if has_changes then saved_world w2 else w2
          | Raise _ => w1
          end
      | _ => w1
      end
  | NoFile | Garbage => w
  end.

(** What one cleaning block of [list_tasks] does. *)
Definition evicted_world (w : world) (expired_ids : list string) : world :=
  let w1 := with_tasks (fold_left (fun d tid => dict_del tid d) expired_ids (tasks w))
                       (with_ticks (S (ticks w)) w) in
  match expired_ids with
  | [] => w1
  | _ :: _ => with_threads (threads w ++ [SaveTasksThread]) w1
  end.

(** The record that [_run_analysis] writes first. *)
Definition running_record (code task_id : string) (now : Z) : dict json :=
  [("task_id", JStr task_id); ("code", JStr code); ("status", JStr "running");
   ("start_time", JStr (isoformat now)); ("result", JNull); ("error", JNull)].

(** The world when the collaborator is called. *)
Definition begun_world (code task_id : string) (w : world) : world :=
  saved_world
    (saved_world
       (with_tasks
          (dict_set task_id (running_record code task_id (clock w (ticks w))) (tasks w))
          (with_ticks (S (ticks w)) w))).

(** The id that [submit_analysis] builds at the instant [now]. *)
Definition task_id_at (code : string) (now : Z) : string :=
  (code ++ "_" ++ strftime_stamp now)%string.

(** The record that [get_today_review] answers when generation fails. *)
Definition error_review (today msg : string) (generated_at : Z) : json :=
  JObj [("date", JStr today); ("error", JStr msg);
        ("generated_at", JStr (isoformat generated_at))].

(** What happens to the task service of a running process: the calls of
    its methods, the two halves of a job of the pool, and the run of a
    detached save. *)
Inductive event : Type :=
| Submitted (code : string)
| JobBegun (code task_id : string)
| JobEnded (code task_id : string) (outcome : analysis)
| StatusRead (task_id : string)
| Deleted (task_id : string)
| Listed (limit : Z)
| SavedInBackground.

(** The queue of the executor without the job that a worker takes. *)
Fixpoint take_job (job : string * string) (queue : list (string * string))
  : list (string * string) :=
  match queue with
  | [] => []
  | j :: rest =>
      if ((fst j =? fst job) && (snd j =? snd job))%string then rest
      else j :: take_job job rest
  end.

(** The executor starts the job at the head of its queue when one of its
    [max_workers] workers is idle. *)
Definition can_begin (job : string * string) (w : world) : bool :=
  (List.length (running w) <? max_workers w)%nat
  && match pool w with
     | j :: _ => ((fst j =? fst job) && (snd j =? snd job))%string
     | [] => false
     end.

(** What an event does to the world.  A job that begins leaves the queue
    for a worker, which is busy with it until the job ends.  The events
    are not restricted to those that the executor allows ([can_begin]): a
    statement over all events holds of its schedules. *)
Definition perform (e : event) (w : world) : world :=
  match e with
  | Submitted code => snd (submit_analysis code w)
  | JobBegun code task_id =>
      snd (run_begin code task_id
             (with_running (running w ++ [(code, task_id)])
                (with_pool (take_job (code, task_id) (pool w)) w)))
  | JobEnded code task_id outcome =>
      let w' := snd (run_end code task_id outcome w) in
      with_running (take_job (code, task_id) (running w')) w'
  | StatusRead task_id => snd (get_task_status task_id w)
  | Deleted task_id => snd (delete_task task_id w)
  | Listed limit => snd (list_tasks limit w)
  | SavedInBackground => with_threads (tl (threads w)) (snd (_save_tasks w))
  end.

(** The process after its service was built and the events happened. *)
Definition after_events (events : list event) (w : world) : world :=
  fold_left (fun w e => perform e w) events (snd (init_analysis w)).

End Vocabulary.

(** Fields of a task record. *)
Definition populated (k : string) (task : dict json) : Prop :=
  py_get k task <> JNull.

Definition has_status (status : string) (task : dict json) : Prop :=
  py_get "status" task = JStr status.

(** The invariants of a task record. *)
Definition task_record_ok (task : dict json) : Prop :=
  (populated "end_time" task <-> has_status "completed" task \/ has_status "failed" task)
  /\ (populated "result" task -> has_status "completed" task)
  /\ (populated "error" task -> has_status "failed" task).

(** The [task_id] of the answer of [submit_analysis]. *)
Definition returned_task_id (answer : json) : string :=
  match answer with
  | JObj fields => match py_get "task_id" fields with JStr s => s | _ => "" end
  | _ => ""
  end.

(** Descending order of the sort keys. *)
Definition key_ge (x y : dict json) : Prop :=
  String.leb (start_key y) (start_key x) = true.

(** A process that has just started: nothing in memory, no file, the clock
    reading [t0] and then one second more at each reading. *)
Definition fresh_world (t0 : Z) (g : nat -> generation) : world :=
  {| tasks := []; task_file := NoFile; reviews := []; review_file := NoFile;
     env_file := None; disk_ok := true; disk_failure := AtOpen;
     clock := fun n => t0 + Z.of_nat n * 1000000; ticks := 0;
     pool := []; running := []; max_workers := 3;
     threads := []; market := g; gen_calls := 0 |}.

(** 2024-03-01T09:05:07 *)
Definition t_morning : Z := Iso.instant 2024 3 1 9 5 7.

(** Vocabulary of the env-file statements. *)

Local Open Scope N_scope.

Definition all_space (s : pystr) : bool := forallb is_space s.

(** The text does not start with white space. *)
Definition no_lead (s : pystr) : Prop :=
  match s with
  | [] => True
  | c :: _ => is_space c = false
  end.

(** The text does not end with white space. *)
Definition no_trail (s : pystr) : Prop := no_lead (rev s).

Definition no_linebreak (s : pystr) : bool :=
  forallb (fun c => negb (is_linebreak c)) s.

(** A part of a normalized list: not empty, trimmed, without comma and
    without line feed. *)
Definition good_part (p : pystr) : Prop :=
  p <> [] /\ no_lead p /\ no_trail p /\ ~ In comma p /\ ~ In LF p.

(** The parts that [_normalize_stock_list] joins. *)
Definition normal_parts (value : pystr) : list pystr :=
  filter (fun p => negb (is_empty p))
         (map strip (split_on comma (replace_char LF comma value))).




(** The lines that [_update_stock_list] joins. *)
Definition out_lines_of (env_text new_value : pystr) : list pystr :=
  let lines := splitlines env_text in
  let out_lines := map (update_line new_value) lines in
  if existsb is_stock_list_line lines then out_lines
  else
    (match out_lines with
     | [] => out_lines
     | _ :: _ =>
         if is_empty (strip (last out_lines [])) then out_lines
         else out_lines ++ [[]]
     end) ++ [text "STOCK_LIST=" ++ new_value].




Local Close Scope N_scope.

(* ================================================================= *)
(** ** Worlds of the runs below, on 2024-03-01 *)

(** The report generation always fails. *)
Definition failing_market_world : world :=
  fresh_world t_morning (fun _ => GenFailed "network timeout").

Definition stored_record (task_id code status start_time : string) : dict json :=
  [("task_id", JStr task_id); ("code", JStr code); ("status", JStr status);
   ("start_time", JStr start_time); ("result", JNull); ("error", JNull)].

(** Started ten days before [t_morning]. *)
Definition old_record : dict json :=
  stored_record "600519_20240220_100000_000000" "600519" "failed" "2024-02-20T10:00:00".

(** Started the day before. *)
Definition mid_record : dict json :=
  stored_record "000001_20240229_120000_000000" "000001" "failed" "2024-02-29T12:00:00".

(** Started an hour before. *)
Definition new_record : dict json :=
  stored_record "hk00700_20240301_080000_000000" "hk00700" "running" "2024-03-01T08:00:00".

(** Without [start_time]. *)
Definition unstamped_record : dict json :=
  [("task_id", JStr "000002_x"); ("code", JStr "000002"); ("status", JStr "running")].

(** With a [start_time] that does not parse. *)
Definition garbled_record : dict json :=
  stored_record "000003_x" "000003" "running" "yesterday".

Definition quiet_world : world := fresh_world t_morning (fun _ => GenFailed "").

(** The task file holds an old and a new record. *)
Definition persisted_world : world :=
  with_task_file
    (Json (JObj [("600519_20240220_100000_000000", JObj old_record);
                 ("hk00700_20240301_080000_000000", JObj new_record)]))
    quiet_world.

(** The review file holds the review of 2024-01-01. *)
Definition old_review : json :=
  JObj [("date", JStr "2024-01-01"); ("report", JStr "review");
        ("generated_at", JStr "2024-01-01T15:30:00"); ("overview", JObj [])].

Definition old_review_world : world :=
  with_review_file (Json (JObj [("2024-01-01", old_review)])) quiet_world.

(** The task file holds a record without start time only. *)
Definition unstamped_file_world : world :=
  with_task_file (Json (JObj [("000002_x", JObj unstamped_record)])) quiet_world.

(** The table holds an old, a new and a garbled record. *)
Definition mixed_world : world :=
  with_tasks [("600519_20240220_100000_000000", old_record);
              ("hk00700_20240301_080000_000000", new_record);
              ("000003_x", garbled_record)]
             quiet_world.

(** A table put together by hand, which holds the two records without a
    usable start time. *)
Definition unusable_world : world :=
  with_tasks [("000002_x", unstamped_record); ("000003_x", garbled_record)] quiet_world.

(** The table holds an old record and two records of the last day. *)
Definition busy_world : world :=
  with_tasks [("600519_20240220_100000_000000", old_record);
              ("000001_20240229_120000_000000", mid_record);
              ("hk00700_20240301_080000_000000", new_record)]
             quiet_world.

(** The table holds the two records of the last day. *)
Definition recent_world : world :=
  with_tasks [("000001_20240229_120000_000000", mid_record);
              ("hk00700_20240301_080000_000000", new_record)]
             quiet_world.

(* ================================================================= *)
(** ** Vocabulary of the further properties *)

Section MoreVocabulary.
Context {P : Platform}.

(** Whether the loop of [_load_reviews] keeps the review stored under
    [date_str]. *)
Definition review_kept (now : Z) (date_str : string) : bool :=
  match strptime_ymd date_str with
  | Some review_date => (now - review_date) / (24 * 3600 * 1000000) <=? 7
  | None => false
  end.

(** The review that [get_today_review] stores at a generation. *)
Definition generated_review (today : string) (report overview : json)
           (generated_at : Z) : json :=
  JObj [("date", JStr today); ("report", report);
        ("generated_at", JStr (isoformat generated_at)); ("overview", overview)].

(** What [isoformat] writes for the readings of the clock of [w],
    [fromisoformat] reads as a naive instant. *)
Definition clock_parses (w : world) : Prop :=
  forall n : nat,
    isoformat (clock w n) <> ""
    /\ exists t' : Z, fromisoformat (isoformat (clock w n)) = Naive t'.

(** A value of the task document that makes [_load_tasks] give up: not an
    object, or an object whose start time raises [TypeError]. *)
Definition poisonous (now : Z) (v : json) : bool :=
  match v with
  | JObj task => is_faulty now task
  | _ => true
  end.
End MoreVocabulary.

(** A review with a date that is a string (or without date). *)
Definition dated (x : json) : Prop :=
  exists fields s, x = JObj fields /\ py_get_default "date" fields = JStr s.

(** Descending order of the dates. *)
Definition date_ge (x y : json) : Prop :=
  String.leb (date_string y) (date_string x) = true.

Local Open Scope N_scope.

(** The lines of an env text that are not empty and are no [STOCK_LIST]
    line: the other settings and the comments. *)
Definition is_other_setting (line : pystr) : bool :=
  negb (is_stock_list_line line) && negb (is_empty line).

Definition other_settings (env_text : pystr) : list pystr :=
  filter is_other_setting (splitlines env_text).

(** The lines without the last one when it is empty: what [splitlines]
    reads of lines joined by line feeds. *)
Fixpoint drop_last_empty (lines : list pystr) : list pystr :=
  match lines with
  | [] => []
  | p :: rest =>
      match rest with
      | [] => if is_empty p then [] else [p]
      | _ :: _ => p :: drop_last_empty rest
      end
  end.

(** The line carries [value] as its [STOCK_LIST]. *)
Definition carries (value line : pystr) : Prop :=
  exists prefix suffix, stock_list_re_match line = Some (prefix, value, suffix).

Local Close Scope N_scope.

(** Worlds of the further runs. *)

(** The report generation always succeeds. *)
Definition working_market_world : world :=
  fresh_world t_morning (fun _ => Generated (JStr "report") (JObj [])).

(** A process started two days later on the review file [f]. *)
Definition later_world (f : file) : world :=
  with_review_file f (fresh_world (t_morning + 2 * Iso.us_per_day) (fun _ => GenFailed "")).

Definition review_of (date : string) : json :=
  JObj [("date", JStr date); ("report", JStr "review")].

(** The review file holds reviews of eight and of seven days before
    [t_morning], one under a key that is no date and one of a later day. *)
Definition review_file_world : world :=
  with_review_file
    (Json (JObj [("2024-02-22", review_of "2024-02-22");
                 ("2024-02-23", review_of "2024-02-23");
                 ("soon", review_of "soon");
                 ("2024-03-05", review_of "2024-03-05")]))
    quiet_world.

(** The cache holds an old review and two of the last days. *)
Definition reviewed_world : world :=
  with_reviews [("2024-01-01", old_review);
                ("2024-03-01", review_of "2024-03-01");
                ("2024-02-29", review_of "2024-02-29")]
               quiet_world.

(** The world [w] on a disk whose writes fail as [failure] says. *)
Definition failing_disk (failure : write_failure) (w : world) : world :=
  {| tasks := tasks w; task_file := task_file w; reviews := reviews w;
     review_file := review_file w; env_file := env_file w; disk_ok := false;
     disk_failure := failure;
     clock := clock w; ticks := ticks w; pool := pool w; running := running w;
     max_workers := max_workers w; threads := threads w;
     market := market w; gen_calls := gen_calls w |}.

(** The world [w] on a disk that refuses every [open] for writing. *)
Definition read_only_disk (w : world) : world := failing_disk AtOpen w.

(** Started an hour before, the start time written with an offset. *)
Definition aware_record : dict json :=
  stored_record "000004_x" "000004" "running" "2024-03-01T08:00:00+08:00".

(** The task file holds a record of the last hour and one whose start
    time has an offset; the table holds a record of the day before. *)
Definition poisoned_file_world : world :=
  with_tasks [("000001_20240229_120000_000000", mid_record)]
    (with_task_file
       (Json (JObj [("hk00700_20240301_080000_000000", JObj new_record);
                    ("000004_x", JObj aware_record)]))
       quiet_world).

(** The task file holds the records of [recent_world], which are in its
    table too. *)
Definition recent_saved_world : world :=
  with_task_file (Json (json_of_tasks (tasks recent_world))) recent_world.

(** An env file of four lines, two of them [STOCK_LIST] lines, the last
    line ended by a line feed. *)
Definition env_two_lists : pystr :=
  text "# watch list" ++ [LF] ++ text "STOCK_LIST = 600519  " ++ [LF]
  ++ text "TOKEN=abc" ++ [LF] ++ text "STOCK_LIST=000001" ++ [LF].

(** An env file without [STOCK_LIST] line: the line that names it is a
    comment. *)
Definition env_without_list : pystr :=
  text "#STOCK_LIST=600519" ++ [LF] ++ text "TOKEN=abc".

Definition env_world (content : pystr) : world :=
  with_env_file (Some content) quiet_world.

(** [persisted_world] with a clock that stands still at [t_morning]. *)
Definition frozen_clock_world : world :=
  {| tasks := []; task_file := task_file persisted_world; reviews := [];
     review_file := NoFile; env_file := None; disk_ok := true;
     disk_failure := AtOpen;
     clock := fun _ => t_morning; ticks := 0;
     pool := []; running := []; max_workers := 3;
     threads := []; market := fun _ => GenFailed ""; gen_calls := 0 |}.

(* ================================================================= *)
(** ** Vocabulary of the schedules

    A job runs while the methods of the service are called: between the
    step that begins it and the step that ends it, any events may
    happen. *)

(** The event is a step of a job with the id. *)
Definition job_event (task_id : string) (e : event) : bool :=
  match e with
  | JobBegun _ t | JobEnded _ t _ => (t =? task_id)%string
  | _ => false
  end.

(** The event is a call of [delete_task] on the id. *)
Definition deletion_of (task_id : string) (e : event) : bool :=
  match e with
  | Deleted t => (t =? task_id)%string
  | _ => false
  end.

(** The event is the end of a job, which frees a worker. *)
Definition job_end (e : event) : bool :=
  match e with
  | JobEnded _ _ _ => true
  | _ => false
  end.

Section Schedules.
Context {P : Platform}.

(** Every job start of the events is one that the executor allows in the
    world where it happens. *)
Fixpoint scheduled (events : list event) (w : world) : bool :=
  match events with
  | [] => true
  | e :: rest =>
      match e with
      | JobBegun code task_id => can_begin (code, task_id) w
      | _ => true
      end
      && scheduled rest (perform e w)
  end.
End Schedules.

(** Three jobs were submitted and begun, none has ended. *)
Definition three_jobs : list event :=
  [Submitted "000001"; JobBegun "000001" "000001_20240301_090507_000000";
   Submitted "000002"; JobBegun "000002" "000002_20240301_090511_000000";
   Submitted "000003"; JobBegun "000003" "000003_20240301_090515_000000"].

(** A service whose three workers are busy. *)
Definition saturated_world : world := after_events three_jobs quiet_world.


(** The task file holds a record without start time, one whose start time
    does not parse, and one of the last hour; the clock stands still. *)
Definition cluttered_file_world : world :=
  with_task_file
    (Json (JObj [("000002_x", JObj unstamped_record);
                 ("000003_x", JObj garbled_record);
                 ("hk00700_20240301_080000_000000", JObj new_record)]))
    frozen_clock_world.

(** The task file holds an old record, one of the last hour and one whose
    start time has an offset. *)
Definition stale_and_aware_file_world : world :=
  with_task_file
    (Json (JObj [("600519_20240220_100000_000000", JObj old_record);
                 ("hk00700_20240301_080000_000000", JObj new_record);
                 ("000004_x", JObj aware_record)]))
    quiet_world.

(** The task file holds an old record and two records that reach the
    age of 72 hours one and two seconds after [t_morning]. *)
Definition going_stale_world : world :=
  with_task_file
    (Json (JObj [("600519_20240220_100000_000000", JObj old_record);
                 ("000005_x",
                  JObj (stored_record "000005_x" "000005" "completed"
                                      "2024-02-27T09:05:08"));
                 ("000006_x",
                  JObj (stored_record "000006_x" "000006" "completed"
                                      "2024-02-27T09:05:09"))]))
    quiet_world.

(** Two records whose start time is a number. *)
Definition numbered_records : list (dict json) :=
  [[("task_id", JStr "a"); ("start_time", JNum 1)];
   [("task_id", JStr "b"); ("start_time", JNum 2)]].

(* ================================================================= *)
(** ** Proof tactics *)

(** Unfolds the operations of the monad. *)
Ltac run_monad :=
  unfold bind, ret, gets, modify, lift, raise, try_except, datetime_now; simpl.

(** Splits on how the eviction policy reads the start time of [task]. *)
Ltac split_stamp now task :=
  unfold is_fresh, is_stale, is_unusable, is_faulty, classify in *;
  destruct (truthy (py_get "start_time" task)); simpl;
  [destruct (elapsed now (py_get "start_time" task)) as [d|[]]; simpl;
   [destruct (within_retention d); simpl|..]|].

(* ================================================================= *)
(** ** The datetime platform at work *)

Example isoformat_epoch : Iso.isoformat 0 = "1970-01-01T00:00:00".
Proof. vm_compute. reflexivity. Qed.

Example isoformat_leap_day :
  Iso.isoformat (Iso.instant 2024 2 29 23 59 58 + 17) = "2024-02-29T23:59:58.000017".
Proof. vm_compute. reflexivity. Qed.

Example fromisoformat_reads_isoformat :
  Iso.fromisoformat (Iso.isoformat t_morning) = Naive t_morning
  /\ Iso.fromisoformat "2024-03-01T09:05:07.000123" = Naive (t_morning + 123).
Proof. vm_compute. split; reflexivity. Qed.

Example fromisoformat_rejects :
  Iso.fromisoformat "yesterday" = Invalid
  /\ Iso.fromisoformat "2024-02-30T09:05:07" = Invalid
  /\ Iso.fromisoformat "2024-03-01T09:05:07+08:00" = Aware.
Proof. vm_compute. repeat split; reflexivity. Qed.

Example slices :
  py_slice_to 2 [1; 2; 3] = [1; 2] /\ py_slice_to (-1) [1; 2; 3] = [1; 2]
  /\ py_slice_to (-5) [1; 2; 3] = [] /\ py_slice_to 7 [1; 2; 3] = [1; 2; 3].
Proof. vm_compute. repeat split; reflexivity. Qed.

(* ================================================================= *)
(** ** Dictionaries *)

Section DictFacts.
Context {V : Type}.
Implicit Types (d : dict V) (k : string) (v : V).

Lemma dict_get_set_same d k v : dict_get k (dict_set k v d) = Some v.
Proof.
  induction d as [|[k' v'] d IH]; simpl.
  - now rewrite String.eqb_refl.
  - destruct (String.eqb_spec k' k) as [->|Hne]; simpl.
    + now rewrite String.eqb_refl.
    + destruct (String.eqb_spec k' k); [contradiction|exact IH].
Qed.

Lemma dict_get_set_other d k k' v :
  k' <> k -> dict_get k' (dict_set k v d) = dict_get k' d.
Proof.
  intros Hne. induction d as [|[k0 v0] d IH]; simpl.
  - destruct (String.eqb_spec k k'); [congruence|reflexivity].
  - destruct (String.eqb_spec k0 k) as [->|H0]; simpl.
    + destruct (String.eqb_spec k k'); [congruence|reflexivity].
    + destruct (String.eqb_spec k0 k'); [reflexivity|exact IH].
Qed.

Lemma dict_get_del_same d k : dict_get k (dict_del k d) = None.
Proof.
  unfold dict_del. induction d as [|[k' v'] d IH]; simpl; [reflexivity|].
  destruct (String.eqb_spec k' k) as [->|Hne]; simpl; [exact IH|].
  destruct (String.eqb_spec k' k); [contradiction|exact IH].
Qed.

Lemma dict_get_In d k v : dict_get k d = Some v -> In (k, v) d.
Proof.
  induction d as [|[k' v'] d IH]; simpl; [discriminate|].
  destruct (String.eqb_spec k' k) as [->|Hne].
  - intros [= ->]. now left.
  - intros H. right. now apply IH.
Qed.

Lemma dict_get_None d k : dict_get k d = None <-> ~ In k (dict_keys d).
Proof.
  induction d as [|[k' v'] d IH]; simpl.
  - split; [intros _ []|reflexivity].
  - destruct (String.eqb_spec k' k) as [->|Hne].
    + split; [discriminate|]. intros H. exfalso. apply H. now left.
    + rewrite IH. split.
      * intros H [Hk|Hk]; [contradiction|now apply H].
      * intros H Hk. apply H. now right.
Qed.

Lemma dict_set_fresh d k v :
  ~ In k (dict_keys d) -> dict_set k v d = d ++ [(k, v)].
Proof.
  induction d as [|[k' v'] d IH]; simpl; [reflexivity|].
  intros H. destruct (String.eqb_spec k' k) as [->|Hne].
  - exfalso. apply H. now left.
  - f_equal. apply IH. intros Hk. apply H. now right.
Qed.

Lemma dict_keys_set d k v :
  NoDup (dict_keys d) -> NoDup (dict_keys (dict_set k v d)).
Proof.
  unfold dict_keys. induction d as [|[k' v'] d IH]; simpl; intros Hnd.
  - constructor; [intros []|constructor].
  - inversion Hnd as [|? ? Hnotin Hnd']; subst.
    destruct (String.eqb_spec k' k) as [->|Hne]; simpl.
    + now constructor.
    + constructor; [|now apply IH].
      intros Hin. apply Hnotin. clear - Hin Hne.
      induction d as [|[k0 v0] d IH]; simpl in *.
      * destruct Hin as [Hin|[]]. congruence.
      * destruct (String.eqb_spec k0 k) as [->|H0]; simpl in *.
        -- destruct Hin as [Hin|Hin]; [congruence|now right].
        -- destruct Hin as [Hin|Hin]; [now left|right; now apply IH].
Qed.

Lemma NoDup_keys_unique d k v v' :
  NoDup (dict_keys d) -> In (k, v) d -> In (k, v') d -> v = v'.
Proof.
  unfold dict_keys. induction d as [|[k0 v0] d IH]; simpl; [contradiction|].
  intros Hnd Hin Hin'. inversion Hnd as [|? ? Hnotin Hnd']; subst.
  destruct Hin as [Heq|Hin], Hin' as [Heq'|Hin'].
  - congruence.
  - exfalso. apply Hnotin. apply in_map_iff. exists (k, v'). split; [simpl; congruence|assumption].
  - exfalso. apply Hnotin. apply in_map_iff. exists (k, v). split; [simpl; congruence|assumption].
  - now apply IH.
Qed.

Lemma dict_keys_filter (f : string * V -> bool) d :
  NoDup (dict_keys d) -> NoDup (dict_keys (filter f d)).
Proof.
  unfold dict_keys. induction d as [|kv d IH]; simpl; intros Hnd; [constructor|].
  inversion Hnd as [|? ? Hnotin Hnd']; subst.
  destruct (f kv); simpl; [|now apply IH].
  constructor; [|now apply IH].
  intros Hin. apply Hnotin. apply in_map_iff in Hin as [x [Hx Hin]].
  apply filter_In in Hin as [Hin _]. apply in_map_iff. now exists x.
Qed.
End DictFacts.

(* ================================================================= *)
(** ** The durable task store *)

Section SaveFacts.
Context {P : Platform}.

Lemma _save_tasks_eq (w : world) : _save_tasks w = (Ok tt, saved_world w).
Proof.
  unfold _save_tasks, saved_world, write_task_file, makedirs. run_monad.
  destruct (disk_ok w) eqn:Ed; [|destruct (disk_failure w) eqn:Ef]; simpl;
    try reflexivity;
    (destruct (save_scan _ _ _); simpl; rewrite ?Ed, ?Ef; reflexivity).
Qed.

Lemma saved_world_fields (w : world) :
  let w' := saved_world w in
  tasks w' = tasks w /\ reviews w' = reviews w /\ review_file w' = review_file w
  /\ env_file w' = env_file w /\ disk_ok w' = disk_ok w /\ clock w' = clock w
  /\ (ticks w' = ticks w \/ ticks w' = S (ticks w))
  /\ pool w' = pool w /\ threads w' = threads w
  /\ market w' = market w /\ gen_calls w' = gen_calls w
  /\ disk_failure w' = disk_failure w /\ running w' = running w
  /\ max_workers w' = max_workers w.
Proof.
  unfold saved_world.
  destruct (disk_ok w) eqn:Ed; [|destruct (disk_failure w) eqn:Ef];
    try (destruct (save_scan _ _ _));
    simpl; rewrite ?Ed, ?Ef; repeat split; auto.
Qed.

(** A save reads the clock once, unless [os.makedirs] raises. *)
Lemma saved_world_ticks (w : world) :
  disk_ok w = true \/ disk_failure w <> AtMakedirs ->
  ticks (saved_world w) = S (ticks w).
Proof.
  unfold saved_world. intros H.
  destruct (disk_ok w) eqn:Ed; [|destruct (disk_failure w) eqn:Ef];
    try (destruct H; congruence);
    destruct (save_scan _ _ _); reflexivity.
Qed.

Lemma saved_world_tasks (w : world) : tasks (saved_world w) = tasks w.
Proof. apply saved_world_fields. Qed.
End SaveFacts.

(* ================================================================= *)
(** ** Lookups and deletion *)

(** C9. A lookup changes nothing: after [get_task_status] and after
    [get_review_by_date] the world, and so the table that any later
    operation observes, is the one before the call, for every key and
    every table, whether the key is present or not and whatever the age of
    its record; the answer is the record stored under the key. *)
Theorem get_leaves_world_unchanged (key : string) (w : world) :
  get_task_status key w = (Ok (dict_get key (tasks w)), w)
  /\ get_review_by_date key w = (Ok (dict_get key (reviews w)), w).
Proof. split; reflexivity. Qed.

Section DeleteFacts.
Context {P : Platform}.

Lemma delete_task_eq (key : string) (w : world) :
  delete_task key w
  = if dict_mem key (tasks w)
    then (Ok true, saved_world (with_tasks (dict_del key (tasks w)) w))
    else (Ok false, w).
Proof.
  unfold delete_task. run_monad.
  destruct (dict_mem key (tasks w)); run_monad; [|reflexivity].
  now rewrite _save_tasks_eq.
Qed.

(** C8. [delete_task] never raises and answers whether the key was in
    the table.  When it was, the record is removed and [_save_tasks] runs
    on the table without it; when it was not, nothing changes.  In both
    cases a lookup of the key right after the deletion finds nothing. *)
Theorem delete_task_spec (key : string) (w : world) :
  fst (delete_task key w) = Ok (dict_mem key (tasks w))
  /\ (dict_mem key (tasks w) = true ->
      snd (delete_task key w)
      = snd (_save_tasks (with_tasks (dict_del key (tasks w)) w)))
  /\ (dict_mem key (tasks w) = false -> snd (delete_task key w) = w)
  /\ fst (get_task_status key (snd (delete_task key w))) = Ok None.
Proof.
  unfold delete_task, get_task_status. run_monad.
  destruct (dict_mem key (tasks w)) eqn:Hmem; run_monad.
  - rewrite _save_tasks_eq. simpl. repeat split; try reflexivity; try discriminate.
    rewrite saved_world_tasks. simpl. now rewrite dict_get_del_same.
  - repeat split; try reflexivity; try discriminate.
    unfold dict_mem in Hmem. destruct (dict_get key (tasks w)); [discriminate|reflexivity].
Qed.

(** When the write succeeds, the file that [delete_task] leaves is the
    document of the table without the key, filtered by the policy. *)
Lemma delete_task_file (key : string) (w : world) (kept : dict (dict json)) :
  dict_mem key (tasks w) = true ->
  disk_ok w = true ->
  save_scan (clock w (ticks w)) (dict_del key (tasks w)) [] = Ok kept ->
  task_file (snd (delete_task key w)) = Json (json_of_tasks kept).
Proof.
  intros Hmem Hdisk Hscan. unfold delete_task. run_monad. rewrite Hmem. run_monad.
  rewrite _save_tasks_eq. simpl. unfold saved_world. simpl.
  rewrite Hscan, Hdisk. reflexivity.
Qed.
End DeleteFacts.

(* ================================================================= *)
(** ** The worker *)

Section WorkerFacts.
Context {P : Platform}.

Lemma run_begin_eq (code task_id : string) (w : world) :
  run_begin code task_id w = (Ok tt, begun_world code task_id w).
Proof.
  unfold run_begin, begun_world. run_monad.
  now rewrite !_save_tasks_eq.
Qed.

Lemma begun_world_record (code task_id : string) (w : world) :
  dict_get task_id (tasks (begun_world code task_id w))
  = Some (running_record code task_id (clock w (ticks w))).
Proof.
  unfold begun_world. rewrite !saved_world_tasks. simpl.
  apply dict_get_set_same.
Qed.

Lemma update_task_eq (task_id : string) (fields : Z -> dict json)
      (task : dict json) (w : world) :
  dict_get task_id (tasks w) = Some task ->
  update_task task_id fields w
  = (Ok tt,
     with_tasks (dict_set task_id (dict_update (fields (clock w (ticks w))) task) (tasks w))
                (with_ticks (S (ticks w)) w)).
Proof. intros H. unfold update_task. run_monad. rewrite H. reflexivity. Qed.

Lemma running_record_ok (code task_id : string) (now : Z) :
  task_record_ok (running_record code task_id now)
  /\ has_status "running" (running_record code task_id now).
Proof.
  unfold task_record_ok, populated, has_status, running_record, py_get. simpl.
  repeat split; try congruence.
  intros [H|H]; discriminate.
Qed.


End WorkerFacts.

(* ================================================================= *)
(** ** Submission *)

Section SubmitFacts.
Context {P : Platform}.

Lemma submit_analysis_eq (code : string) (w : world) :
  submit_analysis code w
  = (Ok (JObj [("success", JBool true);
               ("message", JStr "分析任务已提交，将异步执行并推送通知");
               ("code", JStr code);
               ("task_id", JStr (task_id_at code (clock w (ticks w))))]),
     with_pool (pool w ++ [(code, task_id_at code (clock w (ticks w)))])
               (with_ticks (S (ticks w)) w)).
Proof. reflexivity. Qed.

End SubmitFacts.

Example submit_task_id :
  fst (submit_analysis "600519" (fresh_world t_morning (fun _ => GenFailed "")))
  = Ok (JObj [("success", JBool true);
              ("message", JStr "分析任务已提交，将异步执行并推送通知");
              ("code", JStr "600519");
              ("task_id", JStr "600519_20240301_090507_000000")]).
Proof. vm_compute. reflexivity. Qed.

(* ================================================================= *)
(** ** The daily review cache *)

Section MarketFacts.
Context {P : Platform}.

Lemma _save_reviews_eq (w : world) :
  _save_reviews w
  = (Ok tt,
     if disk_ok w then with_review_file (Json (JObj (reviews w))) w
     else
       match disk_failure w with
       | AfterOpen _ => with_review_file Garbage w
       | AtMakedirs | AtOpen => w
       end).
Proof.
  unfold _save_reviews, write_review_file, makedirs. run_monad.
  destruct (disk_ok w) eqn:Ed; [|destruct (disk_failure w) eqn:Ef]; simpl;
    rewrite ?Ed, ?Ef; reflexivity.
Qed.

(** A call that does not answer from the cache starts one generation. *)
Lemma get_today_review_miss (force_refresh : bool) (w : world) :
  force_refresh = true
  \/ dict_get (strftime_ymd (clock w (ticks w))) (reviews w) = None ->
  gen_calls (snd (get_today_review force_refresh w)) = S (gen_calls w).
Proof.
  intros Hmiss. unfold get_today_review. run_monad.
  assert ((if force_refresh then None
           else dict_get (strftime_ymd (clock w (ticks w))) (reviews w)) = None) as ->.
  { destruct Hmiss as [->|H]; [reflexivity|]. destruct force_refresh; [reflexivity|exact H]. }
  unfold generate_review. run_monad.
  destruct (market w (gen_calls w)); run_monad; [|reflexivity].
  rewrite _save_reviews_eq. simpl.
  destruct (disk_ok w); [|destruct (disk_failure w)]; reflexivity.
Qed.

(** A call that answers from the cache starts none. *)
Lemma get_today_review_hit (w : world) (cached : json) :
  dict_get (strftime_ymd (clock w (ticks w))) (reviews w) = Some cached ->
  get_today_review false w = (Ok cached, with_ticks (S (ticks w)) w).
Proof.
  intros Hhit. unfold get_today_review. run_monad. rewrite Hhit. reflexivity.
Qed.

(** A generated review is stored under the date of the day. *)
Lemma get_today_review_generated (force_refresh : bool) (w : world)
      (report overview : json) :
  force_refresh = true
  \/ dict_get (strftime_ymd (clock w (ticks w))) (reviews w) = None ->
  market w (gen_calls w) = Generated report overview ->
  let today := strftime_ymd (clock w (ticks w)) in
  let review_data :=
    JObj [("date", JStr today); ("report", report);
          ("generated_at", JStr (isoformat (clock w (S (ticks w)))));
          ("overview", overview)] in
  fst (get_today_review force_refresh w) = Ok review_data
  /\ dict_get today (reviews (snd (get_today_review force_refresh w))) = Some review_data.
Proof.
  intros Hmiss Hgen. unfold get_today_review. run_monad.
  assert ((if force_refresh then None
           else dict_get (strftime_ymd (clock w (ticks w))) (reviews w)) = None) as ->.
  { destruct Hmiss as [->|H]; [reflexivity|]. destruct force_refresh; [reflexivity|exact H]. }
  unfold generate_review. run_monad. rewrite Hgen. run_monad.
  rewrite _save_reviews_eq. simpl.
  destruct (disk_ok w); [|destruct (disk_failure w)]; simpl;
    (split; [reflexivity|apply dict_get_set_same]).
Qed.

(** C2, amended. When generation fails in a call that does not answer
    from the cache, [get_today_review] answers the error record (the date
    of the day, the text of the exception, the instant) and stores
    nothing: the cache and the file are as before and one generation was
    started.  So a second call on the same date without [force_refresh],
    the date not being cached, starts a generation again. *)
Theorem failed_generation_not_cached (force_refresh : bool) (msg : string) (w : world) :
  force_refresh = true
  \/ dict_get (strftime_ymd (clock w (ticks w))) (reviews w) = None ->
  market w (gen_calls w) = GenFailed msg ->
  let today := strftime_ymd (clock w (ticks w)) in
  let w1 := snd (get_today_review force_refresh w) in
  fst (get_today_review force_refresh w)
  = Ok (error_review today msg (clock w (S (ticks w))))
  /\ reviews w1 = reviews w
  /\ review_file w1 = review_file w
  /\ gen_calls w1 = S (gen_calls w)
  /\ (strftime_ymd (clock w1 (ticks w1)) = today ->
      dict_get today (reviews w) = None ->
      gen_calls (snd (get_today_review false w1)) = S (S (gen_calls w))).
Proof.
  intros Hmiss Hfail today w1.
  assert (get_today_review force_refresh w
          = (Ok (error_review today msg (clock w (S (ticks w)))),
             with_ticks (S (S (ticks w))) (with_gen_calls (S (gen_calls w)) w))) as Heq.
  { unfold get_today_review. run_monad.
    assert ((if force_refresh then None
             else dict_get (strftime_ymd (clock w (ticks w))) (reviews w)) = None) as ->.
    { destruct Hmiss as [->|H]; [reflexivity|].
      destruct force_refresh; [reflexivity|exact H]. }
    unfold generate_review. run_monad. rewrite Hfail. reflexivity. }
  subst w1. rewrite Heq. simpl. repeat split.
  intros Hday Hnone.
  rewrite get_today_review_miss; [reflexivity|].
  right. simpl. simpl in Hday. rewrite Hday. exact Hnone.
Qed.
End MarketFacts.

(** Two calls of the day with a generation that fails. *)
Lemma failed_generation_not_cached_witness :
  let w := failing_market_world in
  let w1 := snd (get_today_review false w) in
  fst (get_today_review false w)
  = Ok (error_review "2024-03-01" "network timeout" (t_morning + 1000000))
  /\ reviews w1 = []
  /\ review_file w1 = NoFile
  /\ gen_calls w1 = 1%nat
  /\ (strftime_ymd (clock w1 (ticks w1)) = "2024-03-01" ->
      dict_get "2024-03-01" (reviews w) = None ->
      gen_calls (snd (get_today_review false w1)) = 2%nat).
Proof.
  exact (@failed_generation_not_cached iso_platform false "network timeout"
           failing_market_world (or_intror eq_refl) eq_refl).
Defined.

(** C2 as stated fails: after a failed generation the cache holds no
    record for the day, and the second call of the day generates again. *)
Lemma failed_review_is_not_stored :
  fst ((get_today_review false ;; get_review_by_date "2024-03-01") failing_market_world)
  = Ok None
  /\ gen_calls (snd ((get_today_review false ;; get_today_review false) failing_market_world))
     = 2%nat.
Proof. vm_compute. split; reflexivity. Qed.

(* ================================================================= *)
(** ** The eviction scans *)

Section ScanFacts.
Context {P : Platform}.

(** Whether a record raises [TypeError] does not depend on the instant. *)
Lemma is_faulty_any_time (now now' : Z) (task : dict json) :
  is_faulty now task = is_faulty now' task.
Proof.
  unfold is_faulty, classify, elapsed.
  destruct (truthy _); [|reflexivity].
  destruct (py_get "start_time" task); try reflexivity.
  destruct (fromisoformat s); try reflexivity.
  destruct (within_retention _), (within_retention _); reflexivity.
Qed.

Lemma is_fresh_not_faulty (now : Z) (task : dict json) :
  is_fresh now task = true -> is_faulty now task = false.
Proof. unfold is_fresh, is_faulty. destruct (classify now task); congruence. Qed.

(** A fresh record started at most 72 hours before. *)
Lemma is_fresh_started (now : Z) (task : dict json) :
  is_fresh now task = true <->
  exists t, started_at task t /\ now - t <= retention_us.
Proof.
  unfold is_fresh, classify, started_at, elapsed, within_retention. split.
  - destruct (py_get "start_time" task) as [|b|n|s|items|fields] eqn:Hget; simpl.
    + discriminate.
    + destruct b; discriminate.
    + destruct (n =? 0); discriminate.
    + destruct (String.eqb_spec s ""); simpl; [discriminate|].
      destruct (fromisoformat s) eqn:Hparse; try discriminate.
      destruct (Z.leb_spec (now - t) retention_us); [|discriminate].
      intros _. exists t. split; [|assumption]. now exists s.
    + destruct items; discriminate.
    + destruct fields; discriminate.
  - intros (t & (s & Hget & Hne & Hparse) & Hage). rewrite Hget. simpl.
    destruct (String.eqb_spec s ""); [contradiction|]. simpl. rewrite Hparse.
    destruct (Z.leb_spec (now - t) retention_us); [reflexivity|lia].
Qed.

(** A stale record started more than 72 hours before. *)
Lemma is_stale_started (now : Z) (task : dict json) :
  is_stale now task = true <->
  exists t, started_at task t /\ retention_us < now - t.
Proof.
  unfold is_stale, classify, started_at, elapsed, within_retention. split.
  - destruct (py_get "start_time" task) as [|b|n|s|items|fields] eqn:Hget; simpl.
    + discriminate.
    + destruct b; discriminate.
    + destruct (n =? 0); discriminate.
    + destruct (String.eqb_spec s ""); simpl; [discriminate|].
      destruct (fromisoformat s) eqn:Hparse; try discriminate.
      destruct (Z.leb_spec (now - t) retention_us); [discriminate|].
      intros _. exists t. split; [|assumption]. now exists s.
    + destruct items; discriminate.
    + destruct fields; discriminate.
  - intros (t & (s & Hget & Hne & Hparse) & Hage). rewrite Hget. simpl.
    destruct (String.eqb_spec s ""); [contradiction|]. simpl. rewrite Hparse.
    destruct (Z.leb_spec (now - t) retention_us); [lia|reflexivity].
Qed.

(** A record with a start instant is fresh or stale, never unusable or
    faulty. *)
Lemma started_fresh_or_stale (now : Z) (task : dict json) (t : Z) :
  started_at task t ->
  is_faulty now task = false /\ is_unusable now task = false
  /\ is_stale now task = negb (is_fresh now task).
Proof.
  intros (s & Hget & Hne & Hparse).
  unfold is_faulty, is_unusable, is_stale, is_fresh, classify, elapsed.
  rewrite Hget. simpl. destruct (String.eqb_spec s ""); [contradiction|]. simpl.
  rewrite Hparse. destruct (within_retention _); repeat split.
Qed.

(** Fresh later, fresh before. *)
Lemma is_fresh_earlier (now now' : Z) (task : dict json) :
  now <= now' -> is_fresh now' task = true -> is_fresh now task = true.
Proof.
  intros Hle H. apply is_fresh_started in H as (t & Hst & Hage).
  apply is_fresh_started. exists t. split; [assumption|lia].
Qed.

Lemma NoDup_app_keys {V} (acc : dict V) (k : string) (v : V) (rest : dict V) :
  NoDup (dict_keys acc ++ dict_keys ((k, v) :: rest)) ->
  ~ In k (dict_keys acc) /\ NoDup (dict_keys (acc ++ [(k, v)]) ++ dict_keys rest).
Proof.
  unfold dict_keys. simpl. intros H. split.
  - intros Hin. apply NoDup_remove_2 in H. apply H. apply in_or_app. now left.
  - rewrite map_app. simpl. rewrite <- app_assoc. exact H.
Qed.

Lemma NoDup_app_skip {V} (acc : dict V) (kv : string * V) (rest : dict V) :
  NoDup (dict_keys acc ++ dict_keys (kv :: rest)) ->
  NoDup (dict_keys acc ++ dict_keys rest).
Proof. unfold dict_keys. simpl. apply NoDup_remove_1. Qed.

(** [_save_tasks] keeps the fresh records, in order. *)
Lemma save_scan_keeps_fresh (now : Z) (items acc : dict (dict json)) :
  NoDup (dict_keys acc ++ dict_keys items) ->
  Forall (fun kv => is_faulty now (snd kv) = false) items ->
  save_scan now items acc = Ok (acc ++ keep_fresh now items).
Proof.
  revert acc. induction items as [|[k task] items IH]; intros acc Hnd Hok; simpl.
  - now rewrite app_nil_r.
  - inversion Hok as [|? ? Hk Hrest]; subst. simpl in Hk.
    pose proof (NoDup_app_skip _ _ _ Hnd) as Hskip.
    destruct (NoDup_app_keys _ _ _ _ Hnd) as [Hnotin Hnd'].
    unfold keep_fresh in *. simpl. split_stamp now task; try discriminate;
      try (now apply IH).
    rewrite dict_set_fresh by exact Hnotin.
    rewrite IH by assumption. now rewrite <- app_assoc.
Qed.

(** [_load_tasks] keeps the fresh records of a persisted table, in
    order, and notes whether a stale one was met. *)
Lemma load_scan_keeps_fresh (now : Z) (items acc : dict (dict json)) (c : bool) :
  NoDup (dict_keys acc ++ dict_keys items) ->
  Forall (fun kv => is_faulty now (snd kv) = false) items ->
  load_scan now (doc_items items) acc c
  = Ok (acc ++ keep_fresh now items,
        c || existsb (fun kv => is_stale now (snd kv)) items).
Proof.
  revert acc c. induction items as [|[k task] items IH]; intros acc c Hnd Hok; simpl.
  - now rewrite app_nil_r, orb_false_r.
  - inversion Hok as [|? ? Hk Hrest]; subst. simpl in Hk.
    pose proof (NoDup_app_skip _ _ _ Hnd) as Hskip.
    destruct (NoDup_app_keys _ _ _ _ Hnd) as [Hnotin Hnd'].
    unfold keep_fresh in *. simpl. split_stamp now task; try discriminate;
      try (now apply IH).
    + rewrite dict_set_fresh by exact Hnotin.
      rewrite IH by assumption. now rewrite <- app_assoc.
    + rewrite IH by assumption. now rewrite orb_true_r.
Qed.

(** Whatever the document, a scan that ends has noted a change exactly
    when it met a stale record. *)
Lemma load_scan_changed (now : Z) (items : list (string * json))
      (acc valid : dict (dict json)) (c changed : bool) :
  load_scan now items acc c = Ok (valid, changed) ->
  changed = c || existsb (stale_doc now) (map snd items).
Proof.
  revert acc c. induction items as [|[k v] items IH]; intros acc c; simpl.
  - intros [= _ ->]. now rewrite orb_false_r.
  - destruct v as [| | | | |task]; try discriminate. simpl.
    split_stamp now task; intros H; try discriminate; try (now apply IH in H).
    apply IH in H. now rewrite orb_true_r in *.
Qed.

Lemma existsb_filter_nonempty {A} (f : A -> bool) (l : list A) :
  existsb f l = match filter f l with [] => false | _ :: _ => true end.
Proof.
  induction l as [|x l IH]; [reflexivity|]. simpl.
  destruct (f x); [reflexivity|exact IH].
Qed.

Lemma Forall_dict_set {V} (Q : string * V -> Prop) (k : string) (v : V) (d : dict V) :
  Forall Q d -> Q (k, v) -> Forall Q (dict_set k v d).
Proof.
  intros Hd Hkv. induction d as [|[k' v'] d IH]; simpl.
  - now constructor.
  - inversion Hd; subst. destruct (k' =? k)%string; constructor; auto.
Qed.

(** Whatever the document, a scan that ends has kept fresh records
    only, one per key. *)
Lemma load_scan_fresh (now : Z) (items : list (string * json))
      (acc valid : dict (dict json)) (c changed : bool) :
  load_scan now items acc c = Ok (valid, changed) ->
  Forall (fun kv => is_fresh now (snd kv) = true) acc ->
  NoDup (dict_keys acc) ->
  Forall (fun kv => is_fresh now (snd kv) = true) valid /\ NoDup (dict_keys valid).
Proof.
  revert acc c. induction items as [|[k v] items IH]; intros acc c; simpl.
  - intros [= -> _]. auto.
  - destruct v as [| | | | |task]; try discriminate. simpl.
    destruct (truthy (py_get "start_time" task)) eqn:Htruthy; simpl; [|now apply IH].
    destruct (elapsed now (py_get "start_time" task)) as [d|[]] eqn:Hel;
      try discriminate; try (now apply IH).
    destruct (within_retention d) eqn:Hret; [|now apply IH].
    intros H Hacc Hnd. apply IH in H; [assumption| |now apply dict_keys_set].
    apply Forall_dict_set; [assumption|]. simpl.
    unfold is_fresh, classify. now rewrite Htruthy, Hel, Hret.
Qed.

(** The ids that [list_tasks] collects are those of the stale records. *)
Lemma expired_scan_stale (now : Z) (items : dict (dict json)) (acc : list string) :
  Forall (fun kv => is_faulty now (snd kv) = false) items ->
  expired_scan now items acc
  = Ok (acc ++ dict_keys (filter (fun kv => is_stale now (snd kv)) items)).
Proof.
  revert acc. induction items as [|[k task] items IH]; intros acc Hok; simpl.
  - now rewrite app_nil_r.
  - inversion Hok as [|? ? Hk Hrest]; subst. simpl in Hk.
    split_stamp now task; try discriminate; try (now apply IH).
    rewrite IH by assumption. simpl. now rewrite <- app_assoc.
Qed.

Lemma delete_all_filter {V} (ids : list string) (d : dict V) :
  fold_left (fun d tid => dict_del tid d) ids d
  = filter (fun kv => negb (existsb (String.eqb (fst kv)) ids)) d.
Proof.
  revert d. induction ids as [|id ids IH]; intros d; simpl.
  - induction d as [|kv d IHd]; simpl; [reflexivity|now f_equal].
  - rewrite IH. unfold dict_del. clear IH.
    induction d as [|kv d IHd]; simpl; [reflexivity|].
    destruct (fst kv =? id)%string; simpl; [exact IHd|].
    destruct (existsb _ ids); simpl; [exact IHd|now f_equal].
Qed.

(** Deleting the ids of the records that satisfy [f] removes exactly
    these records, keys being unique. *)
Lemma delete_selected {V} (f : string * V -> bool) (d : dict V) :
  NoDup (dict_keys d) ->
  fold_left (fun d tid => dict_del tid d) (dict_keys (filter f d)) d
  = filter (fun kv => negb (f kv)) d.
Proof.
  intros Hnd. rewrite delete_all_filter. apply filter_ext_in.
  intros [k v] Hin. simpl. f_equal.
  destruct (f (k, v)) eqn:Hf.
  - apply existsb_exists. exists k. split; [|apply String.eqb_refl].
    unfold dict_keys. apply in_map_iff. exists (k, v). split; [reflexivity|].
    apply filter_In. now split.
  - apply not_true_is_false. intros Hex. apply existsb_exists in Hex as (k' & Hk' & Heq).
    apply String.eqb_eq in Heq. subst k'.
    unfold dict_keys in Hk'. apply in_map_iff in Hk' as ([k2 v2] & Hk2 & Hin2).
    simpl in Hk2. subst k2. apply filter_In in Hin2 as [Hin2 Hf2].
    assert (v2 = v) as -> by (eapply NoDup_keys_unique; eassumption).
    congruence.
Qed.
End ScanFacts.

(* ================================================================= *)
(** ** Loading *)

Section LoadFacts.
Context {P : Platform}.

(** [_load_tasks] never raises. *)
Lemma _load_tasks_eq (w : world) : _load_tasks w = (Ok tt, loaded_world w).
Proof.
  unfold _load_tasks, loaded_world. run_monad.
  destruct (task_file w) as [| |doc]; try reflexivity. simpl.
  destruct doc; try reflexivity. simpl.
  destruct (load_scan _ _ _ _) as [[valid changed]|e]; [|reflexivity]. simpl.
  destruct changed; [|reflexivity]. now rewrite _save_tasks_eq.
Qed.

(** The loaded table is the old one, when the file is missing or cannot
    be read as a table, or holds fresh records only. *)
Lemma loaded_world_tasks (w : world) :
  tasks (loaded_world w) = tasks w
  \/ (Forall (fun kv => is_fresh (clock w (ticks w)) (snd kv) = true)
             (tasks (loaded_world w))
      /\ NoDup (dict_keys (tasks (loaded_world w)))).
Proof.
  unfold loaded_world. destruct (task_file w) as [| |doc]; auto.
  destruct doc; auto.
  destruct (load_scan _ _ _ _) as [[valid changed]|e] eqn:Hscan; auto.
  right. apply load_scan_fresh in Hscan; [|constructor|constructor].
  destruct changed; [rewrite saved_world_tasks|]; exact Hscan.
Qed.

Lemma _load_reviews_file (w : world) :
  review_file (snd (_load_reviews w)) = review_file w.
Proof.
  unfold _load_reviews. run_monad.
  destruct (review_file w) as [| |doc] eqn:Hfile; simpl; try assumption.
  destruct doc; simpl; assumption.
Qed.

Lemma load_scan_poisoned (now : Z) (items : list (string * json))
      (acc : dict (dict json)) (c : bool) :
  existsb (fun kv => poisonous now (snd kv)) items = true ->
  exists e, load_scan now items acc c = Raise e.
Proof.
  revert acc c. induction items as [|[k v] items IH]; intros acc c; simpl; [discriminate|].
  destruct v as [| | | | |task]; simpl; try (intros _; eexists; reflexivity).
  unfold is_faulty, classify.
  destruct (truthy (py_get "start_time" task)); simpl; [|now apply IH].
  destruct (elapsed now (py_get "start_time" task)) as [d|[]]; simpl;
    try (intros _; eexists; reflexivity); try (now apply IH).
  destruct (within_retention d); simpl; now apply IH.
Qed.

Lemma poisonous_doc_items (now : Z) (ts : dict (dict json)) :
  existsb (fun kv => poisonous now (snd kv)) (doc_items ts)
  = existsb (fun kv => is_faulty now (snd kv)) ts.
Proof. induction ts as [|[k task] ts IH]; [reflexivity|]. simpl. now rewrite IH. Qed.

Lemma existsb_false_Forall {A} (f : A -> bool) (l : list A) :
  existsb f l = false -> Forall (fun x => f x = false) l.
Proof.
  induction l as [|x l IH]; simpl; [constructor|].
  intros H. apply orb_false_iff in H as [Hx Hl]. constructor; auto.
Qed.

(** A load from the file of a table whose start times raise no
    [TypeError]. *)
Lemma loaded_world_scanned (w : world) (ts : dict (dict json)) :
  task_file w = Json (json_of_tasks ts) ->
  NoDup (dict_keys ts) ->
  existsb (fun kv => is_faulty (clock w (ticks w)) (snd kv)) ts = false ->
  loaded_world w
  = let loaded := with_tasks (keep_fresh (clock w (ticks w)) ts)
                             (with_ticks (S (ticks w)) w) in
    if existsb (fun kv => is_stale (clock w (ticks w)) (snd kv)) ts
    then saved_world loaded else loaded.
Proof.
  intros Hfile Hnd Hok. unfold loaded_world. rewrite Hfile.
  unfold json_of_tasks. fold (doc_items ts).
  rewrite load_scan_keeps_fresh; [reflexivity|exact Hnd|].
  now apply (existsb_false_Forall (fun kv => is_faulty (clock w (ticks w)) (snd kv))).
Qed.

(** C3, amended. The task file holding a table, one record per key:
    when no start time raises [TypeError], [_load_tasks] makes the table
    exactly the records of the file that are fresh, in their order; if a
    record was dropped because it started more than 72 hours before,
    [_load_tasks] goes on at once with [_save_tasks] on the loaded table,
    so that, the write succeeding, the file holds the loaded records that
    are still fresh at the instant of the save; if no record was dropped
    for its age, nothing is saved, whatever was dropped for want of a
    usable start time.  When a start time raises [TypeError], the load is
    given up: nothing is loaded and nothing is saved, whatever records
    were met.  [_load_reviews] applies its policy to the memory only: it
    never writes the review file. *)
Theorem load_tasks_saves_after_expiry (w : world) (ts : dict (dict json)) :
  task_file w = Json (json_of_tasks ts) ->
  NoDup (dict_keys ts) ->
  let now := clock w (ticks w) in
  let faulty := existsb (fun kv => is_faulty now (snd kv)) ts in
  let stale := existsb (fun kv => is_stale now (snd kv)) ts in
  let loaded := with_tasks (keep_fresh now ts) (with_ticks (S (ticks w)) w) in
  (faulty = false ->
   tasks (snd (_load_tasks w)) = keep_fresh now ts
   /\ (stale = true ->
       _load_tasks w = _save_tasks loaded
       /\ (disk_ok w = true ->
           task_file (snd (_load_tasks w))
           = Json (json_of_tasks
                     (keep_fresh (clock w (S (ticks w))) (keep_fresh now ts)))))
   /\ (stale = false -> _load_tasks w = (Ok tt, loaded)))
  /\ (faulty = true -> _load_tasks w = (Ok tt, with_ticks (S (ticks w)) w))
  /\ (forall w0 : world, review_file (snd (_load_reviews w0)) = review_file w0).
Proof.
  intros Hfile Hnd now faulty stale loaded.
  split; [|split; [|exact _load_reviews_file]].
  - intros Hok. rewrite _load_tasks_eq, (loaded_world_scanned w ts Hfile Hnd Hok).
    cbv zeta. fold now stale loaded. split; [|split].
    + cbn [snd]. destruct stale; [rewrite saved_world_tasks|]; reflexivity.
    + intros ->. rewrite _save_tasks_eq. split; [reflexivity|].
      intros Hdisk. cbn [snd]. unfold saved_world, loaded.
      cbn [tasks with_tasks clock ticks with_ticks disk_ok disk_failure].
      rewrite save_scan_keeps_fresh.
      * rewrite Hdisk. reflexivity.
      * simpl. now apply dict_keys_filter.
      * apply Forall_forall. intros kv Hin. apply filter_In in Hin as [Hin _].
        rewrite (is_faulty_any_time _ now).
        apply (existsb_false_Forall (fun kv => is_faulty now (snd kv))) in Hok.
        rewrite Forall_forall in Hok. now apply Hok.
    + intros ->. reflexivity.
  - intros Hbad. rewrite _load_tasks_eq. unfold loaded_world. rewrite Hfile.
    unfold json_of_tasks. fold (doc_items ts).
    destruct (load_scan_poisoned now (doc_items ts) [] false) as [e He].
    { rewrite poisonous_doc_items. exact Hbad. }
    fold now. rewrite He. reflexivity.
Qed.

(** C4. A table with one record per key and no start time that raises
    [TypeError], saved to a file that accepts the write and loaded again
    from that file at an instant that is not before the save, comes back
    as exactly its records that are fresh at the load (a start time that
    parses and is at most 72 hours old), unchanged and in their order. *)
Theorem save_then_load_round_trip (w w' : world) :
  NoDup (dict_keys (tasks w)) ->
  Forall (fun kv => is_faulty (clock w (ticks w)) (snd kv) = false) (tasks w) ->
  disk_ok w = true ->
  task_file w' = task_file (snd (_save_tasks w)) ->
  clock w (ticks w) <= clock w' (ticks w') ->
  tasks (snd (_load_tasks w')) = keep_fresh (clock w' (ticks w')) (tasks w).
Proof.
  intros Hnd Hok Hdisk Hfile Hclock.
  rewrite _save_tasks_eq in Hfile. simpl in Hfile. unfold saved_world in Hfile.
  rewrite save_scan_keeps_fresh in Hfile by assumption.
  rewrite Hdisk in Hfile. simpl in Hfile.
  rewrite _load_tasks_eq. simpl. unfold loaded_world. rewrite Hfile.
  unfold json_of_tasks. fold (doc_items (keep_fresh (clock w (ticks w)) (tasks w))).
  rewrite load_scan_keeps_fresh.
  - assert (keep_fresh (clock w' (ticks w')) (keep_fresh (clock w (ticks w)) (tasks w))
            = keep_fresh (clock w' (ticks w')) (tasks w)) as Hboth.
    { unfold keep_fresh. clear - Hclock. induction (tasks w) as [|kv ts IH]; [reflexivity|].
      simpl. destruct (is_fresh (clock w' (ticks w')) (snd kv)) eqn:Hlate.
      - rewrite (is_fresh_earlier _ _ _ Hclock Hlate). simpl. rewrite Hlate. now f_equal.
      - destruct (is_fresh (clock w (ticks w)) (snd kv)); simpl; [rewrite Hlate|]; exact IH. }
    simpl. rewrite Hboth.
    destruct (existsb _ _); [rewrite saved_world_tasks|]; reflexivity.
  - simpl. now apply dict_keys_filter.
  - unfold keep_fresh. apply Forall_forall. intros kv Hin.
    apply filter_In in Hin as [Hin _].
    rewrite Forall_forall in Hok. rewrite (is_faulty_any_time _ (clock w (ticks w))).
    now apply Hok.
Qed.
End LoadFacts.

(* ================================================================= *)
(** ** Listing *)

(** The sort on keys that are strings is the insertion in descending
    order of the strings. *)
Section StringKeys.
Context {A : Type} (key : A -> result json) (skey : A -> string)
        (ins : A -> list A -> list A).
Hypothesis ins_nil : forall x, ins x [] = [x].
Hypothesis ins_cons :
  forall x y r,
    ins x (y :: r)
    = if String.ltb (skey x) (skey y) then y :: ins x r else x :: y :: r.

Lemma ins_In (x y : A) (m : list A) : In y (ins x m) -> y = x \/ In y m.
Proof.
  induction m as [|z m IH]; [rewrite ins_nil; intros [<-|[]]; now left|].
  rewrite ins_cons. destruct (String.ltb _ _).
  - intros [<-|H]; [right; now left|]. destruct (IH H); [now left|right; now right].
  - intros [<-|H]; [now left|now right].
Qed.

Lemma sorted_In (y : A) (l : list A) : In y (fold_right ins [] l) -> In y l.
Proof.
  induction l as [|x l IH]; [intros []|]. simpl. intros H.
  apply ins_In in H as [->|H]; [now left|right; now apply IH].
Qed.

Lemma insert_keyed_strings (x : A) (m : list A) :
  insert_keyed (JStr (skey x), x) (map (fun y => (JStr (skey y), y)) m)
  = map (fun y => (JStr (skey y), y)) (ins x m).
Proof.
  induction m as [|z m IH]; [now rewrite ins_nil|].
  rewrite ins_cons. cbn [map insert_keyed fst key_lt py_lt].
  destruct (String.ltb (skey x) (skey z)); [|reflexivity].
  cbn [map]. now rewrite IH.
Qed.

Lemma keys_of_strings (l : list A) :
  (forall x, In x l -> key x = Ok (JStr (skey x))) ->
  keys_of key l = Ok (map (fun x => JStr (skey x)) l).
Proof.
  induction l as [|x l IH]; [reflexivity|]. intros H. simpl.
  rewrite (H x) by now left. rewrite IH; [reflexivity|].
  intros y Hy. apply H. now right.
Qed.

Lemma all_comparable_strings (l : list string) :
  all_comparable (map JStr l) = true.
Proof.
  induction l as [|a l IH]; [reflexivity|]. simpl. rewrite IH, andb_true_r.
  apply forallb_forall. intros k Hk. apply in_map_iff in Hk as (b & <- & _). reflexivity.
Qed.

Lemma py_sort_desc_strings (l : list A) :
  (forall x, In x l -> key x = Ok (JStr (skey x))) ->
  py_sort_desc key l = Ok (fold_right ins [] l).
Proof.
  intros H. unfold py_sort_desc. rewrite (keys_of_strings l H).
  rewrite <- (map_map skey JStr), all_comparable_strings, map_map. f_equal.
  assert (fold_right insert_keyed [] (combine (map (fun x => JStr (skey x)) l) l)
          = map (fun y => (JStr (skey y), y)) (fold_right ins [] l)) as ->.
  { clear H. induction l as [|x l IH]; [reflexivity|]. simpl.
    rewrite IH. apply insert_keyed_strings. }
  rewrite map_map. simpl. apply map_id.
Qed.
End StringKeys.

Section ListFacts.
Context {P : Platform}.

Lemma evict_expired_eq (w : world) :
  evict_expired w
  = match expired_scan (clock w (ticks w)) (tasks w) [] with
    | Ok expired_ids => (Ok tt, evicted_world w expired_ids)
    | Raise e => (Raise e, with_ticks (S (ticks w)) w)
    end.
Proof.
  unfold evict_expired, evicted_world. run_monad.
  destruct (expired_scan _ _ _) as [ids|e]; [|reflexivity].
  destruct ids; reflexivity.
Qed.

(** The ids collected by a scan that ends are those of the stale
    records. *)
Lemma expired_scan_ids (now : Z) (items : dict (dict json)) (acc ids : list string) :
  expired_scan now items acc = Ok ids ->
  ids = acc ++ dict_keys (filter (fun kv => is_stale now (snd kv)) items).
Proof.
  revert acc. induction items as [|[k task] items IH]; intros acc; simpl.
  - intros [= ->]. now rewrite app_nil_r.
  - unfold is_stale, classify.
    destruct (truthy (py_get "start_time" task)); simpl; [|now apply IH].
    destruct (elapsed now (py_get "start_time" task)) as [d|[]]; simpl;
      try discriminate; try (now apply IH).
    destruct (within_retention d); simpl; [now apply IH|].
    intros H. apply IH in H. now rewrite <- app_assoc in H.
Qed.

(** One cleaning block removes the stale records, and only them, from a
    table with one record per key; it touches no file. *)
Lemma evict_expired_keeps (w : world) (w' : world) :
  NoDup (dict_keys (tasks w)) ->
  evict_expired w = (Ok tt, w') ->
  tasks w' = filter (fun kv => negb (is_stale (clock w (ticks w)) (snd kv))) (tasks w)
  /\ task_file w' = task_file w
  /\ ticks w' = S (ticks w) /\ clock w' = clock w
  /\ threads w'
     = threads w
       ++ (if existsb (fun kv => is_stale (clock w (ticks w)) (snd kv)) (tasks w)
           then [SaveTasksThread] else []).
Proof.
  intros Hnd. rewrite evict_expired_eq.
  destruct (expired_scan _ _ _) as [ids|e] eqn:Hscan; [|discriminate].
  intros [= <-]. apply expired_scan_ids in Hscan. simpl in Hscan. subst ids.
  unfold evicted_world. rewrite delete_selected by exact Hnd.
  rewrite existsb_filter_nonempty.
  destruct (filter (fun kv => is_stale (clock w (ticks w)) (snd kv)) (tasks w));
    simpl; repeat split. now rewrite app_nil_r.
Qed.

(** *** The sort *)

Lemma ltb_leb (a b : string) : String.ltb a b = true -> String.leb a b = true.
Proof. unfold String.ltb, String.leb. destruct (String.compare a b); congruence. Qed.

Lemma not_ltb_leb (a b : string) : String.ltb a b = false -> String.leb b a = true.
Proof.
  unfold String.ltb, String.leb. rewrite (String.compare_antisym b a).
  destruct (String.compare a b); simpl; congruence.
Qed.

Lemma insert_desc_perm (x : dict json) (l : list (dict json)) :
  Permutation (x :: l) (insert_desc x l).
Proof.
  induction l as [|y l IH]; simpl; [reflexivity|].
  destruct (String.ltb _ _); [|reflexivity].
  rewrite perm_swap. now constructor.
Qed.

Lemma sort_desc_perm (l : list (dict json)) : Permutation l (sort_desc l).
Proof.
  induction l as [|x l IH]; simpl; [reflexivity|].
  rewrite <- insert_desc_perm. now constructor.
Qed.

Lemma insert_desc_sorted (x : dict json) (l : list (dict json)) :
  Sorted key_ge l -> Sorted key_ge (insert_desc x l).
Proof.
  induction l as [|y l IH]; simpl; intros Hs.
  - repeat constructor.
  - inversion Hs as [|? ? Hl Hhd]; subst.
    destruct (String.ltb (start_key x) (start_key y)) eqn:Hlt.
    + constructor; [now apply IH|].
      destruct l as [|z l]; simpl.
      * constructor. now apply ltb_leb.
      * destruct (String.ltb (start_key x) (start_key z)).
        -- inversion Hhd; subst. now constructor.
        -- constructor. now apply ltb_leb.
    + constructor; [assumption|]. constructor. now apply not_ltb_leb.
Qed.

Lemma sort_desc_sorted (l : list (dict json)) : Sorted key_ge (sort_desc l).
Proof.
  induction l as [|x l IH]; simpl; [constructor|now apply insert_desc_sorted].
Qed.

Lemma Sorted_firstn {A} (R : A -> A -> Prop) (n : nat) (l : list A) :
  Sorted R l -> Sorted R (firstn n l).
Proof.
  revert n. induction l as [|x l IH]; intros n Hs; destruct n; simpl; try constructor.
  - inversion Hs; subst. now apply IH.
  - inversion Hs as [|? ? Hl Hhd]; subst.
    destruct l, n; simpl; constructor. inversion Hhd; subst. assumption.
Qed.

Lemma In_firstn {A} (x : A) (n : nat) (l : list A) :
  In x (firstn n l) -> In x l.
Proof.
  revert n. induction l as [|y l IH]; intros [|n]; simpl; try contradiction.
  intros [->|H]; [now left|right; now apply (IH n)].
Qed.

(** A sorted list is left as it is: the sort is stable. *)
Lemma sort_desc_of_sorted (l : list (dict json)) :
  Sorted key_ge l -> sort_desc l = l.
Proof.
  induction l as [|x l IH]; simpl; [reflexivity|]. intros Hs.
  inversion Hs as [|? ? Hl Hhd]; subst. rewrite IH by assumption.
  destruct l as [|y l]; simpl; [reflexivity|].
  inversion Hhd as [|? ? Hxy]; subst. unfold key_ge in Hxy.
  destruct (String.ltb (start_key x) (start_key y)) eqn:Hlt; [|reflexivity].
  exfalso. unfold String.ltb, String.leb in *.
  rewrite (String.compare_antisym (start_key y) (start_key x)) in Hxy.
  destruct (String.compare (start_key x) (start_key y)); simpl in *; congruence.
Qed.

Lemma py_slice_to_nonneg {A} (limit : Z) (l : list A) :
  0 <= limit ->
  py_slice_to limit l = firstn (Z.to_nat limit) l
  /\ Z.of_nat (List.length (py_slice_to limit l)) <= limit.
Proof.
  intros Hl. unfold py_slice_to. destruct (Z.leb_spec 0 limit); [|lia].
  split; [reflexivity|]. pose proof (firstn_le_length (Z.to_nat limit) l). 
  rewrite length_firstn. lia.
Qed.

(** *** Tables as the service builds them *)

Lemma tasks_wf_filter (f : string * dict json -> bool) (ts : dict (dict json)) :
  tasks_wf ts -> tasks_wf (filter f ts).
Proof.
  intros [Hnd Hall]. split; [now apply dict_keys_filter|].
  apply Forall_forall. intros kv Hin. apply filter_In in Hin as [Hin _].
  rewrite Forall_forall in Hall. now apply Hall.
Qed.

Lemma tasks_wf_not_faulty (now : Z) (ts : dict (dict json)) :
  tasks_wf ts -> Forall (fun kv => is_faulty now (snd kv) = false) ts.
Proof.
  intros [_ Hall]. eapply Forall_impl; [|exact Hall].
  intros kv [t Ht]. now apply (started_fresh_or_stale now) in Ht.
Qed.

Lemma tasks_wf_keep_fresh (now : Z) (ts : dict (dict json)) :
  tasks_wf ts ->
  filter (fun kv => negb (is_stale now (snd kv))) ts = keep_fresh now ts.
Proof.
  intros [_ Hall]. unfold keep_fresh. apply filter_ext_in. intros kv Hin.
  rewrite Forall_forall in Hall. destruct (Hall kv Hin) as [t Ht].
  apply (started_fresh_or_stale now) in Ht as (_ & _ & ->). apply negb_involutive.
Qed.

Lemma tasks_wf_existsb_stale (now : Z) (ts : dict (dict json)) :
  tasks_wf ts ->
  existsb (fun kv => is_stale now (snd kv)) ts
  = existsb (fun kv => negb (is_fresh now (snd kv))) ts.
Proof.
  intros [_ Hall]. induction Hall as [|kv ts [t Ht] _ IH]; [reflexivity|]. simpl.
  apply (started_fresh_or_stale now) in Ht as (_ & _ & ->). now rewrite IH.
Qed.

(** One cleaning block on such a table. *)
Lemma evict_expired_wf (w : world) :
  tasks_wf (tasks w) ->
  exists w',
    evict_expired w = (Ok tt, w')
    /\ tasks w' = keep_fresh (clock w (ticks w)) (tasks w)
    /\ task_file w' = task_file w
    /\ ticks w' = S (ticks w) /\ clock w' = clock w
    /\ threads w'
       = threads w
         ++ (if existsb (fun kv => is_stale (clock w (ticks w)) (snd kv)) (tasks w)
             then [SaveTasksThread] else []).
Proof.
  intros Hwf.
  assert (exists w', evict_expired w = (Ok tt, w')) as [w' Heq].
  { rewrite evict_expired_eq, expired_scan_stale by now apply tasks_wf_not_faulty.
    eexists. reflexivity. }
  exists w'. split; [exact Heq|].
  destruct (evict_expired_keeps w w' (proj1 Hwf) Heq) as (Ht & Hf & Hti & Hc & Hth).
  rewrite tasks_wf_keep_fresh in Ht by assumption. repeat split; assumption.
Qed.

Lemma started_key_is_str (task : dict json) (t : Z) :
  started_at task t -> is_str (py_get_default "start_time" task) = true.
Proof.
  intros (s & Hget & _). unfold py_get, py_get_default in *.
  destruct (dict_get "start_time" task); [now subst|discriminate].
Qed.

Lemma sort_by_start_time_wf (ts : dict (dict json)) :
  tasks_wf ts ->
  sort_by_start_time (dict_values ts) = Ok (sort_desc (dict_values ts)).
Proof.
  intros [_ Hall]. unfold sort_by_start_time, sort_desc.
  apply (py_sort_desc_strings _ start_key insert_desc); [reflexivity|reflexivity|].
  intros x Hx. unfold dict_values in Hx. apply in_map_iff in Hx as (kv & <- & Hkv).
  rewrite Forall_forall in Hall. destruct (Hall kv Hkv) as [t Ht].
  apply started_key_is_str in Ht. unfold start_key.
  destruct (py_get_default "start_time" (snd kv)); try discriminate. reflexivity.
Qed.
End ListFacts.

Section ListClaims.
Context {P : Platform}.

(** C6, amended. For a limit that is not negative and a table as the
    service builds it (one record per key, every start time a string that
    parses to a naive instant), [list_tasks] returns without raising.  It
    leaves in the table exactly the records that are at most 72 hours old
    at its two readings of the clock, leaves the task file as it is and,
    for each cleaning block that removed a record, starts one detached
    thread that will save.  Its answer is the first [limit] records of
    what is left, sorted by start time in descending order: it is sorted,
    has at most [limit] entries, and each of its records is a record of
    the table that started at most 72 hours before both readings. *)
Theorem list_tasks_spec (limit : Z) (w : world) :
  0 <= limit ->
  tasks_wf (tasks w) ->
  let now1 := clock w (ticks w) in
  let now2 := clock w (S (ticks w)) in
  let kept := keep_fresh now2 (keep_fresh now1 (tasks w)) in
  exists (listed : list (dict json)) (w' : world),
    list_tasks limit w = (Ok listed, w')
    /\ tasks w' = kept
    /\ task_file w' = task_file w
    /\ threads w'
       = threads w
         ++ (if existsb (fun kv => is_stale now1 (snd kv)) (tasks w)
             then [SaveTasksThread] else [])
         ++ (if existsb (fun kv => is_stale now2 (snd kv)) (keep_fresh now1 (tasks w))
             then [SaveTasksThread] else [])
    /\ listed = firstn (Z.to_nat limit) (sort_desc (dict_values kept))
    /\ Sorted key_ge listed
    /\ Z.of_nat (List.length listed) <= limit
    /\ (forall task, In task listed ->
          exists k t, In (k, task) (tasks w) /\ started_at task t
                      /\ now1 - t <= retention_us /\ now2 - t <= retention_us).
Proof.
  intros Hlimit Hwf now1 now2 kept.
  destruct (evict_expired_wf w Hwf) as (w1 & Hev1 & Ht1 & Hf1 & Hti1 & Hc1 & Hth1).
  assert (tasks_wf (tasks w1)) as Hwf1.
  { rewrite Ht1. now apply tasks_wf_filter. }
  destruct (evict_expired_wf w1 Hwf1) as (w2 & Hev2 & Ht2 & Hf2 & Hti2 & Hc2 & Hth2).
  rewrite Hc1, Hti1, Ht1 in Ht2, Hth2. fold now1 now2 in Ht2, Hth2. fold kept in Ht2.
  assert (tasks_wf kept) as Hwf2 by (unfold kept; now do 2 apply tasks_wf_filter).
  destruct (py_slice_to_nonneg limit (sort_desc (dict_values kept)) Hlimit) as [Hslice Hlen].
  exists (py_slice_to limit (sort_desc (dict_values kept))), w2.
  split; [|split; [|split; [|split; [|split; [|split; [|split]]]]]].
  - unfold list_tasks, bind. rewrite Hev1, Hev2. unfold gets, lift, ret.
    rewrite Ht2, sort_by_start_time_wf by assumption. reflexivity.
  - exact Ht2.
  - congruence.
  - rewrite Hth2, Hth1. now rewrite <- app_assoc.
  - exact Hslice.
  - rewrite Hslice. apply Sorted_firstn, sort_desc_sorted.
  - exact Hlen.
  - intros task Hin. rewrite Hslice in Hin. apply In_firstn in Hin.
    apply (Permutation_in _ (Permutation_sym (sort_desc_perm _))) in Hin.
    unfold dict_values in Hin. apply in_map_iff in Hin as ([k task'] & Heq & Hin).
    simpl in Heq. subst task'. unfold kept, keep_fresh in Hin.
    apply filter_In in Hin as [Hin Hfresh2]. apply filter_In in Hin as [Hin Hfresh1].
    simpl in Hfresh1, Hfresh2.
    apply is_fresh_started in Hfresh1 as (t1 & Hst1 & Hage1).
    apply is_fresh_started in Hfresh2 as (t2 & Hst2 & Hage2).
    assert (t2 = t1) as ->.
    { destruct Hst1 as (s1 & Hg1 & _ & Hp1), Hst2 as (s2 & Hg2 & _ & Hp2). congruence. }
    exists k, t1. auto.
Qed.

(** Whether a record is unusable does not depend on the instant. *)
Lemma is_unusable_not_stale (now now' : Z) (task : dict json) :
  is_unusable now task = true -> is_stale now' task = false.
Proof.
  unfold is_unusable, is_stale, classify, elapsed.
  destruct (truthy _); [|reflexivity].
  destruct (py_get "start_time" task); try discriminate.
  destruct (fromisoformat s); try discriminate; try reflexivity.
  destruct (within_retention (now - t)); discriminate.
Qed.


(** The table after [list_tasks] is the table after its two cleaning
    blocks. *)
Lemma list_tasks_tasks (limit : Z) (w : world) :
  tasks (snd (list_tasks limit w)) = tasks (snd (evict_expired (snd (evict_expired w))))
  \/ tasks (snd (list_tasks limit w)) = tasks (snd (evict_expired w)).
Proof.
  unfold list_tasks, bind.
  destruct (evict_expired w) as [[[]|e] w1]; [|now right]. cbn [snd].
  destruct (evict_expired w1) as [[[]|e] w2]; [|now left].
  unfold gets, lift, ret. simpl. destruct (sort_by_start_time _); now left.
Qed.

End ListClaims.

(* ================================================================= *)
(** ** Runs on 2024-03-01 *)

(** Loading the file with an old and a new record keeps the new one and
    rewrites the file with it. *)
Lemma load_tasks_saves_after_expiry_witness :
  tasks (snd (_load_tasks persisted_world))
  = [("hk00700_20240301_080000_000000", new_record)]
  /\ task_file (snd (_load_tasks persisted_world))
     = Json (JObj [("hk00700_20240301_080000_000000", JObj new_record)]).
Proof.
  destruct (@load_tasks_saves_after_expiry iso_platform persisted_world
              [("600519_20240220_100000_000000", old_record);
               ("hk00700_20240301_080000_000000", new_record)]
              eq_refl
              ltac:(repeat constructor; simpl; intuition discriminate))
    as (Hscanned & _ & _).
  destruct (Hscanned eq_refl) as (Htasks & Hsave & _).
  split; [exact Htasks|].
  destruct (Hsave eq_refl) as [_ Hfile]. exact (Hfile eq_refl).
Defined.

(** C3 as stated fails: [_load_reviews] drops the review of 2024-01-01
    from the memory and leaves it in the file. *)
Lemma load_reviews_drops_without_saving :
  reviews (snd (_load_reviews old_review_world)) = []
  /\ review_file (snd (_load_reviews old_review_world))
     = Json (JObj [("2024-01-01", old_review)]).
Proof. vm_compute. split; reflexivity. Qed.

(** A record that [_load_tasks] drops for its missing start time stays in
    the file. *)
Example load_tasks_unstamped_stays_in_file :
  tasks (snd (_load_tasks unstamped_file_world)) = []
  /\ task_file (snd (_load_tasks unstamped_file_world))
     = Json (JObj [("000002_x", JObj unstamped_record)]).
Proof. vm_compute. split; reflexivity. Qed.

(** A load that meets an old record and then a start time with an offset
    is given up: nothing is loaded, nothing is saved. *)
Example load_tasks_given_up_after_stale_record :
  tasks (snd (_load_tasks stale_and_aware_file_world)) = []
  /\ task_file (snd (_load_tasks stale_and_aware_file_world))
     = task_file stale_and_aware_file_world.
Proof. vm_compute. split; reflexivity. Qed.

(** Saving the old, the new and the garbled record and loading again
    brings back the new one. *)
Lemma save_then_load_round_trip_witness :
  tasks (snd (_load_tasks (with_tasks [] (snd (_save_tasks mixed_world)))))
  = [("hk00700_20240301_080000_000000", new_record)].
Proof.
  refine (@save_then_load_round_trip iso_platform mixed_world
            (with_tasks [] (snd (_save_tasks mixed_world))) _ _ eq_refl eq_refl _).
  - repeat constructor; simpl; intuition discriminate.
  - repeat constructor.
  - vm_compute. discriminate.
Defined.

(** Deleting a record of the table, and deleting an unknown id. *)
Lemma delete_task_spec_witness :
  fst (delete_task "hk00700_20240301_080000_000000" recent_world) = Ok true
  /\ tasks (snd (delete_task "hk00700_20240301_080000_000000" recent_world))
     = [("000001_20240229_120000_000000", mid_record)]
  /\ task_file (snd (delete_task "hk00700_20240301_080000_000000" recent_world))
     = Json (JObj [("000001_20240229_120000_000000", JObj mid_record)])
  /\ delete_task "nonexistent" recent_world = (Ok false, recent_world)
  /\ fst (get_task_status "nonexistent" (snd (delete_task "nonexistent" recent_world)))
     = Ok None.
Proof.
  destruct (@delete_task_spec iso_platform "hk00700_20240301_080000_000000" recent_world)
    as (Hanswer & Hsave & _ & _).
  destruct (@delete_task_spec iso_platform "nonexistent" recent_world)
    as (Hanswer' & _ & Hsame & Hget).
  split; [exact Hanswer|]. rewrite (Hsave eq_refl).
  split; [reflexivity|]. split; [reflexivity|]. split; [|exact Hget].
  rewrite (surjective_pairing (delete_task "nonexistent" recent_world)).
  now rewrite Hanswer', (Hsame eq_refl).
Defined.

(** The cleaning blocks of [list_tasks] skip a record without a usable
    start time: on a table put together by hand, which no service
    builds, such records are listed and stay. *)
Example list_tasks_skips_unusable :
  fst (list_tasks 100 unusable_world) = Ok [garbled_record; unstamped_record]
  /\ tasks (snd (list_tasks 100 unusable_world))
     = [("000002_x", unstamped_record); ("000003_x", garbled_record)].
Proof. vm_compute. split; reflexivity. Qed.

(** Start times that are numbers are ordered as numbers; a start time
    that is missing is sorted as the empty string, which is not
    comparable with a number. *)
Example sort_numbered_records :
  sort_by_start_time numbered_records = Ok (rev numbered_records)
  /\ sort_by_start_time (unstamped_record :: numbered_records) = Raise TypeError.
Proof. vm_compute. split; reflexivity. Qed.

(** The three records of [busy_world] have start times that parse. *)
Lemma busy_world_wf : tasks_wf (tasks busy_world).
Proof.
  split.
  - repeat constructor; simpl; intuition discriminate.
  - repeat constructor; simpl.
    + exists (Iso.instant 2024 2 20 10 0 0), "2024-02-20T10:00:00".
      repeat split. discriminate.
    + exists (Iso.instant 2024 2 29 12 0 0), "2024-02-29T12:00:00".
      repeat split. discriminate.
    + exists (Iso.instant 2024 3 1 8 0 0), "2024-03-01T08:00:00".
      repeat split. discriminate.
Defined.

(** Listing one record of three: the old one leaves the table, a save is
    left to a detached thread, the newest is answered. *)
Lemma list_tasks_spec_witness :
  exists w' : world,
    list_tasks 1 busy_world = (Ok [new_record], w')
    /\ tasks w' = [("000001_20240229_120000_000000", mid_record);
                   ("hk00700_20240301_080000_000000", new_record)]
    /\ task_file w' = NoFile
    /\ threads w' = [SaveTasksThread].
Proof.
  destruct (@list_tasks_spec iso_platform 1 busy_world ltac:(lia) busy_world_wf)
    as (listed & w' & Hrun & Htasks & Hfile & Hthreads & Hlisted & _).
  exists w'. rewrite Hlisted in Hrun. repeat split; assumption.
Defined.

(** C6 as stated fails: with the limit -1 and two records of the last
    day, [list_tasks] answers one record, which is more than the limit. *)
Lemma list_tasks_negative_limit :
  fst (list_tasks (-1) recent_world) = Ok [new_record]
  /\ ~ (Z.of_nat (List.length [new_record]) <= -1).
Proof. split; [vm_compute; reflexivity|simpl; lia]. Qed.

(* ================================================================= *)
(** ** The table of a running service *)

Section TableInvariant.
Context {P : Platform}.

(** What [isoformat] writes, [fromisoformat] reads as a naive instant. *)
Hypothesis isoformat_parses :
  forall t : Z, isoformat t <> "" /\ exists t', fromisoformat (isoformat t) = Naive t'.

Lemma dict_get_update_other (k : string) (new d : dict json) :
  dict_get k new = None -> dict_get k (dict_update new d) = dict_get k d.
Proof.
  unfold dict_update. revert d. induction new as [|[k' v] new IH]; intros d; [reflexivity|].
  simpl. destruct (String.eqb_spec k' k) as [->|Hne]; [discriminate|].
  intros H. rewrite (IH _ H). apply dict_get_set_other. congruence.
Qed.

Lemma tasks_wf_set (ts : dict (dict json)) (k : string) (task : dict json) (t : Z) :
  tasks_wf ts -> started_at task t -> tasks_wf (dict_set k task ts).
Proof.
  intros [Hnd Hall] Hst. split; [now apply dict_keys_set|].
  apply Forall_dict_set; [exact Hall|]. now exists t.
Qed.

Lemma run_begin_wf (code task_id : string) (w : world) :
  tasks_wf (tasks w) -> tasks_wf (tasks (snd (run_begin code task_id w))).
Proof.
  intros Hwf. rewrite run_begin_eq. unfold begun_world. cbn [snd].
  rewrite !saved_world_tasks. cbn [tasks with_tasks].
  destruct (isoformat_parses (clock w (ticks w))) as [Hne [t Ht]].
  apply (tasks_wf_set _ _ _ t Hwf). exists (isoformat (clock w (ticks w))). auto.
Qed.

Lemma update_task_wf (task_id : string) (fields : Z -> dict json) (w : world) :
  (forall now, dict_get "start_time" (fields now) = None) ->
  tasks_wf (tasks w) -> tasks_wf (tasks (snd (update_task task_id fields w))).
Proof.
  intros Hfields Hwf. destruct (dict_get task_id (tasks w)) as [task|] eqn:Hget.
  - rewrite (update_task_eq _ _ _ _ Hget). cbn [snd tasks with_tasks].
    destruct Hwf as [Hnd Hall]. pose proof Hall as Hall'.
    rewrite Forall_forall in Hall'. destruct (Hall' _ (dict_get_In _ _ _ Hget)) as [t Ht].
    apply (tasks_wf_set _ _ _ t (conj Hnd Hall)).
    destruct Ht as (s0 & Hs & Hne & Hparse). exists s0. repeat split; try assumption.
    unfold py_get in *. now rewrite dict_get_update_other.
  - unfold update_task, bind, gets, raise. now rewrite Hget.
Qed.

Lemma run_end_wf (code task_id : string) (outcome : analysis) (w : world) :
  tasks_wf (tasks w) -> tasks_wf (tasks (snd (run_end code task_id outcome w))).
Proof.
  intros Hwf.
  assert (forall (fields : Z -> dict json) (answer : json) (w0 : world),
             (forall now, dict_get "start_time" (fields now) = None) ->
             tasks_wf (tasks w0) ->
             tasks_wf (tasks (snd ((update_task task_id fields ;; _save_tasks ;;
                                    _save_tasks ;; ret answer) w0)))
             /\ tasks_wf (tasks (snd (update_task task_id fields w0)))) as Hstep.
  { intros fields answer w0 Hfields Hw0.
    pose proof (update_task_wf task_id fields w0 Hfields Hw0) as Hup.
    split; [|exact Hup]. unfold bind.
    destruct (update_task task_id fields w0) as [[[]|e] w1]; [|exact Hup].
    rewrite !_save_tasks_eq. cbn [snd ret]. now rewrite !saved_world_tasks. }
  unfold run_end, try_except.
  destruct outcome as [result_data| |msg].
  - match goal with
    | |- context [(update_task task_id ?f ;; _save_tasks ;; _save_tasks ;; ret ?a) w] =>
        destruct (Hstep f a w (fun _ => eq_refl) Hwf) as [Hall Hup];
        destruct ((update_task task_id f ;; _save_tasks ;; _save_tasks ;; ret a) w)
          as [[answer|e] w1] eqn:Hrun
    end; [exact Hall|].
    now apply Hstep.
  - match goal with
    | |- context [(update_task task_id ?f ;; _save_tasks ;; _save_tasks ;; ret ?a) w] =>
        destruct (Hstep f a w (fun _ => eq_refl) Hwf) as [Hall Hup];
        destruct ((update_task task_id f ;; _save_tasks ;; _save_tasks ;; ret a) w)
          as [[answer|e] w1] eqn:Hrun
    end; [exact Hall|].
    now apply Hstep.
  - unfold raise. now apply Hstep.
Qed.

Lemma list_tasks_wf (limit : Z) (w : world) :
  tasks_wf (tasks w) -> tasks_wf (tasks (snd (list_tasks limit w))).
Proof.
  intros Hwf. destruct (evict_expired_wf w Hwf) as (w1 & Hev1 & Ht1 & _).
  assert (tasks_wf (tasks w1)) as Hwf1 by (rewrite Ht1; now apply tasks_wf_filter).
  destruct (evict_expired_wf w1 Hwf1) as (w2 & Hev2 & Ht2 & _).
  assert (tasks_wf (tasks w2)) as Hwf2 by (rewrite Ht2; now apply tasks_wf_filter).
  destruct (list_tasks_tasks limit w) as [->| ->]; rewrite Hev1; cbn [snd];
    [rewrite Hev2|]; assumption.
Qed.

Lemma delete_task_wf (task_id : string) (w : world) :
  tasks_wf (tasks w) -> tasks_wf (tasks (snd (delete_task task_id w))).
Proof.
  intros Hwf. rewrite delete_task_eq.
  destruct (dict_mem task_id (tasks w)); cbn [snd]; [|exact Hwf].
  rewrite saved_world_tasks. now apply tasks_wf_filter.
Qed.

Lemma init_analysis_wf (w : world) : tasks_wf (tasks (snd (init_analysis w))).
Proof.
  unfold init_analysis, bind, modify. rewrite !_load_tasks_eq. cbn [snd].
  assert (forall w0, tasks_wf (tasks w0) -> tasks_wf (tasks (loaded_world w0))) as Hload.
  { intros w0 Hw0. destruct (loaded_world_tasks w0) as [->|[Hfresh Hnd]]; [exact Hw0|].
    split; [exact Hnd|]. eapply Forall_impl; [|exact Hfresh].
    intros kv Hkv. apply is_fresh_started in Hkv as (t & Ht & _). now exists t. }
  do 2 apply Hload. split; constructor.
Qed.

Lemma perform_wf (e : event) (w : world) :
  tasks_wf (tasks w) -> tasks_wf (tasks (perform e w)).
Proof.
  intros Hwf. destruct e; cbn [perform].
  - now rewrite submit_analysis_eq.
  - apply run_begin_wf. exact Hwf.
  - now apply run_end_wf.
  - exact Hwf.
  - now apply delete_task_wf.
  - now apply list_tasks_wf.
  - rewrite _save_tasks_eq. cbn [snd tasks with_threads]. now rewrite saved_world_tasks.
Qed.

(** Whatever happens to a service after it was built, its table holds one
    record per key, each with a start time that parses to a naive
    instant.  The events come in any order, which covers every schedule of
    the pool and of the detached threads. *)
Theorem tasks_wf_always (events : list event) (w : world) :
  tasks_wf (tasks (after_events events w)).
Proof.
  unfold after_events. generalize (init_analysis_wf w).
  generalize (snd (init_analysis w)). induction events as [|e events IH]; intros w0 Hw0.
  - exact Hw0.
  - simpl. apply IH. now apply perform_wf.
Qed.
End TableInvariant.

(** The life of a job: no record while it waits in the queue, a running
    record once a worker has begun it, a completed one at its end. *)
Example job_life :
  let task_id := "600519_20240301_090507_000000" in
  let waiting := after_events [Submitted "600519"] quiet_world in
  let begun := perform (JobBegun "600519" task_id) waiting in
  let ended := perform (JobEnded "600519" task_id (Analysed (JObj [("name", JStr "x")])))
                       begun in
  pool waiting = [("600519", task_id)]
  /\ dict_get task_id (tasks waiting) = None
  /\ pool begun = []
  /\ option_map (py_get "status") (dict_get task_id (tasks begun)) = Some (JStr "running")
  /\ option_map (py_get "status") (dict_get task_id (tasks ended)) = Some (JStr "completed")
  /\ task_file ended
     = Json (JObj [(task_id,
                    JObj [("task_id", JStr task_id); ("code", JStr "600519");
                          ("status", JStr "completed");
                          ("start_time", JStr "2024-03-01T09:05:08");
                          ("result", JObj [("name", JStr "x")]); ("error", JNull);
                          ("end_time", JStr "2024-03-01T09:05:11")])]).
Proof. vm_compute. repeat split; reflexivity. Qed.

(** A job whose record was deleted while the collaborator ran: the
    handler of [_run_analysis] looks the record up again, and the
    [KeyError] leaves the job. *)
Example run_end_after_deletion :
  fst (run_end "600519" "600519_20240301_090507_000000" (Crashed "network timeout")
               quiet_world)
  = Raise (KeyError "600519_20240301_090507_000000").
Proof. vm_compute. reflexivity. Qed.

(** A job that runs to its end, the collaborator failing. *)
Example run_analysis_crashed :
  dict_get "t1" (tasks (snd (_run_analysis "600519" "t1" (Crashed "network timeout")
                                           quiet_world)))
  = Some [("task_id", JStr "t1"); ("code", JStr "600519"); ("status", JStr "failed");
          ("start_time", JStr "2024-03-01T09:05:07"); ("result", JNull);
          ("error", JStr "network timeout"); ("end_time", JStr "2024-03-01T09:05:10")].
Proof. vm_compute. reflexivity. Qed.

(* ================================================================= *)
(** ** White space *)

Local Open Scope N_scope.

Lemma leading_lstrip (s : pystr) : leading_space s ++ lstrip s = s.
Proof.
  induction s as [|c s IH]; simpl; [reflexivity|].
  destruct (is_space c); simpl; [now f_equal|reflexivity].
Qed.

Lemma leading_all_space (s : pystr) : all_space (leading_space s) = true.
Proof.
  induction s as [|c s IH]; simpl; [reflexivity|].
  destruct (is_space c) eqn:Hc; simpl; [now rewrite Hc|reflexivity].
Qed.

Lemma lstrip_no_lead (s : pystr) : no_lead (lstrip s).
Proof.
  induction s as [|c s IH]; simpl; [exact I|].
  destruct (is_space c) eqn:Hc; [exact IH|exact Hc].
Qed.

Lemma no_lead_lstrip (s : pystr) : no_lead s -> lstrip s = s /\ leading_space s = [].
Proof. destruct s as [|c s]; simpl; [auto|]. now intros ->. Qed.

Lemma lstrip_app_space (ws s : pystr) :
  all_space ws = true ->
  lstrip (ws ++ s) = lstrip s /\ leading_space (ws ++ s) = ws ++ leading_space s.
Proof.
  induction ws as [|c ws IH]; simpl; [auto|].
  intros H. apply andb_prop in H as [Hc Hws]. rewrite Hc.
  destruct (IH Hws) as [-> ->]. auto.
Qed.

Lemma lstrip_all_space (ws : pystr) : all_space ws = true -> lstrip ws = [].
Proof.
  intros H. rewrite <- (app_nil_r ws). now rewrite (proj1 (lstrip_app_space ws [] H)).
Qed.

(** Stripping on the left keeps the right end. *)
Lemma lstrip_no_trail (s : pystr) : no_trail s -> no_trail (lstrip s).
Proof.
  unfold no_trail. intros H. rewrite <- (leading_lstrip s) in H.
  rewrite rev_app_distr in H. destruct (rev (lstrip s)) as [|c r]; [exact I|exact H].
Qed.

Lemma all_space_rev (s : pystr) : all_space (rev s) = all_space s.
Proof.
  unfold all_space. induction s as [|c s IH]; simpl; [reflexivity|].
  rewrite forallb_app, IH. simpl. rewrite andb_true_r. apply andb_comm.
Qed.

Lemma rstrip_no_trail (s : pystr) : no_trail (rstrip s).
Proof. unfold no_trail, rstrip. rewrite rev_involutive. apply lstrip_no_lead. Qed.

Lemma no_trail_rstrip (s : pystr) : no_trail s -> rstrip s = s /\ trailing_space s = [].
Proof.
  unfold no_trail, rstrip, trailing_space. intros H.
  destruct (no_lead_lstrip _ H) as [-> ->]. now rewrite rev_involutive.
Qed.

Lemma rstrip_app_space (s ws : pystr) :
  all_space ws = true -> rstrip (s ++ ws) = rstrip s.
Proof.
  intros H. unfold rstrip. rewrite rev_app_distr.
  rewrite <- all_space_rev in H.
  now rewrite (proj1 (lstrip_app_space (rev ws) (rev s) H)).
Qed.

Lemma rstrip_trailing (s : pystr) : rstrip s ++ trailing_space s = s.
Proof.
  unfold rstrip, trailing_space. rewrite <- rev_app_distr, leading_lstrip.
  apply rev_involutive.
Qed.

Lemma trailing_all_space (s : pystr) : all_space (trailing_space s) = true.
Proof. unfold trailing_space. rewrite all_space_rev. apply leading_all_space. Qed.

(** What [strip] returns has no white space at either end, and [strip]
    leaves such a text as it is. *)
Lemma strip_trimmed (s : pystr) : no_lead (strip s) /\ no_trail (strip s).
Proof.
  unfold strip. split; [apply lstrip_no_lead|].
  apply lstrip_no_trail, rstrip_no_trail.
Qed.

Lemma strip_of_trimmed (s : pystr) : no_lead s -> no_trail s -> strip s = s.
Proof.
  intros Hl Ht. unfold strip. rewrite (proj1 (no_trail_rstrip s Ht)).
  apply (no_lead_lstrip s Hl).
Qed.

Lemma no_lead_app (s r : pystr) : s <> [] -> no_lead s -> no_lead (s ++ r).
Proof. destruct s; [congruence|auto]. Qed.

Lemma no_trail_app (s r : pystr) : r <> [] -> no_trail r -> no_trail (s ++ r).
Proof.
  unfold no_trail. intros Hne H. rewrite rev_app_distr. apply no_lead_app; [|exact H].
  intros Hrev. apply Hne. now rewrite <- (rev_involutive r), Hrev.
Qed.

(* ================================================================= *)
(** ** The STOCK_LIST line *)

Lemma strip_prefix_app (p s r : pystr) : strip_prefix p s = Some r -> s = p ++ r.
Proof.
  revert s. induction p as [|a p IH]; intros s; simpl.
  - now intros [= ->].
  - destruct s as [|b s]; [discriminate|].
    destruct (N.eqb_spec a b) as [->|]; [|discriminate].
    intros H. apply IH in H. now subst.
Qed.

(** The groups of a match cut the line in three; the prefix is white
    space, the name, white space, the equals sign and white space, and the
    suffix is white space. *)
Lemma re_match_shape (line prefix value suffix : pystr) :
  stock_list_re_match line = Some (prefix, value, suffix) ->
  exists ws1 ws2 ws3,
    all_space ws1 = true /\ all_space ws2 = true /\ all_space ws3 = true
    /\ prefix = ws1 ++ text "STOCK_LIST" ++ ws2 ++ [equals_sign] ++ ws3
    /\ all_space suffix = true
    /\ line = prefix ++ value ++ suffix.
Proof.
  unfold stock_list_re_match.
  destruct (strip_prefix _ (lstrip line)) as [after_name|] eqn:Hname; [|discriminate].
  destruct (lstrip after_name) as [|c after_eq] eqn:Heq; [discriminate|].
  destruct (N.eqb_spec c equals_sign) as [->|]; [|discriminate].
  destruct (existsb _ _); [discriminate|].
  intros [= <- <- <-].
  exists (leading_space line), (leading_space after_name), (leading_space after_eq).
  repeat split; try apply leading_all_space; try apply trailing_all_space.
  apply strip_prefix_app in Hname.
  rewrite <- (leading_lstrip line) at 1. rewrite Hname.
  rewrite <- (leading_lstrip after_name) at 1. rewrite Heq.
  rewrite <- (leading_lstrip after_eq) at 1.
  rewrite <- (rstrip_trailing (lstrip after_eq)) at 1.
  simpl. rewrite <- !app_assoc. simpl. rewrite <- ?app_assoc. reflexivity.
Qed.

(** A line built from such a prefix, a trimmed value without line feed and
    a white suffix matches, with that value. *)
Lemma re_match_value (ws1 ws2 ws3 value suffix : pystr) :
  all_space ws1 = true -> all_space ws2 = true -> all_space ws3 = true ->
  all_space suffix = true ->
  no_lead value -> no_trail value -> existsb (N.eqb LF) value = false ->
  exists prefix' suffix',
    stock_list_re_match
      ((ws1 ++ text "STOCK_LIST" ++ ws2 ++ [equals_sign] ++ ws3) ++ value ++ suffix)
    = Some (prefix', value, suffix').
Proof.
  intros H1 H2 H3 Hs Hlead Htrail Hlf. unfold stock_list_re_match.
  rewrite <- !app_assoc.
  rewrite (proj1 (lstrip_app_space ws1 _ H1)).
  change (lstrip (text "STOCK_LIST" ++ ?x)) with (text "STOCK_LIST" ++ x).
  change (strip_prefix (text "STOCK_LIST") (text "STOCK_LIST" ++ ?x)) with (Some x).
  cbv iota. rewrite (proj1 (lstrip_app_space ws2 _ H2)).
  change (lstrip ([equals_sign] ++ ?x)) with (equals_sign :: x).
  cbv iota. rewrite N.eqb_refl.
  rewrite (proj1 (lstrip_app_space ws3 _ H3)).
  destruct value as [|c value].
  - simpl app. rewrite (lstrip_all_space _ Hs). simpl. eexists _, _. reflexivity.
  - assert (lstrip ((c :: value) ++ suffix) = (c :: value) ++ suffix) as ->.
    { apply no_lead_lstrip, no_lead_app; [discriminate|exact Hlead]. }
    rewrite (rstrip_app_space _ _ Hs), (proj1 (no_trail_rstrip _ Htrail)), Hlf.
    eexists _, _. reflexivity.
Qed.

(** The line that [_update_stock_list] appends. *)
Lemma re_match_appended (value : pystr) :
  no_lead value -> no_trail value -> existsb (N.eqb LF) value = false ->
  exists prefix' suffix',
    stock_list_re_match (text "STOCK_LIST=" ++ value) = Some (prefix', value, suffix').
Proof.
  intros Hlead Htrail Hlf.
  destruct (re_match_value [] [] [] value [] eq_refl eq_refl eq_refl eq_refl Hlead Htrail Hlf)
    as (p & s & H).
  exists p, s. rewrite <- H. simpl. now rewrite app_nil_r.
Qed.

(** The matcher on lines as the interpreter matches them. *)
Example re_match_spaced :
  stock_list_re_match (text "  STOCK_LIST = old  ")
  = Some (text "  STOCK_LIST = ", text "old", text "  ").
Proof. vm_compute. reflexivity. Qed.

Example re_match_empty_value :
  stock_list_re_match (text "STOCK_LIST=") = Some (text "STOCK_LIST=", [], []).
Proof. vm_compute. reflexivity. Qed.

Example re_match_line_feed_inside :
  stock_list_re_match (text "STOCK_LIST=a" ++ [LF] ++ text "b") = None.
Proof. vm_compute. reflexivity. Qed.

Example re_match_line_feed_last :
  stock_list_re_match (text "STOCK_LIST=a" ++ [LF])
  = Some (text "STOCK_LIST=", text "a", [LF]).
Proof. vm_compute. reflexivity. Qed.

Example re_match_line_feed_in_prefix :
  stock_list_re_match (text "STOCK_LIST =" ++ [LF] ++ text " a")
  = Some (text "STOCK_LIST =" ++ [LF] ++ text " ", text "a", []).
Proof. vm_compute. reflexivity. Qed.

Example re_match_other_name :
  stock_list_re_match (text "xSTOCK_LIST=1") = None.
Proof. vm_compute. reflexivity. Qed.

(* ================================================================= *)
(** ** Lines *)

Lemma pystr_pair_ind (Q : pystr -> Prop) :
  Q [] -> (forall c, Q [c]) ->
  (forall c c' s, Q s -> Q (c' :: s) -> Q (c :: c' :: s)) ->
  forall s, Q s.
Proof.
  intros H0 H1 H2 s.
  assert (Q s /\ forall c, Q (c :: s)) as [H _]; [|exact H].
  induction s as [|c' s [IH1 IH2]]; [auto|].
  split; [apply IH2|]. intros c. apply H2; [exact IH1|apply IH2].
Qed.

(** The lines of [splitlines] hold no line boundary. *)
Lemma splitlines_no_linebreak (s : pystr) :
  Forall (fun line => no_linebreak line = true) (splitlines s).
Proof.
  induction s as [| c | c c' s IH IH'] using pystr_pair_ind.
  - constructor.
  - simpl. destruct (is_linebreak c) eqn:Hc; repeat constructor.
    simpl. now rewrite Hc.
  - change (splitlines (c :: c' :: s))
      with (if is_linebreak c
            then [] :: (if (c =? CR) && (c' =? LF) then splitlines s
                        else splitlines (c' :: s))
            else match splitlines (c' :: s) with
                 | [] => [[c]]
                 | line :: lines => (c :: line) :: lines
                 end).
    destruct (is_linebreak c) eqn:Hc.
    + constructor; [reflexivity|]. destruct ((c =? CR) && (c' =? LF)); assumption.
    + destruct (splitlines (c' :: s)) as [|line lines].
      * repeat constructor. simpl. now rewrite Hc.
      * inversion IH'; subst. constructor; [|assumption]. simpl. now rewrite Hc.
Qed.

Lemma splitlines_line_feed (p r : pystr) :
  no_linebreak p = true -> splitlines (p ++ LF :: r) = p :: splitlines r.
Proof.
  induction p as [|c p IH]; intros Hp.
  - simpl. destruct r; reflexivity.
  - simpl in Hp. apply andb_prop in Hp as [Hc Hp]. apply negb_true_iff in Hc.
    simpl. rewrite Hc, (IH Hp). reflexivity.
Qed.

Lemma splitlines_one_line (p : pystr) :
  no_linebreak p = true ->
  splitlines p = match p with [] => [] | _ :: _ => [p] end.
Proof.
  induction p as [|c p IH]; intros Hp; [reflexivity|].
  simpl in Hp. apply andb_prop in Hp as [Hc Hp]. apply negb_true_iff in Hc.
  simpl. rewrite Hc, (IH Hp). destruct p; reflexivity.
Qed.

(** Reading lines joined by line feeds finds the same [STOCK_LIST]. *)
Lemma extract_from_joined (lines : list pystr) :
  Forall (fun line => no_linebreak line = true) lines ->
  extract_from (splitlines (join [LF] lines)) = extract_from lines.
Proof.
  induction 1 as [|p lines Hp Hlines IH]; [reflexivity|].
  destruct lines as [|q lines].
  - simpl join. rewrite (splitlines_one_line _ Hp). destruct p; reflexivity.
  - change (join [LF] (p :: q :: lines)) with (p ++ [LF] ++ join [LF] (q :: lines)).
    simpl app at 2. rewrite (splitlines_line_feed _ _ Hp).
    simpl. destruct (stock_list_re_match p) as [[[? ?] ?]|]; [reflexivity|exact IH].
Qed.

Lemma join_line_feed_end (lines : list pystr) :
  lines <> [] -> join [LF] lines ++ [LF] = join [LF] (lines ++ [[]]).
Proof.
  induction lines as [|p lines IH]; [congruence|]. intros _.
  destruct lines as [|q lines].
  - reflexivity.
  - change (join [LF] (p :: q :: lines)) with (p ++ [LF] ++ join [LF] (q :: lines)).
    change (join [LF] ((p :: q :: lines) ++ [[]]))
      with (p ++ [LF] ++ join [LF] ((q :: lines) ++ [[]])).
    rewrite <- IH by discriminate. now rewrite <- !app_assoc.
Qed.


Lemma no_linebreak_app (a b : pystr) :
  no_linebreak (a ++ b) = no_linebreak a && no_linebreak b.
Proof. apply forallb_app. Qed.

(** Text without carriage return is read as it was written. *)
Lemma universal_newlines_id (s : pystr) :
  existsb (N.eqb CR) s = false -> universal_newlines s = s.
Proof.
  induction s as [|c s IH]; [reflexivity|].
  cbn [existsb universal_newlines]. intros H.
  apply orb_false_elim in H as [Hc Hs]. rewrite N.eqb_sym in Hc.
  rewrite Hc. now rewrite IH.
Qed.

Lemma no_linebreak_no_cr (s : pystr) :
  no_linebreak s = true -> existsb (N.eqb CR) s = false.
Proof.
  induction s as [|c s IH]; [reflexivity|].
  cbn [existsb no_linebreak forallb]. intros H.
  apply andb_prop in H as [Hc Hs]. rewrite (IH Hs), orb_false_r.
  destruct (N.eqb_spec CR c) as [<-|]; [discriminate|reflexivity].
Qed.

Lemma joined_no_cr (lines : list pystr) :
  Forall (fun line => no_linebreak line = true) lines ->
  existsb (N.eqb CR) (join [LF] lines) = false.
Proof.
  induction 1 as [|p lines Hp Hlines IH]; [reflexivity|].
  destruct lines as [|q lines]; [now apply no_linebreak_no_cr|].
  change (join [LF] (p :: q :: lines)) with (p ++ [LF] ++ join [LF] (q :: lines)).
  rewrite !existsb_app, IH, (no_linebreak_no_cr _ Hp). reflexivity.
Qed.

Example splitlines_mixed :
  splitlines (text "a" ++ [LF; LF] ++ text "b" ++ [CR; LF] ++ text "c" ++ [CR])
  = [text "a"; []; text "b"; text "c"].
Proof. vm_compute. reflexivity. Qed.

Example update_appends :
  _update_stock_list (text "A=1") (text "x,y")
  = text "A=1" ++ [LF; LF] ++ text "STOCK_LIST=x,y".
Proof. vm_compute. reflexivity. Qed.

Example update_replaces :
  _update_stock_list (text "A=1" ++ [LF] ++ text " STOCK_LIST = old " ++ [LF]) (text "x,y")
  = text "A=1" ++ [LF] ++ text " STOCK_LIST = x,y " ++ [LF].
Proof. vm_compute. reflexivity. Qed.

(* ================================================================= *)
(** ** Normalized stock lists *)

Lemma split_on_parts (sep : N) (s part : pystr) (c : N) :
  In part (split_on sep s) -> In c part -> In c s /\ c <> sep.
Proof.
  revert part. induction s as [|a s IH]; intros part; simpl.
  - intros [<-|[]] [].
  - destruct (N.eqb_spec a sep) as [->|Hne].
    + intros [<-|Hin] Hc; [destruct Hc|]. destruct (IH _ Hin Hc). auto.
    + destruct (split_on sep s) as [|p ps] eqn:Hsplit.
      * intros [<-|[]] [<-|[]]. auto.
      * intros [<-|Hin] Hc.
        -- destruct Hc as [<-|Hc]; [auto|].
           destruct (IH p (or_introl eq_refl) Hc). auto.
        -- destruct (IH part (or_intror Hin) Hc). auto.
Qed.

Lemma In_lstrip (c : N) (s : pystr) : In c (lstrip s) -> In c s.
Proof. intros H. rewrite <- (leading_lstrip s). apply in_or_app. now right. Qed.

Lemma In_strip (c : N) (s : pystr) : In c (strip s) -> In c s.
Proof.
  unfold strip. intros H. apply In_lstrip in H.
  rewrite <- (rstrip_trailing s). apply in_or_app. now left.
Qed.

Lemma In_replace_char (a b c : N) (s : pystr) :
  a <> b -> In c (replace_char a b s) -> c <> a.
Proof.
  intros Hab. unfold replace_char. rewrite in_map_iff. intros (x & <- & _).
  destruct (N.eqb_spec x a); congruence.
Qed.

Lemma normal_parts_good (value : pystr) : Forall good_part (normal_parts value).
Proof.
  apply Forall_forall. intros p Hin. unfold normal_parts in Hin.
  apply filter_In in Hin as [Hin Hne]. apply in_map_iff in Hin as (q & <- & Hq).
  destruct (strip_trimmed q) as [Hl Ht].
  split; [destruct (strip q); [discriminate|congruence]|].
  split; [exact Hl|]. split; [exact Ht|]. split.
  - intros Hc. apply In_strip in Hc. now destruct (split_on_parts _ _ _ _ Hq Hc).
  - intros Hc. apply In_strip in Hc. destruct (split_on_parts _ _ _ _ Hq Hc) as [Hc' _].
    now apply In_replace_char in Hc'.
Qed.

Lemma join_cons2 (sep p q : pystr) (rest : list pystr) :
  join sep (p :: q :: rest) = p ++ sep ++ join sep (q :: rest).
Proof. reflexivity. Qed.

Lemma join_good_nonempty (parts : list pystr) :
  Forall good_part parts -> parts <> [] -> join [comma] parts <> [].
Proof.
  intros Hall Hne. destruct Hall as [|p parts [Hp _] _]; [congruence|].
  destruct parts; simpl; [exact Hp|]. destruct p; [congruence|discriminate].
Qed.

Lemma join_good_trimmed (parts : list pystr) :
  Forall good_part parts ->
  no_lead (join [comma] parts) /\ no_trail (join [comma] parts)
  /\ ~ In LF (join [comma] parts).
Proof.
  induction 1 as [|p parts (Hne & Hl & Ht & Hcomma & Hlf) Hall (IHl & IHt & IHlf)].
  - repeat split. intros [].
  - destruct parts as [|q parts]; [simpl; auto|].
    rewrite join_cons2. split; [now apply no_lead_app|]. split.
    + apply no_trail_app.
      * discriminate.
      * apply no_trail_app; [|exact IHt].
        apply join_good_nonempty; [exact Hall|discriminate].
    + intros Hin. apply in_app_or in Hin as [Hin|Hin]; [contradiction|].
      apply in_app_or in Hin as [[Hin|[]]|Hin]; [discriminate|contradiction].
Qed.

Lemma split_on_plain (sep : N) (p : pystr) :
  ~ In sep p -> split_on sep p = [p].
Proof.
  induction p as [|c p IH]; [reflexivity|]. simpl. intros H.
  destruct (N.eqb_spec c sep) as [->|_]; [exfalso; auto|].
  rewrite IH by auto. reflexivity.
Qed.

Lemma split_on_app_sep (sep : N) (p r : pystr) :
  ~ In sep p -> split_on sep (p ++ sep :: r) = p :: split_on sep r.
Proof.
  induction p as [|c p IH]; simpl; intros H.
  - now rewrite N.eqb_refl.
  - destruct (N.eqb_spec c sep) as [->|_]; [exfalso; auto|].
    rewrite IH by auto. reflexivity.
Qed.

Lemma split_join_good (parts : list pystr) :
  Forall good_part parts -> parts <> [] ->
  split_on comma (join [comma] parts) = parts.
Proof.
  induction 1 as [|p parts (Hne & Hl & Ht & Hcomma & Hlf) Hall IH]; [congruence|].
  intros _. destruct parts as [|q parts].
  - simpl. now apply split_on_plain.
  - rewrite join_cons2. change ([comma] ++ join [comma] (q :: parts))
      with (comma :: join [comma] (q :: parts)).
    rewrite split_on_app_sep by assumption.
    rewrite IH by discriminate. reflexivity.
Qed.



Lemma _normalize_stock_list_parts (value : pystr) :
  _normalize_stock_list value = join [comma] (normal_parts value).
Proof. reflexivity. Qed.


(** A normalized list is trimmed and holds no line feed. *)
Lemma _normalize_stock_list_trimmed (value : pystr) :
  no_lead (_normalize_stock_list value) /\ no_trail (_normalize_stock_list value)
  /\ existsb (N.eqb LF) (_normalize_stock_list value) = false.
Proof.
  unfold _normalize_stock_list. fold (normal_parts value).
  destruct (join_good_trimmed _ (normal_parts_good value)) as (Hl & Ht & Hlf).
  repeat split; try assumption.
  apply not_true_is_false. intros H. apply existsb_exists in H as (c & Hin & Hc).
  apply N.eqb_eq in Hc. subst c. contradiction.
Qed.

(* ================================================================= *)
(** ** Writing and reading back the stock list *)



Lemma _update_stock_list_lines (env_text new_value : pystr) :
  exists tail,
    (tail = [] \/ tail = [[]])
    /\ _update_stock_list env_text new_value
       = join [LF] (out_lines_of env_text new_value ++ tail).
Proof.
  assert (out_lines_of env_text new_value <> []) as Hne.
  { unfold out_lines_of. destruct (existsb _ _) eqn:Hex.
    - destruct (splitlines env_text); [discriminate|discriminate].
    - intros H. apply app_eq_nil in H as [_ H]. discriminate. }
  unfold _update_stock_list. fold (out_lines_of env_text new_value).
  destruct (match env_text with [] => true | _ :: _ => endswith_char LF env_text end).
  - exists [[]]. split; [now right|]. now apply join_line_feed_end.
  - exists []. split; [now left|]. now rewrite !app_nil_r.
Qed.


Lemma update_line_other (value line : pystr) :
  is_stock_list_line line = false -> update_line value line = line.
Proof.
  unfold is_stock_list_line, update_line.
  destruct (stock_list_re_match line) as [[[? ?] ?]|]; [discriminate|reflexivity].
Qed.


Lemma extract_from_skip (lines tail : list pystr) :
  existsb is_stock_list_line lines = false ->
  extract_from (lines ++ tail) = extract_from tail.
Proof.
  induction lines as [|line lines IH]; [reflexivity|]. simpl. intros H.
  apply orb_false_elim in H as [Hline Hrest]. unfold is_stock_list_line in Hline.
  destruct (stock_list_re_match line) as [[[? ?] ?]|]; [discriminate|now apply IH].
Qed.

Lemma map_update_unmatched (value : pystr) (lines : list pystr) :
  existsb is_stock_list_line lines = false ->
  map (update_line value) lines = lines.
Proof.
  induction lines as [|line lines IH]; [reflexivity|]. simpl. intros H.
  apply orb_false_elim in H as [Hline Hrest].
  now rewrite (update_line_other _ _ Hline), IH.
Qed.



Lemma update_line_no_linebreak (value line : pystr) :
  no_linebreak value = true -> no_linebreak line = true ->
  no_linebreak (update_line value line) = true.
Proof.
  intros Hv Hline. unfold update_line.
  destruct (stock_list_re_match line) as [[[prefix v] suffix]|] eqn:Hm; [|exact Hline].
  apply re_match_shape in Hm as (_ & _ & _ & _ & _ & _ & _ & _ & Heq).
  rewrite Heq, !no_linebreak_app in Hline.
  apply andb_prop in Hline as [Hp Hrest]. apply andb_prop in Hrest as [_ Hs].
  now rewrite !no_linebreak_app, Hp, Hv, Hs.
Qed.

Lemma out_lines_no_linebreak (env_text value : pystr) :
  no_linebreak value = true ->
  Forall (fun line => no_linebreak line = true) (out_lines_of env_text value).
Proof.
  intros Hv.
  assert (Forall (fun line => no_linebreak line = true)
                 (map (update_line value) (splitlines env_text))) as Hmap.
  { apply Forall_forall. intros line Hin. apply in_map_iff in Hin as (l & <- & Hl).
    apply update_line_no_linebreak; [exact Hv|].
    pose proof (splitlines_no_linebreak env_text) as Hall.
    rewrite Forall_forall in Hall. now apply Hall. }
  assert (no_linebreak (text "STOCK_LIST=" ++ value) = true) as Hlast.
  { rewrite no_linebreak_app, Hv. reflexivity. }
  unfold out_lines_of. destruct (existsb _ _); [exact Hmap|].
  apply Forall_app. split; [|now repeat constructor].
  destruct (map (update_line value) (splitlines env_text)) as [|l ls] eqn:Hls; [constructor|].
  destruct (is_empty _); [exact Hmap|].
  apply Forall_app. split; [exact Hmap|now repeat constructor].
Qed.




(** *** The characters of the text that is written *)







Lemma set_stock_list_eq (stock_list : pystr) (w : world) :
  disk_ok w = true ->
  let env_text := match env_file w with
                  | Some content => universal_newlines content
                  | None => []
                  end in
  let updated := _update_stock_list env_text (_normalize_stock_list stock_list) in
  set_stock_list stock_list w
  = if encodes updated
    then (Ok (_normalize_stock_list stock_list), with_env_file (Some updated) w)
    else (Raise UnicodeEncodeError, with_env_file (Some []) w).
Proof.
  intros Hdisk. unfold set_stock_list, read_env_text, write_env_text.
  unfold bind, gets, ret. rewrite Hdisk. cbv zeta.
  destruct (encodes _); reflexivity.
Qed.


Local Close Scope N_scope.



(** A stock list with a lone surrogate: the write raises and the env file
    is left empty. *)
Example set_stock_list_surrogate :
  fst (set_stock_list (text "600519" ++ [55296%N]) (env_world (text "TOKEN=abc")))
  = Raise UnicodeEncodeError
  /\ env_file (snd (set_stock_list (text "600519" ++ [55296%N])
                                   (env_world (text "TOKEN=abc"))))
     = Some [].
Proof. vm_compute. split; reflexivity. Qed.

(* ================================================================= *)
(** * Further properties of the services *)

(** ** The review cache *)

Section ReviewFacts.
Context {P : Platform}.

(** The world that a successful generation leaves, field by field. *)
Lemma get_today_review_fields (force_refresh : bool) (w : world)
      (report overview : json) :
  force_refresh = true
  \/ dict_get (strftime_ymd (clock w (ticks w))) (reviews w) = None ->
  market w (gen_calls w) = Generated report overview ->
  let today := strftime_ymd (clock w (ticks w)) in
  let review_data := generated_review today report overview (clock w (S (ticks w))) in
  let w1 := snd (get_today_review force_refresh w) in
  fst (get_today_review force_refresh w) = Ok review_data
  /\ reviews w1 = dict_set today review_data (reviews w)
  /\ review_file w1
     = (if disk_ok w then Json (JObj (dict_set today review_data (reviews w)))
        else
          match disk_failure w with
          | AfterOpen _ => Garbage
          | AtMakedirs | AtOpen => review_file w
          end)
  /\ gen_calls w1 = S (gen_calls w)
  /\ ticks w1 = S (S (ticks w))
  /\ clock w1 = clock w
  /\ market w1 = market w.
Proof.
  intros Hmiss Hgen. unfold get_today_review. run_monad.
  assert ((if force_refresh then None
           else dict_get (strftime_ymd (clock w (ticks w))) (reviews w)) = None) as ->.
  { destruct Hmiss as [->|H]; [reflexivity|]. destruct force_refresh; [reflexivity|exact H]. }
  unfold generate_review. run_monad. rewrite Hgen. run_monad.
  rewrite _save_reviews_eq. simpl.
  destruct (disk_ok w); [|destruct (disk_failure w)]; simpl; repeat split; reflexivity.
Qed.

(** X1. After a generation that succeeded, a second call at an instant of
    the same day answers the stored review from the cache and starts no
    generation, so the two calls have started one; with [force_refresh]
    the second call generates again. *)
Theorem generated_review_is_reused (force_refresh : bool) (w : world)
        (report overview : json) :
  force_refresh = true
  \/ dict_get (strftime_ymd (clock w (ticks w))) (reviews w) = None ->
  market w (gen_calls w) = Generated report overview ->
  strftime_ymd (clock w (S (S (ticks w)))) = strftime_ymd (clock w (ticks w)) ->
  let today := strftime_ymd (clock w (ticks w)) in
  let review_data := generated_review today report overview (clock w (S (ticks w))) in
  let w1 := snd (get_today_review force_refresh w) in
  get_today_review false w1 = (Ok review_data, with_ticks (S (ticks w1)) w1)
  /\ gen_calls w1 = S (gen_calls w)
  /\ gen_calls (snd (get_today_review true w1)) = S (S (gen_calls w)).
Proof.
  intros Hmiss Hgen Hday today review_data w1.
  destruct (get_today_review_fields force_refresh w report overview Hmiss Hgen)
    as (_ & Hrs & _ & Hcalls & Hticks & Hclock & _).
  fold today review_data w1 in Hrs, Hcalls, Hticks, Hclock.
  split; [|split].
  - apply get_today_review_hit.
    rewrite Hclock, Hticks, Hday, Hrs. apply dict_get_set_same.
  - exact Hcalls.
  - rewrite get_today_review_miss by now left. now rewrite Hcalls.
Qed.

(** X2. [get_today_review] answers in every world and never raises.  The
    review file it leaves is the one it found, or the dump of the whole
    cache, or, when the write failed after the file was opened, a
    truncated file that does not decode; it is the one it found when
    [os.makedirs] or [open] raises.  A review that was generated is stored
    in the cache and answered whatever the disk does. *)
Theorem get_today_review_always_answers (force_refresh : bool) (w : world) :
  let today := strftime_ymd (clock w (ticks w)) in
  let w1 := snd (get_today_review force_refresh w) in
  (exists record : json, fst (get_today_review force_refresh w) = Ok record)
  /\ (review_file w1 = review_file w
      \/ review_file w1 = Json (JObj (reviews w1))
      \/ (review_file w1 = Garbage /\ disk_ok w = false
          /\ exists written : nat, disk_failure w = AfterOpen written))
  /\ (disk_ok w = false -> disk_failure w = AtMakedirs \/ disk_failure w = AtOpen ->
      review_file w1 = review_file w)
  /\ (forall report overview : json,
        force_refresh = true \/ dict_get today (reviews w) = None ->
        market w (gen_calls w) = Generated report overview ->
        fst (get_today_review force_refresh w)
        = Ok (generated_review today report overview (clock w (S (ticks w))))
        /\ dict_get today (reviews w1)
           = Some (generated_review today report overview (clock w (S (ticks w))))
        /\ (disk_ok w = false ->
            forall written : nat, disk_failure w = AfterOpen written ->
            review_file w1 = Garbage)).
Proof.
  intros today w1.
  assert (force_refresh = false /\ (exists cached, dict_get today (reviews w) = Some cached)
          \/ (force_refresh = true \/ dict_get today (reviews w) = None)) as [[-> [c Hc]]|Hmiss].
  { destruct force_refresh; [right; now left|].
    destruct (dict_get today (reviews w)) as [c|] eqn:E.
    - left. split; [reflexivity|]. now exists c.
    - right. now right. }
  - subst w1. rewrite (get_today_review_hit w c Hc). simpl.
    split; [now exists c|]. split; [now left|]. split; [reflexivity|].
    intros report overview [Hf|Hn]; [discriminate|]. fold today in Hc. congruence.
  - destruct (market w (gen_calls w)) as [report overview|msg] eqn:Hgen.
    + destruct (get_today_review_fields force_refresh w report overview Hmiss Hgen)
        as (Hans & Hrs & Hfile & _).
      fold today w1 in Hans, Hrs, Hfile.
      split; [eexists; exact Hans|]. split; [|split].
      * rewrite Hfile, Hrs. destruct (disk_ok w); [right; now left|].
        destruct (disk_failure w) as [| |written]; [now left|now left|].
        right. right. repeat split. now exists written.
      * intros Hd [Hf|Hf]; now rewrite Hfile, Hd, Hf.
      * intros r o _ [= <- <-]. split; [exact Hans|]. split.
        -- rewrite Hrs. apply dict_get_set_same.
        -- intros Hd written Hf. now rewrite Hfile, Hd, Hf.
    + assert (get_today_review force_refresh w
              = (Ok (error_review today msg (clock w (S (ticks w)))),
                 with_ticks (S (S (ticks w))) (with_gen_calls (S (gen_calls w)) w))) as Heq.
      { unfold get_today_review. run_monad.
        assert ((if force_refresh then None
                 else dict_get (strftime_ymd (clock w (ticks w))) (reviews w)) = None) as ->.
        { destruct Hmiss as [->|H]; [reflexivity|].
          destruct force_refresh; [reflexivity|exact H]. }
        unfold generate_review. run_monad. rewrite Hgen. reflexivity. }
      subst w1. rewrite Heq. simpl.
      split; [eexists; reflexivity|]. split; [now left|]. split; [reflexivity|].
      intros r o _ [=].
Qed.

(** The loop of [_load_reviews] on distinct keys is a filter. *)
Lemma reviews_scan_filter (now : Z) (items : list (string * json)) (acc : dict json) :
  NoDup (dict_keys acc ++ dict_keys items) ->
  reviews_scan now items acc
  = acc ++ filter (fun kv => review_kept now (fst kv)) items.
Proof.
  revert acc. induction items as [|[k v] items IH]; intros acc Hnd.
  - simpl. now rewrite app_nil_r.
  - assert (NoDup (dict_keys acc ++ dict_keys items)) as Hskip.
    { unfold dict_keys in *. simpl in Hnd. now apply NoDup_remove_1 in Hnd. }
    assert (~ In k (dict_keys acc)) as Hfresh.
    { unfold dict_keys in *. simpl in Hnd. apply NoDup_remove_2 in Hnd.
      intros Hin. apply Hnd. apply in_or_app. now left. }
    cbn [reviews_scan filter fst]. unfold review_kept at 1.
    destruct (strptime_ymd k) as [d|]; [|now apply IH].
    destruct ((now - d) / (24 * 3600 * 1000000) <=? 7); [|now apply IH].
    rewrite IH.
    + rewrite (dict_set_fresh acc k v Hfresh), <- app_assoc. reflexivity.
    + rewrite (dict_set_fresh acc k v Hfresh). unfold dict_keys in *.
      rewrite map_app, <- app_assoc. exact Hnd.
Qed.

Lemma _load_reviews_eq (w : world) (items : list (string * json)) :
  review_file w = Json (JObj items) ->
  NoDup (dict_keys items) ->
  _load_reviews w
  = (Ok tt, with_reviews (filter (fun kv => review_kept (clock w (ticks w)) (fst kv)) items)
              (with_ticks (S (ticks w)) w)).
Proof.
  intros Hfile Hnd. unfold _load_reviews. run_monad. rewrite Hfile. simpl.
  rewrite (reviews_scan_filter _ items []) by exact Hnd. reflexivity.
Qed.

(** X3. On a review file that decodes to an object, [_load_reviews]
    replaces the cache by the reviews of the file, in order, whose key
    reads as a date less than eight whole days before the instant of the
    load: the day count is rounded down before it is compared with 7, a
    later date is kept, a key that is no date is dropped, and the review
    itself is not looked at. *)
Theorem load_reviews_keeps_under_eight_days (w : world) (items : list (string * json)) :
  review_file w = Json (JObj items) ->
  NoDup (dict_keys items) ->
  let now := clock w (ticks w) in
  _load_reviews w
  = (Ok tt, with_reviews (filter (fun kv => review_kept now (fst kv)) items)
              (with_ticks (S (ticks w)) w))
  /\ (forall date_str : string,
        review_kept now date_str = true
        <-> exists review_date : Z,
              strptime_ymd date_str = Some review_date
              /\ now - review_date < 8 * (24 * 3600 * 1000000)).
Proof.
  intros Hfile Hnd now. split; [now apply _load_reviews_eq|].
  intros date_str. unfold review_kept.
  destruct (strptime_ymd date_str) as [d|].
  - rewrite Z.leb_le. split.
    + intros H. exists d. split; [reflexivity|].
      destruct (Z.le_gt_cases (8 * (24 * 3600 * 1000000)) (now - d)) as [Hge|Hlt]; [|lia].
      exfalso.
      assert (8 <= (now - d) / (24 * 3600 * 1000000)) by (apply Z.div_le_lower_bound; lia).
      lia.
    + intros (d' & [= <-] & Hlt).
      assert ((now - d) / (24 * 3600 * 1000000) < 8) by (apply Z.div_lt_upper_bound; lia).
      lia.
  - split; [discriminate|]. intros (d & [=] & _).
Qed.

Lemma dict_get_filter_key {V} (f : string -> bool) (d : dict V) (k : string) :
  f k = true -> dict_get k (filter (fun kv => f (fst kv)) d) = dict_get k d.
Proof.
  intros Hk. induction d as [|[k' v] d IH]; simpl; [reflexivity|].
  destruct (String.eqb_spec k' k) as [->|Hne].
  - rewrite Hk. simpl. now rewrite String.eqb_refl.
  - destruct (f k'); simpl; [|exact IH].
    destruct (String.eqb_spec k' k); [contradiction|exact IH].
Qed.

(** X4. A review that was generated and written is found again by a
    process that starts on the file within the retention: when the
    generation succeeded, the disk accepted the write and the cache held
    one review per date, [_load_reviews] in a world with that file, at an
    instant whose rounded day count from the date of the review is at
    most 7, stores the same review under the same date. *)
Theorem generated_review_survives_restart (force_refresh : bool) (w w' : world)
        (report overview : json) (review_date : Z) :
  force_refresh = true
  \/ dict_get (strftime_ymd (clock w (ticks w))) (reviews w) = None ->
  market w (gen_calls w) = Generated report overview ->
  disk_ok w = true ->
  NoDup (dict_keys (reviews w)) ->
  let today := strftime_ymd (clock w (ticks w)) in
  strptime_ymd today = Some review_date ->
  review_file w' = review_file (snd (get_today_review force_refresh w)) ->
  (clock w' (ticks w') - review_date) / (24 * 3600 * 1000000) <= 7 ->
  dict_get today (reviews (snd (_load_reviews w')))
  = Some (generated_review today report overview (clock w (S (ticks w)))).
Proof.
  intros Hmiss Hgen Hdisk Hnd today Hdate Hfile Hage.
  destruct (get_today_review_fields force_refresh w report overview Hmiss Hgen)
    as (_ & _ & Hwritten & _).
  fold today in Hwritten. rewrite Hdisk in Hwritten. rewrite Hwritten in Hfile.
  rewrite (_load_reviews_eq w' _ Hfile) by now apply dict_keys_set.
  simpl.
  rewrite (dict_get_filter_key (review_kept (clock w' (ticks w')))).
  - apply dict_get_set_same.
  - unfold review_kept. rewrite Hdate. now apply Z.leb_le.
Qed.
End ReviewFacts.

(** Two calls on the morning of 2024-03-01. *)
Lemma generated_review_is_reused_witness :
  let w := working_market_world in
  let review_data :=
    generated_review "2024-03-01" (JStr "report") (JObj []) (t_morning + 1000000) in
  let w1 := snd (get_today_review false w) in
  get_today_review false w1 = (Ok review_data, with_ticks (S (ticks w1)) w1)
  /\ gen_calls w1 = 1%nat
  /\ gen_calls (snd (get_today_review true w1)) = 2%nat.
Proof.
  exact (@generated_review_is_reused iso_platform false working_market_world
           (JStr "report") (JObj []) (or_intror eq_refl) eq_refl eq_refl).
Defined.

(** Of the four reviews of the file, the one of seven days before and the
    one of the later day are loaded. *)
Lemma load_reviews_keeps_under_eight_days_witness :
  reviews (snd (_load_reviews review_file_world))
  = [("2024-02-23", review_of "2024-02-23"); ("2024-03-05", review_of "2024-03-05")].
Proof.
  assert (NoDup (dict_keys [("2024-02-22", review_of "2024-02-22");
                            ("2024-02-23", review_of "2024-02-23");
                            ("soon", review_of "soon");
                            ("2024-03-05", review_of "2024-03-05")])) as Hnd.
  { repeat constructor; simpl; intuition discriminate. }
  destruct (@load_reviews_keeps_under_eight_days iso_platform review_file_world _
              eq_refl Hnd) as [Heq _].
  rewrite Heq. reflexivity.
Defined.

(** The review of 2024-03-01 read by a process started two days later. *)
Lemma generated_review_survives_restart_witness :
  dict_get "2024-03-01"
    (reviews (snd (_load_reviews
                     (later_world (review_file (snd (get_today_review false
                                                       working_market_world)))))))
  = Some (generated_review "2024-03-01" (JStr "report") (JObj []) (t_morning + 1000000)).
Proof.
  apply (@generated_review_survives_restart iso_platform false working_market_world
           (later_world (review_file (snd (get_today_review false working_market_world))))
           (JStr "report") (JObj []) (Iso.instant 2024 3 1 0 0 0)).
  - now right.
  - reflexivity.
  - reflexivity.
  - constructor.
  - reflexivity.
  - reflexivity.
  - apply Z.leb_le. reflexivity.
Defined.

(* ================================================================= *)
(** ** The list of the reviews *)

Lemma insert_by_date_perm (x : json) (l : list json) :
  Permutation (x :: l) (insert_by_date x l).
Proof.
  induction l as [|y l IH]; simpl; [reflexivity|].
  destruct (String.ltb _ _); [|reflexivity].
  rewrite perm_swap. now constructor.
Qed.

Lemma sort_by_date_desc_perm (l : list json) : Permutation l (sort_by_date_desc l).
Proof.
  induction l as [|x l IH]; simpl; [reflexivity|].
  rewrite <- insert_by_date_perm. now constructor.
Qed.

Lemma insert_by_date_sorted (x : json) (l : list json) :
  Sorted date_ge l -> Sorted date_ge (insert_by_date x l).
Proof.
  induction l as [|y l IH]; simpl; intros Hs.
  - repeat constructor.
  - inversion Hs as [|? ? Hl Hhd]; subst.
    destruct (String.ltb (date_string x) (date_string y)) eqn:Hlt.
    + constructor; [now apply IH|].
      destruct l as [|z l]; simpl.
      * constructor. now apply ltb_leb.
      * destruct (String.ltb (date_string x) (date_string z)).
        -- inversion Hhd; subst. now constructor.
        -- constructor. now apply ltb_leb.
    + constructor; [assumption|]. constructor. now apply not_ltb_leb.
Qed.

Lemma sort_by_date_desc_sorted (l : list json) : Sorted date_ge (sort_by_date_desc l).
Proof.
  induction l as [|x l IH]; simpl; [constructor|now apply insert_by_date_sorted].
Qed.

Lemma sort_reviews_dated (l : list json) :
  Forall dated l -> sort_reviews l = Ok (sort_by_date_desc l).
Proof.
  intros Hdated. unfold sort_reviews, sort_by_date_desc.
  apply (py_sort_desc_strings _ date_string insert_by_date); [reflexivity|reflexivity|].
  intros x Hx. rewrite Forall_forall in Hdated.
  destruct (Hdated x Hx) as (fields & s & -> & Hs).
  unfold date_string. simpl. now rewrite Hs.
Qed.

Lemma keys_of_not_dict (l : list json) (x : json) :
  In x l -> (forall fields, x <> JObj fields) ->
  keys_of date_key l = Raise AttributeError.
Proof.
  intros Hin Hx. induction l as [|y l IH]; simpl; [contradiction|].
  destruct Hin as [->|Hin].
  - destruct x as [| | | | |fields]; try reflexivity. now destruct (Hx fields).
  - destruct y as [| | | | |fields]; try reflexivity. simpl. now rewrite (IH Hin).
Qed.

(** X5. [list_reviews] only reads: it leaves the world as it is, so a
    review that is older than the retention of the load stays in the cache
    and is listed.  When every cached review is a dict whose date is a
    string and the limit is not negative, the reviews it returns are the
    start of the cached reviews put in descending order of their dates:
    together with the reviews left out they are the cached reviews, each
    once, newest first, and their number is the smaller of the limit and
    the size of the cache.  A cached value that is not a dict makes the
    call raise [AttributeError]. *)
Theorem list_reviews_spec (limit : Z) (w : world) :
  snd (list_reviews limit w) = w
  /\ (0 <= limit -> Forall dated (dict_values (reviews w)) ->
      exists listed rest : list json,
        fst (list_reviews limit w) = Ok listed
        /\ Permutation (listed ++ rest) (dict_values (reviews w))
        /\ Sorted date_ge (listed ++ rest)
        /\ List.length listed
           = Nat.min (Z.to_nat limit) (List.length (reviews w)))
  /\ (forall x : json,
        In x (dict_values (reviews w)) -> (forall fields, x <> JObj fields) ->
        fst (list_reviews limit w) = Raise AttributeError).
Proof.
  unfold list_reviews. run_monad. split; [|split].
  - destruct (sort_reviews (dict_values (reviews w))); reflexivity.
  - intros Hlimit Hdated.
    rewrite (sort_reviews_dated _ Hdated). simpl.
    destruct (py_slice_to_nonneg limit (sort_by_date_desc (dict_values (reviews w))) Hlimit)
      as [-> _].
    exists (firstn (Z.to_nat limit) (sort_by_date_desc (dict_values (reviews w)))),
           (skipn (Z.to_nat limit) (sort_by_date_desc (dict_values (reviews w)))).
    split; [reflexivity|]. rewrite firstn_skipn.
    split; [symmetry; apply sort_by_date_desc_perm|].
    split; [apply sort_by_date_desc_sorted|].
    rewrite length_firstn.
    rewrite <- (Permutation_length (sort_by_date_desc_perm (dict_values (reviews w)))).
    unfold dict_values. now rewrite length_map.
  - intros x Hin Hx. unfold sort_reviews, py_sort_desc.
    rewrite (keys_of_not_dict _ x Hin Hx). reflexivity.
Qed.

(** The three cached reviews, the two newest asked for: the review of
    2024-01-01 is still in the cache. *)
Example list_reviews_run :
  fst (list_reviews 2 reviewed_world)
  = Ok [review_of "2024-03-01"; review_of "2024-02-29"]
  /\ fst (list_reviews 7 reviewed_world)
     = Ok [review_of "2024-03-01"; review_of "2024-02-29"; old_review].
Proof. vm_compute. split; reflexivity. Qed.

(* ================================================================= *)
(** ** The task table and its file *)

Section TaskFacts.
Context {P : Platform}.

Lemma update_task_missing (task_id : string) (fields : Z -> dict json) (w : world) :
  dict_get task_id (tasks w) = None ->
  update_task task_id fields w = (Raise (KeyError task_id), w).
Proof. intros H. unfold update_task. run_monad. now rewrite H. Qed.

(** The end of a job either finds no record and raises, or updates the
    record and saves twice. *)
Lemma run_end_cases (code task_id : string) (outcome : analysis) (w : world) :
  (dict_get task_id (tasks w) = None
   /\ run_end code task_id outcome w = (Raise (KeyError task_id), w))
  \/ (exists (task fields : dict json) (answer : json),
        dict_get task_id (tasks w) = Some task
        /\ run_end code task_id outcome w
           = (Ok answer,
              saved_world
                (saved_world
                   (with_tasks (dict_set task_id (dict_update fields task) (tasks w))
                               (with_ticks (S (ticks w)) w))))
        /\ (dict_keys fields = ["status"; "end_time"; "result"]
            \/ dict_keys fields = ["status"; "end_time"; "error"])).
Proof.
  destruct (dict_get task_id (tasks w)) as [task|] eqn:Hget.
  - right. exists task.
    destruct outcome as [result_data| |msg]; unfold run_end, try_except, bind, raise;
      rewrite (update_task_eq _ _ _ _ Hget), !_save_tasks_eq;
      eexists; eexists; (split; [reflexivity|]); (split; [reflexivity|]);
      [now left|now right|now right].
  - left. split; [reflexivity|].
    destruct outcome as [result_data| |msg]; unfold run_end, try_except, bind, raise;
      repeat (rewrite (update_task_missing _ _ _ Hget); cbv beta iota); reflexivity.
Qed.

(** X6. A job whose record is not in the table when the collaborator
    returns (it was deleted, or evicted, while the job ran) ends with
    [KeyError], whatever the collaborator returned: the handler of
    [_run_analysis] looks the record up again.  Nothing is recorded, in
    the table or in the file, and the clock is not read. *)
Theorem run_end_without_record (code task_id : string) (outcome : analysis) (w : world) :
  dict_get task_id (tasks w) = None ->
  run_end code task_id outcome w = (Raise (KeyError task_id), w).
Proof.
  intros Hget.
  destruct (run_end_cases code task_id outcome w) as [[_ Heq]|(task & _ & _ & Hsome & _)].
  - exact Heq.
  - congruence.
Qed.

Lemma saved_world_disk (w : world) :
  disk_ok (saved_world w) = disk_ok w /\ disk_failure (saved_world w) = disk_failure w.
Proof.
  destruct (saved_world_fields w) as (_ & _ & _ & _ & Hd & _ & _ & _ & _ & _ & _ & Hf & _).
  now split.
Qed.

(** A save on a disk that refuses the write leaves the file as it was, or
    truncated when the failure comes after the [open]. *)
Lemma saved_world_file_failing (w : world) :
  disk_ok w = false ->
  task_file (saved_world w) = task_file w
  \/ (task_file (saved_world w) = Garbage
      /\ exists written : nat, disk_failure w = AfterOpen written).
Proof.
  intros Hd. unfold saved_world. rewrite Hd.
  destruct (disk_failure w) as [| |written]; [now left| |];
    (destruct (save_scan _ _ _); [|now left]); [now left|].
  right. split; [reflexivity|]. now exists written.
Qed.

Lemma evict_expired_file (w : world) :
  task_file (snd (evict_expired w)) = task_file w
  /\ disk_ok (snd (evict_expired w)) = disk_ok w
  /\ disk_failure (snd (evict_expired w)) = disk_failure w.
Proof.
  rewrite evict_expired_eq. destruct (expired_scan _ _ _) as [ids|e]; [|now split].
  unfold evicted_world. destruct ids; now split.
Qed.

Lemma list_tasks_file (limit : Z) (w : world) :
  task_file (snd (list_tasks limit w)) = task_file w
  /\ disk_ok (snd (list_tasks limit w)) = disk_ok w
  /\ disk_failure (snd (list_tasks limit w)) = disk_failure w.
Proof.
  unfold list_tasks, bind.
  destruct (evict_expired_file w) as (Hf1 & Hd1 & Hk1).
  destruct (evict_expired w) as [[[]|e] w1]; cbn [snd] in *; [|now split].
  destruct (evict_expired_file w1) as (Hf2 & Hd2 & Hk2).
  destruct (evict_expired w1) as [[[]|e] w2]; cbn [snd] in *;
    [|repeat split; congruence].
  unfold gets, lift, ret. destruct (sort_by_start_time _); cbn [snd];
    repeat split; congruence.
Qed.

(** No event changes what the disk does. *)
Lemma perform_disk (e : event) (w : world) :
  disk_ok (perform e w) = disk_ok w /\ disk_failure (perform e w) = disk_failure w.
Proof.
  destruct e as [code|code task_id|code task_id outcome|task_id|task_id|limit|];
    cbn [perform].
  - rewrite submit_analysis_eq. now split.
  - rewrite run_begin_eq. unfold begun_world. cbn [snd].
    match goal with |- context [saved_world (saved_world ?w0)] =>
      destruct (saved_world_disk w0) as [Hd1 Hf1];
      destruct (saved_world_disk (saved_world w0)) as [Hd2 Hf2]
    end.
    cbn [disk_ok disk_failure with_tasks with_ticks with_running with_pool] in Hd1, Hf1.
    split; congruence.
  - cbv zeta. cbn [disk_ok disk_failure with_running].
    destruct (run_end_cases code task_id outcome w)
      as [[_ ->]|(task & fields & answer & _ & -> & _)]; cbn [snd]; [now split|].
    match goal with |- context [saved_world (saved_world ?w0)] =>
      destruct (saved_world_disk w0) as [Hd1 Hf1];
      destruct (saved_world_disk (saved_world w0)) as [Hd2 Hf2]
    end.
    cbn [disk_ok disk_failure with_tasks with_ticks with_running with_pool] in Hd1, Hf1.
    split; congruence.
  - now split.
  - rewrite delete_task_eq. destruct (dict_mem task_id (tasks w)); cbn [snd]; [|now split].
    match goal with |- context [saved_world ?w0] =>
      destruct (saved_world_disk w0) as [Hd1 Hf1]
    end.
    cbn [disk_ok disk_failure with_tasks] in Hd1, Hf1. now split.
  - destruct (list_tasks_file limit w) as (_ & Hd & Hf). now split.
  - rewrite _save_tasks_eq. cbn [snd disk_ok disk_failure with_threads].
    apply saved_world_disk.
Qed.

(** Two saves in a row on a disk that refuses the write. *)
Lemma saved_twice_file_failing (w : world) :
  disk_ok w = false ->
  task_file (saved_world (saved_world w)) = task_file w
  \/ (task_file (saved_world (saved_world w)) = Garbage
      /\ exists written : nat, disk_failure w = AfterOpen written).
Proof.
  intros Hd. destruct (saved_world_disk w) as [Hd1 Hf1].
  rewrite Hd in Hd1.
  destruct (saved_world_file_failing (saved_world w) Hd1) as [H2|[H2 Hn]].
  - destruct (saved_world_file_failing w Hd) as [H1|[H1 Hn]].
    + left. congruence.
    + right. split; [congruence|exact Hn].
  - right. split; [exact H2|]. now rewrite <- Hf1.
Qed.

Lemma perform_file_failing (e : event) (w : world) :
  disk_ok w = false ->
  task_file (perform e w) = task_file w
  \/ (task_file (perform e w) = Garbage
      /\ exists written : nat, disk_failure w = AfterOpen written).
Proof.
  intros Hd. destruct e as [code|code task_id|code task_id outcome|task_id|task_id|limit|];
    cbn [perform].
  - rewrite submit_analysis_eq. now left.
  - rewrite run_begin_eq. unfold begun_world. cbn [snd].
    match goal with |- context [saved_world (saved_world ?w0)] =>
      exact (saved_twice_file_failing w0 Hd)
    end.
  - cbv zeta. cbn [task_file with_running].
    destruct (run_end_cases code task_id outcome w)
      as [[_ ->]|(task & fields & answer & _ & -> & _)]; cbn [snd]; [now left|].
    match goal with |- context [saved_world (saved_world ?w0)] =>
      exact (saved_twice_file_failing w0 Hd)
    end.
  - now left.
  - rewrite delete_task_eq. destruct (dict_mem task_id (tasks w)); cbn [snd]; [|now left].
    match goal with |- context [saved_world ?w0] =>
      exact (saved_world_file_failing w0 Hd)
    end.
  - destruct (list_tasks_file limit w) as (Hf & _). now left.
  - rewrite _save_tasks_eq. cbn [snd task_file with_threads].
    now apply saved_world_file_failing.
Qed.

(** X7. While the disk refuses every write before the file is opened
    ([os.makedirs] or [open] raises), nothing that happens to the task
    service changes the task file: the failed save is logged and dropped
    by [_save_tasks], so the submissions, the jobs, the deletions, the
    listings and the detached saves go on in memory, in any number and
    order, and the file stays as it was.  While the writes fail after the
    [open], which has emptied the file, the task file is after any events
    the one that was found or a truncated file that does not decode; it
    never holds another document. *)
Theorem task_file_kept_when_disk_fails (events : list event) (w : world) :
  disk_ok w = false ->
  let w' := fold_left (fun w0 e => perform e w0) events w in
  (disk_failure w = AtMakedirs \/ disk_failure w = AtOpen -> task_file w' = task_file w)
  /\ (task_file w' = task_file w \/ task_file w' = Garbage).
Proof.
  intros Hd w'. subst w'.
  assert (forall w0,
             disk_ok w0 = false ->
             task_file (fold_left (fun w1 e => perform e w1) events w0) = task_file w0
             \/ (task_file (fold_left (fun w1 e => perform e w1) events w0) = Garbage
                 /\ exists written : nat, disk_failure w0 = AfterOpen written)) as Hall.
  { induction events as [|e events IH]; intros w0 Hd0; [now left|].
    simpl. destruct (perform_disk e w0) as [Hd1 Hf1]. rewrite Hd0 in Hd1.
    destruct (IH _ Hd1) as [Hrest|[Hrest Hn]].
    - rewrite Hrest. now apply perform_file_failing.
    - right. split; [exact Hrest|]. now rewrite <- Hf1. }
  destruct (Hall w Hd) as [Hsame|[Htorn [written Hn]]].
  - split; [intros _; exact Hsame|now left].
  - split; [intros [Hf|Hf]; congruence|now right].
Qed.

(** What a save keeps is fresh, comes from the table, and has one record
    per key. *)
Lemma save_scan_fresh (now : Z) (items acc kept : dict (dict json))
      (Q : string * dict json -> Prop) :
  save_scan now items acc = Ok kept ->
  Forall Q items ->
  Forall (fun kv => Q kv /\ is_fresh now (snd kv) = true) acc ->
  NoDup (dict_keys acc) ->
  Forall (fun kv => Q kv /\ is_fresh now (snd kv) = true) kept /\ NoDup (dict_keys kept).
Proof.
  revert acc. induction items as [|[k task] items IH]; intros acc; simpl.
  - intros [= ->]. auto.
  - intros H Hitems. inversion Hitems as [|? ? Hk Hrest]; subst. revert H.
    destruct (truthy (py_get "start_time" task)) eqn:Htruthy; simpl;
      [|intros H; now apply IH].
    destruct (elapsed now (py_get "start_time" task)) as [d|[]] eqn:Hel;
      try discriminate; try (intros H; now apply IH).
    destruct (within_retention d) eqn:Hret; [|intros H; now apply IH].
    intros H Hacc Hnd. apply IH in H; [assumption|assumption| |now apply dict_keys_set].
    apply Forall_dict_set; [assumption|]. split; [exact Hk|]. simpl.
    unfold is_fresh, classify. now rewrite Htruthy, Hel, Hret.
Qed.

(** X8. [_save_tasks] never raises and leaves the table as it is.  The
    file it leaves is the one it found, or, when the write failed after
    the [open], a truncated file that does not decode, or a document that
    holds records of the table only, one per key, each with a start time
    that parses and is at most 72 hours before the instant of the save:
    no document that the save leaves holds an expired record.  On a table
    as the service builds it and a disk that accepts the write, the file
    holds exactly those records of the table, in order. *)
Theorem saved_file_holds_fresh_records (w : world) :
  let now := clock w (ticks w) in
  let w' := snd (_save_tasks w) in
  fst (_save_tasks w) = Ok tt
  /\ tasks w' = tasks w
  /\ (task_file w' = task_file w
      \/ (task_file w' = Garbage /\ disk_ok w = false
          /\ exists written : nat, disk_failure w = AfterOpen written)
      \/ exists kept : dict (dict json),
           task_file w' = Json (json_of_tasks kept)
           /\ Forall (fun kv => In kv (tasks w) /\ is_fresh now (snd kv) = true) kept
           /\ NoDup (dict_keys kept))
  /\ (disk_ok w = true -> tasks_wf (tasks w) ->
      task_file w' = Json (json_of_tasks (keep_fresh now (tasks w)))).
Proof.
  intros now w'. subst w'. rewrite _save_tasks_eq. cbn [fst snd].
  split; [reflexivity|]. split; [apply saved_world_tasks|]. split.
  - destruct (disk_ok w) eqn:Hd.
    + unfold saved_world. rewrite Hd.
      destruct (save_scan (clock w (ticks w)) (tasks w) []) as [kept|e] eqn:Hscan;
        [|now left].
      right. right. exists kept. split; [reflexivity|].
      apply (save_scan_fresh _ _ _ _ (fun kv => In kv (tasks w)) Hscan).
      * apply Forall_forall. auto.
      * constructor.
      * constructor.
    + destruct (saved_world_file_failing w Hd) as [H|[H Hn]]; [now left|].
      right. left. auto.
  - intros Hdisk Hwf. unfold saved_world. rewrite Hdisk.
    rewrite save_scan_keeps_fresh.
    + reflexivity.
    + exact (proj1 Hwf).
    + now apply tasks_wf_not_faulty.
Qed.

Lemma dict_get_filter_None {V} (f : string * V -> bool) (d : dict V) (k : string) :
  dict_get k d = None -> dict_get k (filter f d) = None.
Proof.
  rewrite !dict_get_None. intros Hnot Hin. apply Hnot.
  unfold dict_keys in *. apply in_map_iff in Hin as (kv & Hk & Hin).
  apply filter_In in Hin as [Hin _]. apply in_map_iff. now exists kv.
Qed.

(** X9. A deletion is durable: when [delete_task] removed a record from
    a table as the service builds it and the disk accepted the write, a
    process that later loads the file it left holds no record under that
    key, whatever the instant of the load. *)
Theorem deleted_task_stays_deleted (key : string) (w w' : world) :
  tasks_wf (tasks w) ->
  disk_ok w = true ->
  dict_mem key (tasks w) = true ->
  task_file w' = task_file (snd (delete_task key w)) ->
  dict_get key (tasks (snd (_load_tasks w'))) = None.
Proof.
  intros Hwf Hdisk Hmem Hfile.
  rewrite delete_task_eq, Hmem in Hfile. cbn [snd] in Hfile.
  unfold saved_world in Hfile. cbn [tasks with_tasks clock ticks disk_ok] in Hfile.
  assert (tasks_wf (dict_del key (tasks w))) as Hwf' by now apply tasks_wf_filter.
  rewrite save_scan_keeps_fresh in Hfile;
    [|exact (proj1 Hwf')|now apply tasks_wf_not_faulty].
  rewrite Hdisk in Hfile. cbn [task_file with_task_file] in Hfile.
  set (kept := keep_fresh (clock w (ticks w)) (dict_del key (tasks w))) in *.
  assert (tasks_wf kept) as Hkept by now apply tasks_wf_filter.
  rewrite _load_tasks_eq. cbn [snd]. unfold loaded_world. rewrite Hfile.
  unfold json_of_tasks. fold (doc_items kept).
  rewrite load_scan_keeps_fresh;
    [|exact (proj1 Hkept)|now apply tasks_wf_not_faulty].
  assert (dict_get key (keep_fresh (clock w' (ticks w')) kept) = None) as Hnone.
  { unfold kept, keep_fresh. do 2 apply dict_get_filter_None. apply dict_get_del_same. }
  cbn [app]. destruct (_ || _); [rewrite saved_world_tasks|]; exact Hnone.
Qed.

(** X10. One bad record makes [_load_tasks] give up the whole file: when
    a value of the document is not an object, or is a record whose start
    time is not a string or carries an offset, the load returns without
    raising and leaves the table and the file as they were, so no record
    of the file is loaded, the fresh ones included. *)
Theorem load_tasks_gives_up_on_bad_record (w : world) (items : list (string * json)) :
  task_file w = Json (JObj items) ->
  existsb (fun kv => poisonous (clock w (ticks w)) (snd kv)) items = true ->
  _load_tasks w = (Ok tt, with_ticks (S (ticks w)) w).
Proof.
  intros Hfile Hbad. rewrite _load_tasks_eq. unfold loaded_world. rewrite Hfile.
  destruct (load_scan_poisoned _ items [] false Hbad) as [e ->]. reflexivity.
Qed.
End TaskFacts.

(** A job deleted while the collaborator runs. *)
Lemma run_end_without_record_witness :
  let w := snd (delete_task "t1" (snd (run_begin "600519" "t1" quiet_world))) in
  run_end "600519" "t1" (Analysed (JStr "ok")) w = (Raise (KeyError "t1"), w).
Proof.
  exact (@run_end_without_record iso_platform "600519" "t1" (Analysed (JStr "ok"))
           (snd (delete_task "t1" (snd (run_begin "600519" "t1" quiet_world)))) eq_refl).
Defined.

(** A job, a listing and a deletion on a disk that refuses every [open]. *)
Lemma task_file_kept_when_disk_fails_witness :
  task_file
    (fold_left (fun w0 e => perform e w0)
       [Submitted "600519"; JobBegun "600519" "t1";
        JobEnded "600519" "t1" (Analysed (JStr "ok")); Listed 5; Deleted "t1";
        SavedInBackground]
       (read_only_disk persisted_world))
  = task_file persisted_world.
Proof.
  exact (proj1 (@task_file_kept_when_disk_fails iso_platform
                  [Submitted "600519"; JobBegun "600519" "t1";
                   JobEnded "600519" "t1" (Analysed (JStr "ok")); Listed 5; Deleted "t1";
                   SavedInBackground]
                  (read_only_disk persisted_world) eq_refl)
               (or_intror eq_refl)).
Defined.

(** The same job on a disk whose writes fail after the [open]: the first
    save of the job leaves the file truncated. *)
Example task_file_truncated :
  task_file (perform (JobBegun "600519" "t1")
                     (failing_disk (AfterOpen 0) persisted_world))
  = Garbage
  /\ option_map (py_get "status")
       (dict_get "t1" (tasks (perform (JobBegun "600519" "t1")
                                      (failing_disk (AfterOpen 0) persisted_world))))
     = Some (JStr "running").
Proof. vm_compute. split; reflexivity. Qed.

Lemma recent_world_wf : tasks_wf (tasks recent_world).
Proof.
  split.
  - repeat constructor; simpl; intuition discriminate.
  - repeat constructor; simpl.
    + exists (Iso.instant 2024 2 29 12 0 0), "2024-02-29T12:00:00".
      repeat split. discriminate.
    + exists (Iso.instant 2024 3 1 8 0 0), "2024-03-01T08:00:00".
      repeat split. discriminate.
Defined.

(** The record of the day before is deleted; a process that starts on the
    file does not find it. *)
Lemma deleted_task_stays_deleted_witness :
  dict_get "000001_20240229_120000_000000"
    (tasks (snd (_load_tasks
                   (with_task_file
                      (task_file (snd (delete_task "000001_20240229_120000_000000"
                                                   recent_saved_world)))
                      quiet_world))))
  = None.
Proof.
  apply (@deleted_task_stays_deleted iso_platform "000001_20240229_120000_000000"
           recent_saved_world).
  - exact recent_world_wf.
  - reflexivity.
  - reflexivity.
  - reflexivity.
Defined.

(** The record of the last hour is not loaded, because the next record of
    the file has a start time with an offset. *)
Lemma load_tasks_gives_up_on_bad_record_witness :
  _load_tasks poisoned_file_world = (Ok tt, with_ticks 1 poisoned_file_world).
Proof.
  exact (@load_tasks_gives_up_on_bad_record iso_platform poisoned_file_world _
           eq_refl eq_refl).
Defined.

Example deleted_task_was_in_the_file :
  task_file recent_saved_world
  = Json (JObj [("000001_20240229_120000_000000", JObj mid_record);
                ("hk00700_20240301_080000_000000", JObj new_record)])
  /\ task_file (snd (delete_task "000001_20240229_120000_000000" recent_saved_world))
     = Json (JObj [("hk00700_20240301_080000_000000", JObj new_record)]).
Proof. vm_compute. split; reflexivity. Qed.

(* ================================================================= *)
(** ** The env file *)

Local Open Scope N_scope.

Lemma no_linebreak_no_lf (s : pystr) :
  no_linebreak s = true -> existsb (N.eqb LF) s = false.
Proof.
  induction s as [|c s IH]; [reflexivity|].
  cbn [existsb no_linebreak forallb]. intros H.
  apply andb_prop in H as [Hc Hs]. rewrite (IH Hs), orb_false_r.
  destruct (N.eqb_spec LF c) as [<-|]; [discriminate|reflexivity].
Qed.

Lemma carries_is_line (value line : pystr) :
  carries value line -> is_stock_list_line line = true.
Proof. intros (p & s & H). unfold is_stock_list_line. now rewrite H. Qed.

Lemma update_line_carries (value line : pystr) :
  no_lead value -> no_trail value -> existsb (N.eqb LF) value = false ->
  is_stock_list_line line = true -> carries value (update_line value line).
Proof.
  intros Hl Ht Hlf Hline. unfold is_stock_list_line, update_line, carries in *.
  destruct (stock_list_re_match line) as [[[prefix v0] suffix]|] eqn:Hm; [|discriminate].
  apply re_match_shape in Hm as (ws1 & ws2 & ws3 & H1 & H2 & H3 & -> & Hs & _).
  now apply re_match_value.
Qed.

(** A line that carries the value is left as it is. *)
Lemma update_line_fixed (value line : pystr) :
  carries value line -> update_line value line = line.
Proof.
  intros (p & s & Hm). unfold update_line. rewrite Hm.
  apply re_match_shape in Hm as (_ & _ & _ & _ & _ & _ & _ & _ & Heq). now symmetry.
Qed.

Lemma is_other_update (value line : pystr) :
  no_lead value -> no_trail value -> existsb (N.eqb LF) value = false ->
  is_other_setting (update_line value line) = is_other_setting line.
Proof.
  intros Hl Ht Hlf. unfold is_other_setting.
  destruct (is_stock_list_line line) eqn:Hline.
  - now rewrite (carries_is_line _ _ (update_line_carries _ _ Hl Ht Hlf Hline)).
  - now rewrite (update_line_other _ _ Hline), Hline.
Qed.

Lemma splitlines_joined (lines : list pystr) :
  Forall (fun line => no_linebreak line = true) lines ->
  splitlines (join [LF] lines) = drop_last_empty lines.
Proof.
  induction 1 as [|p lines Hp Hlines IH]; [reflexivity|].
  destruct lines as [|q lines].
  - simpl join. rewrite (splitlines_one_line _ Hp). destruct p; reflexivity.
  - change (join [LF] (p :: q :: lines)) with (p ++ [LF] ++ join [LF] (q :: lines)).
    simpl app at 2. rewrite (splitlines_line_feed _ _ Hp).
    change (drop_last_empty (p :: q :: lines)) with (p :: drop_last_empty (q :: lines)).
    f_equal. exact IH.
Qed.

Lemma filter_drop_last_empty (f : pystr -> bool) (lines : list pystr) :
  f [] = false -> filter f (drop_last_empty lines) = filter f lines.
Proof.
  intros Hf. induction lines as [|p lines IH]; [reflexivity|].
  destruct lines as [|q lines].
  - destruct p; simpl; [now rewrite Hf|reflexivity].
  - change (drop_last_empty (p :: q :: lines)) with (p :: drop_last_empty (q :: lines)).
    cbn [filter] in *. now rewrite IH.
Qed.

Lemma In_drop_last_empty (l : pystr) (lines : list pystr) :
  In l (drop_last_empty lines) -> In l lines.
Proof.
  induction lines as [|p lines IH]; [auto|].
  destruct lines as [|q lines].
  - destruct p; simpl; auto.
  - change (drop_last_empty (p :: q :: lines)) with (p :: drop_last_empty (q :: lines)).
    intros [->|H]; [now left|right; now apply IH].
Qed.

Lemma drop_last_empty_In (l : pystr) (lines : list pystr) :
  In l lines -> l <> [] -> In l (drop_last_empty lines).
Proof.
  intros Hin Hne. induction lines as [|p lines IH]; [contradiction|].
  destruct lines as [|q lines].
  - destruct Hin as [->|[]]. destruct l; [congruence|now left].
  - change (drop_last_empty (p :: q :: lines)) with (p :: drop_last_empty (q :: lines)).
    destruct Hin as [->|Hin]; [now left|right; now apply IH].
Qed.

(** The lines that [_update_stock_list] joins: every [STOCK_LIST] line
    carries the new value, there is one, and the other lines that are not
    empty are those of the text. *)
Lemma out_lines_updated (env_text value : pystr) :
  no_lead value -> no_trail value -> existsb (N.eqb LF) value = false ->
  Forall (fun l => is_stock_list_line l = true -> carries value l)
         (out_lines_of env_text value)
  /\ existsb is_stock_list_line (out_lines_of env_text value) = true
  /\ filter is_other_setting (out_lines_of env_text value)
     = filter is_other_setting (splitlines env_text).
Proof.
  intros Hl Ht Hlf. unfold out_lines_of.
  destruct (existsb is_stock_list_line (splitlines env_text)) eqn:Hex.
  - split; [|split].
    + apply Forall_forall. intros l Hin Hline.
      apply in_map_iff in Hin as (l0 & <- & _).
      destruct (is_stock_list_line l0) eqn:Hl0.
      * now apply update_line_carries.
      * rewrite (update_line_other _ _ Hl0) in Hline. congruence.
    + apply existsb_exists in Hex as (l0 & Hin & Hl0).
      apply existsb_exists. exists (update_line value l0). split; [now apply in_map|].
      apply (carries_is_line value). now apply update_line_carries.
    + clear Hex. induction (splitlines env_text) as [|l ls IH]; [reflexivity|].
      cbn [map filter]. rewrite (is_other_update _ _ Hl Ht Hlf), IH.
      destruct (is_other_setting l) eqn:Hother; [|reflexivity].
      unfold is_other_setting in Hother. apply andb_prop in Hother as [Hline _].
      apply negb_true_iff in Hline. now rewrite (update_line_other _ _ Hline).
  - rewrite (map_update_unmatched _ _ Hex).
    destruct (re_match_appended _ Hl Ht Hlf) as (p & s & Hm).
    assert (carries value (text "STOCK_LIST=" ++ value)) as Hnew by now exists p, s.
    pose proof (carries_is_line _ _ Hnew) as Hnew_line.
    assert (forall l, In l (splitlines env_text) -> is_stock_list_line l = false) as Hnone.
    { intros l Hin. destruct (is_stock_list_line l) eqn:E; [|reflexivity].
      assert (existsb is_stock_list_line (splitlines env_text) = true) as Hex'
          by (apply existsb_exists; now exists l).
      congruence. }
    set (padded := match splitlines env_text with
                   | [] => splitlines env_text
                   | _ :: _ =>
                       if is_empty (strip (last (splitlines env_text) []))
                       then splitlines env_text
                       else splitlines env_text ++ [[]]
                   end).
    assert (padded = splitlines env_text \/ padded = splitlines env_text ++ [[]]) as Hpad.
    { unfold padded. destruct (splitlines env_text); [now left|].
      destruct (is_empty _); [now left|now right]. }
    split; [|split].
    + apply Forall_app. split; [|now repeat constructor].
      apply Forall_forall. intros l Hin Hline.
      assert (is_stock_list_line l = false); [|congruence].
      destruct Hpad as [Hp|Hp]; rewrite Hp in Hin; [now apply Hnone|].
      apply in_app_or in Hin as [Hin|[<-|[]]]; [now apply Hnone|reflexivity].
    + rewrite existsb_app. cbn [existsb]. rewrite Hnew_line. now rewrite orb_true_r.
    + rewrite filter_app. cbn [filter]. unfold is_other_setting at 2.
      rewrite Hnew_line. cbn [negb andb]. rewrite app_nil_r.
      destruct Hpad as [Hp|Hp]; rewrite Hp; [reflexivity|].
      rewrite filter_app. cbn. now rewrite app_nil_r.
Qed.

(** X11. [_update_stock_list] with a value that is trimmed and on one
    line leaves every other setting of the env text in place: the lines
    that are not empty and are no [STOCK_LIST] line are the same before
    and after, in the same order.  Every [STOCK_LIST] line of the new text
    carries the new value, a second or third one as well as the first,
    and there is at least one. *)
Theorem update_keeps_other_settings (env_text value : pystr) :
  no_lead value -> no_trail value -> no_linebreak value = true ->
  let updated := _update_stock_list env_text value in
  other_settings updated = other_settings env_text
  /\ Forall (fun line => is_stock_list_line line = true -> carries value line)
            (splitlines updated)
  /\ existsb is_stock_list_line (splitlines updated) = true.
Proof.
  intros Hl Ht Hlb updated. pose proof (no_linebreak_no_lf _ Hlb) as Hlf.
  destruct (out_lines_updated env_text value Hl Ht Hlf) as (Hall & Hex & Hother).
  subst updated. destruct (_update_stock_list_lines env_text value) as (tail & Htail & ->).
  assert (Forall (fun line => no_linebreak line = true) (out_lines_of env_text value ++ tail))
    as Hlines.
  { apply Forall_app. split; [now apply out_lines_no_linebreak|].
    destruct Htail as [->| ->]; repeat constructor. }
  unfold other_settings. rewrite (splitlines_joined _ Hlines). split; [|split].
  - rewrite filter_drop_last_empty by reflexivity.
    rewrite filter_app, Hother. destruct Htail as [->| ->]; cbn; now rewrite app_nil_r.
  - apply Forall_forall. intros l Hin Hline. apply In_drop_last_empty in Hin.
    apply in_app_or in Hin as [Hin|Hin].
    + rewrite Forall_forall in Hall. now apply Hall.
    + destruct Htail as [->| ->]; [contradiction|].
      destruct Hin as [<-|[]]. discriminate.
  - apply existsb_exists in Hex as (l & Hin & Hline). apply existsb_exists.
    exists l. split; [|exact Hline]. apply drop_last_empty_In.
    + apply in_or_app. now left.
    + intros ->. discriminate.
Qed.

(** *** Writing the same list again *)

Lemma endswith_char_In (c : N) (s : pystr) : endswith_char c s = true -> In c s.
Proof.
  unfold endswith_char, startswith_char. intros H. apply in_rev.
  destruct (rev s) as [|c' r]; [discriminate|].
  apply N.eqb_eq in H. subst. now left.
Qed.

Lemma endswith_char_app (c : N) (a b : pystr) :
  b <> [] -> endswith_char c (a ++ b) = endswith_char c b.
Proof.
  intros Hb. unfold endswith_char. rewrite rev_app_distr.
  destruct (rev b) eqn:E; [|reflexivity].
  exfalso. apply Hb. apply (f_equal (@rev N)) in E. now rewrite rev_involutive in E.
Qed.

Lemma no_linebreak_end (p : pystr) :
  no_linebreak p = true -> endswith_char LF p = false.
Proof.
  intros H. destruct (endswith_char LF p) eqn:E; [|reflexivity].
  apply endswith_char_In in E. unfold no_linebreak in H.
  rewrite forallb_forall in H. specialize (H _ E). discriminate.
Qed.

Lemma join_empty (q : pystr) (lines : list pystr) :
  join [LF] (q :: lines) = [] -> q = [] /\ lines = [].
Proof.
  destruct lines as [|r lines]; [simpl; auto|].
  rewrite join_cons2. intros H. apply app_eq_nil in H as [_ H]. discriminate.
Qed.

(** Lines read from their joined text and joined again give the text,
    with the line feed that ended it. *)
Lemma join_drop_last_empty (lines : list pystr) :
  Forall (fun line => no_linebreak line = true) lines ->
  join [LF] lines <> [] ->
  join [LF] (drop_last_empty lines)
  ++ (if endswith_char LF (join [LF] lines) then [LF] else [])
  = join [LF] lines.
Proof.
  induction 1 as [|p lines Hp Hlines IH]; [intros H; now destruct H|]. intros Hne.
  destruct lines as [|q lines].
  - cbn [join] in *. destruct p as [|c p]; [now destruct Hne|].
    cbn [drop_last_empty is_empty join].
    rewrite (no_linebreak_end _ Hp). apply app_nil_r.
  - rewrite join_cons2.
    change (drop_last_empty (p :: q :: lines)) with (p :: drop_last_empty (q :: lines)).
    destruct (join [LF] (q :: lines)) as [|c rest] eqn:Hrest.
    + apply join_empty in Hrest as [-> ->]. simpl.
      rewrite endswith_char_app by discriminate. reflexivity.
    + rewrite !endswith_char_app by discriminate.
      specialize (IH ltac:(discriminate)).
      destruct (drop_last_empty (q :: lines)) as [|d ds] eqn:Hd.
      * exfalso. destruct lines; [|discriminate]. simpl in Hd.
        destruct q; [discriminate|discriminate].
      * rewrite join_cons2, <- !app_assoc. now rewrite IH.
Qed.

Lemma join_nonempty (l : pystr) (lines : list pystr) :
  In l lines -> l <> [] -> join [LF] lines <> [].
Proof.
  intros Hin Hne H. destruct lines as [|p lines]; [contradiction|].
  apply join_empty in H as [-> ->]. destruct Hin as [<-|[]]. congruence.
Qed.

Lemma _update_stock_list_no_linebreak (env_text value : pystr) :
  no_linebreak value = true ->
  exists lines,
    _update_stock_list env_text value = join [LF] lines
    /\ Forall (fun line => no_linebreak line = true) lines.
Proof.
  intros Hlb. destruct (_update_stock_list_lines env_text value) as (tail & Htail & ->).
  eexists. split; [reflexivity|]. apply Forall_app. split.
  - now apply out_lines_no_linebreak.
  - destruct Htail as [->| ->]; repeat constructor.
Qed.

(** Updating with the value that the text already carries changes
    nothing. *)
Lemma _update_stock_list_idempotent (env_text value : pystr) :
  no_lead value -> no_trail value -> no_linebreak value = true ->
  _update_stock_list (_update_stock_list env_text value) value
  = _update_stock_list env_text value.
Proof.
  intros Hl Ht Hlb. pose proof (no_linebreak_no_lf _ Hlb) as Hlf.
  destruct (out_lines_updated env_text value Hl Ht Hlf) as (Hall & Hex & _).
  destruct (_update_stock_list_lines env_text value) as (tail & Htail & ->).
  assert (Forall (fun line => no_linebreak line = true) (out_lines_of env_text value ++ tail))
    as Hlines.
  { apply Forall_app. split; [now apply out_lines_no_linebreak|].
    destruct Htail as [->| ->]; repeat constructor. }
  assert (Forall (fun l => is_stock_list_line l = true -> carries value l)
                 (out_lines_of env_text value ++ tail)) as Hcarry.
  { apply Forall_app. split; [exact Hall|].
    destruct Htail as [->| ->]; repeat constructor. discriminate. }
  apply existsb_exists in Hex as (l0 & Hin0 & Hline0).
  assert (In l0 (out_lines_of env_text value ++ tail)) as Hin by (apply in_or_app; now left).
  assert (l0 <> []) as Hne0 by (intros ->; discriminate).
  clear Hall Hin0 Htail.
  generalize dependent (out_lines_of env_text value ++ tail). intros lines Hlines Hcarry Hin.
  unfold _update_stock_list. rewrite (splitlines_joined _ Hlines).
  assert (existsb is_stock_list_line (drop_last_empty lines) = true) as ->.
  { apply existsb_exists. exists l0. split; [now apply drop_last_empty_In|exact Hline0]. }
  assert (map (update_line value) (drop_last_empty lines) = drop_last_empty lines) as ->.
  { rewrite <- (map_id (drop_last_empty lines)) at 2. apply map_ext_in.
    intros l Hl_in. apply In_drop_last_empty in Hl_in.
    rewrite Forall_forall in Hcarry. specialize (Hcarry l Hl_in).
    destruct (is_stock_list_line l) eqn:Hline.
    - now apply update_line_fixed, Hcarry.
    - now apply update_line_other. }
  pose proof (join_nonempty l0 lines Hin Hne0) as Hne.
  pose proof (join_drop_last_empty lines Hlines Hne) as Hjoin.
  destruct (join [LF] lines) as [|c rest]; [congruence|exact Hjoin].
Qed.

(** X12. When a call of [set_stock_list] on a disk that accepts the write
    has returned (so the text it wrote encodes as UTF-8) and the
    normalized list holds no line boundary, setting the same stock list a
    second time leaves the env file exactly as the first call wrote it,
    character for character, and returns the same normalized list. *)
Theorem set_stock_list_twice (stock_list : pystr) (w : world) :
  disk_ok w = true ->
  no_linebreak (_normalize_stock_list stock_list) = true ->
  fst (set_stock_list stock_list w) = Ok (_normalize_stock_list stock_list) ->
  let w1 := snd (set_stock_list stock_list w) in
  set_stock_list stock_list w1 = (Ok (_normalize_stock_list stock_list), w1).
Proof.
  intros Hdisk Hlb Hfirst.
  destruct (_normalize_stock_list_trimmed stock_list) as (Hl & Ht & _).
  pose proof (set_stock_list_eq stock_list w Hdisk) as Hset. cbv zeta in Hset.
  rewrite Hset in Hfirst |- *.
  destruct (encodes (_update_stock_list _ _)) eqn:Henc; [|discriminate].
  cbn [snd].
  match goal with |- context [with_env_file (Some ?t) w] => set (updated := t) in * end.
  assert (disk_ok (with_env_file (Some updated) w) = true) as Hdisk1 by exact Hdisk.
  rewrite (set_stock_list_eq stock_list _ Hdisk1). cbv zeta.
  cbn [env_file with_env_file].
  destruct (_update_stock_list_no_linebreak
              (match env_file w with
               | Some content => universal_newlines content
               | None => []
               end) _ Hlb) as (lines & Heq & Hlines).
  fold updated in Heq.
  rewrite (universal_newlines_id updated) by (rewrite Heq; now apply joined_no_cr).
  unfold updated at 1 2.
  rewrite (_update_stock_list_idempotent _ _ Hl Ht Hlb). fold updated.
  rewrite Henc. reflexivity.
Qed.

(** *** Reading *)

(** X13. [get_stock_list] returns the empty string, raises nothing and
    changes nothing when the env file is missing or when none of its
    lines is a [STOCK_LIST] line; a line where something stands before
    the name, a comment sign for one, is no such line. *)
Theorem get_stock_list_without_setting (w : world) :
  (env_file w = None
   \/ exists content,
        env_file w = Some content
        /\ existsb is_stock_list_line (splitlines (universal_newlines content)) = false) ->
  get_stock_list w = (Ok [], w).
Proof.
  intros H. unfold get_stock_list, read_env_text, bind, gets, ret. f_equal. f_equal.
  destruct H as [->|(content & -> & Hnone)]; [reflexivity|].
  unfold _extract_stock_list.
  rewrite <- (app_nil_r (splitlines (universal_newlines content))).
  now rewrite extract_from_skip.
Qed.

Lemma unquote_quoted (q : N) (v : pystr) :
  q = double_quote \/ q = single_quote -> unquote (q :: v ++ [q]) = v.
Proof.
  intros Hq. unfold unquote, endswith_char, startswith_char.
  cbn [rev]. rewrite rev_app_distr. cbn [rev app].
  assert (((q =? double_quote) && (q =? double_quote)
           || (q =? single_quote) && (q =? single_quote)) = true) as ->.
  { destruct Hq as [->| ->]; reflexivity. }
  unfold drop_ends. cbn [tl]. apply removelast_last.
Qed.

(** X14. A value written between two double quotes or two single quotes
    is read without them and otherwise as it stands, the white space
    inside the quotes included.  The [STOCK_LIST] line may have white
    space around the name, the equals sign and the quoted value, and may
    come after other lines that are no [STOCK_LIST] lines. *)
Theorem quoted_value_is_unquoted (q : N) (ws1 ws2 ws3 suffix v : pystr)
        (before after : list pystr) :
  q = double_quote \/ q = single_quote ->
  all_space ws1 = true -> all_space ws2 = true -> all_space ws3 = true ->
  all_space suffix = true ->
  let line := (ws1 ++ text "STOCK_LIST" ++ ws2 ++ [equals_sign] ++ ws3)
              ++ (q :: v ++ [q]) ++ suffix in
  Forall (fun l => no_linebreak l = true) (before ++ line :: after) ->
  existsb is_stock_list_line before = false ->
  _extract_stock_list (join [LF] (before ++ line :: after)) = v.
Proof.
  intros Hq H1 H2 H3 Hs line Hlines Hbefore.
  assert (is_space q = false) as Hqs by (destruct Hq as [->| ->]; reflexivity).
  assert (no_linebreak (q :: v ++ [q]) = true) as Hvlb.
  { apply Forall_app in Hlines as [_ Hlines]. inversion Hlines as [|? ? Hline _]; subst.
    unfold line in Hline. rewrite !no_linebreak_app in Hline.
    apply andb_prop in Hline as [_ Hline]. now apply andb_prop in Hline as [Hline _]. }
  assert (no_trail (q :: v ++ [q])) as Htrail.
  { unfold no_trail. cbn [rev]. rewrite rev_app_distr. exact Hqs. }
  destruct (re_match_value ws1 ws2 ws3 (q :: v ++ [q]) suffix H1 H2 H3 Hs Hqs Htrail
              (no_linebreak_no_lf _ Hvlb)) as (p & s & Hm).
  fold line in Hm.
  unfold _extract_stock_list. rewrite (extract_from_joined _ Hlines).
  rewrite (extract_from_skip _ _ Hbefore). cbn [extract_from]. rewrite Hm.
  rewrite (strip_of_trimmed (q :: v ++ [q]) Hqs Htrail). now apply unquote_quoted.
Qed.

(** *** The entries of a normalized list *)

(** X15. What [_normalize_stock_list] returns is trimmed and holds no
    line feed; it is empty when the input holds nothing but separators
    and white space, and otherwise splitting it at the commas gives back
    the stripped pieces of the input that are not empty, in order: no
    entry is empty, none starts or ends with white space, none holds a
    comma or a line feed. *)
Theorem normalized_list_entries (value : pystr) :
  let normalized := _normalize_stock_list value in
  no_lead normalized /\ no_trail normalized /\ ~ In LF normalized
  /\ ((normalized = [] /\ normal_parts value = [])
      \/ (split_on comma normalized = normal_parts value
          /\ normal_parts value <> []
          /\ Forall good_part (split_on comma normalized))).
Proof.
  intros normalized. subst normalized. rewrite _normalize_stock_list_parts.
  pose proof (normal_parts_good value) as Hgood.
  destruct (join_good_trimmed _ Hgood) as (Hl & Ht & Hlf).
  split; [exact Hl|]. split; [exact Ht|]. split; [exact Hlf|].
  destruct (normal_parts value) as [|p parts] eqn:Hparts; [now left|].
  right. rewrite split_join_good by (assumption || discriminate).
  split; [reflexivity|]. split; [discriminate|exact Hgood].
Qed.

Local Close Scope N_scope.

(** The two [STOCK_LIST] lines of the file get the new value, each with
    its own spacing; the comment and the token stay. *)
Lemma update_keeps_other_settings_witness :
  let updated := _update_stock_list env_two_lists (text "hk00700") in
  other_settings updated = other_settings env_two_lists
  /\ Forall (fun line => is_stock_list_line line = true -> carries (text "hk00700") line)
            (splitlines updated)
  /\ existsb is_stock_list_line (splitlines updated) = true.
Proof.
  exact (update_keeps_other_settings env_two_lists (text "hk00700")
           eq_refl eq_refl eq_refl).
Defined.

Example update_two_lists :
  _update_stock_list env_two_lists (text "hk00700")
  = text "# watch list" ++ [LF] ++ text "STOCK_LIST = hk00700  " ++ [LF]
    ++ text "TOKEN=abc" ++ [LF] ++ text "STOCK_LIST=hk00700" ++ [LF]
  /\ other_settings env_two_lists = [text "# watch list"; text "TOKEN=abc"].
Proof. vm_compute. split; reflexivity. Qed.

(** The list typed with a space, set twice. *)
Lemma set_stock_list_twice_witness :
  let w1 := snd (set_stock_list (text "hk00700, 000001") (env_world env_two_lists)) in
  set_stock_list (text "hk00700, 000001") w1
  = (Ok (_normalize_stock_list (text "hk00700, 000001")), w1).
Proof.
  exact (set_stock_list_twice (text "hk00700, 000001") (env_world env_two_lists)
           eq_refl eq_refl eq_refl).
Defined.

(** The only line that names [STOCK_LIST] is a comment. *)
Lemma get_stock_list_without_setting_witness :
  get_stock_list (env_world env_without_list) = (Ok [], env_world env_without_list).
Proof.
  apply get_stock_list_without_setting. right.
  exists env_without_list. split; reflexivity.
Defined.

(** A list written between double quotes, with spaces inside them. *)
Lemma quoted_value_is_unquoted_witness :
  _extract_stock_list
    (join [LF]
       ([text "# watch list"]
          ++ (([] ++ text "STOCK_LIST" ++ [32%N] ++ [equals_sign] ++ [32%N])
                ++ (double_quote :: text " 600519, 000001 " ++ [double_quote]) ++ [])
          :: [text "TOKEN=abc"]))
  = text " 600519, 000001 ".
Proof.
  apply (quoted_value_is_unquoted double_quote [] [32%N] [32%N] []
           (text " 600519, 000001 ") [text "# watch list"] [text "TOKEN=abc"]).
  - now left.
  - reflexivity.
  - reflexivity.
  - reflexivity.
  - reflexivity.
  - repeat constructor.
  - reflexivity.
Defined.

Example normalized_entries_run :
  split_on comma (_normalize_stock_list (text " 600519 ,,000001" ++ [LF] ++ text "hk00700, "))
  = [text "600519"; text "000001"; text "hk00700"]
  /\ _normalize_stock_list (text " , " ++ [LF] ++ text ",") = [].
Proof. vm_compute. split; reflexivity. Qed.

(* ================================================================= *)
(** ** The construction of the task service *)

Section InitFacts.
Context {P : Platform}.

Lemma keep_fresh_twice (now now' : Z) (ts : dict (dict json)) :
  now <= now' -> keep_fresh now' (keep_fresh now ts) = keep_fresh now' ts.
Proof.
  intros Hle. unfold keep_fresh. induction ts as [|kv ts IH]; [reflexivity|].
  simpl. destruct (is_fresh now' (snd kv)) eqn:Hlate.
  - rewrite (is_fresh_earlier _ _ _ Hle Hlate). simpl. rewrite Hlate. now f_equal.
  - destruct (is_fresh now (snd kv)); simpl; [rewrite Hlate|]; exact IH.
Qed.

(** A load from the file of a table. *)
Lemma loaded_world_of_table (w : world) (ts : dict (dict json)) :
  task_file w = Json (json_of_tasks ts) ->
  tasks_wf ts ->
  tasks (loaded_world w) = keep_fresh (clock w (ticks w)) ts
  /\ clock (loaded_world w) = clock w
  /\ (task_file (loaded_world w) = task_file w
      \/ task_file (loaded_world w)
         = Json (json_of_tasks (keep_fresh (clock w (S (ticks w)))
                                           (keep_fresh (clock w (ticks w)) ts)))
      \/ (task_file (loaded_world w) = Garbage /\ disk_ok w = false
          /\ exists written : nat, disk_failure w = AfterOpen written))
  /\ (ticks (loaded_world w) = S (ticks w) \/ ticks (loaded_world w) = S (S (ticks w))).
Proof.
  intros Hfile Hwf.
  assert (loaded_world w
          = let w2 := with_tasks (keep_fresh (clock w (ticks w)) ts)
                                 (with_ticks (S (ticks w)) w) in
            if existsb (fun kv => is_stale (clock w (ticks w)) (snd kv)) ts
            then saved_world w2 else w2) as ->.
  { unfold loaded_world. rewrite Hfile. unfold json_of_tasks. fold (doc_items ts).
    rewrite load_scan_keeps_fresh; [|exact (proj1 Hwf)|now apply tasks_wf_not_faulty].
    reflexivity. }
  cbv zeta.
  destruct (existsb (fun kv => is_stale (clock w (ticks w)) (snd kv)) ts).
  - rewrite saved_world_tasks. split; [reflexivity|].
    destruct (saved_world_fields
                (with_tasks (keep_fresh (clock w (ticks w)) ts) (with_ticks (S (ticks w)) w)))
      as (_ & _ & _ & _ & _ & Hclock & Hticks & _).
    split; [exact Hclock|]. split; [|destruct Hticks as [->| ->]; auto].
    unfold saved_world. cbn [tasks with_tasks clock ticks with_ticks disk_ok disk_failure].
    assert (tasks_wf (keep_fresh (clock w (ticks w)) ts)) as Hwf' by now apply tasks_wf_filter.
    rewrite save_scan_keeps_fresh; [|exact (proj1 Hwf')|now apply tasks_wf_not_faulty].
    destruct (disk_ok w); [right; now left|].
    destruct (disk_failure w) as [| |written]; [now left|now left|].
    right. right. repeat split. now exists written.
  - split; [reflexivity|]. split; [reflexivity|]. split; now left.
Qed.

(** X16. A service built on the file of a table (one record per key,
    each start time parsing to a naive instant) with a clock that does
    not go back is built without raising and holds, whatever it held
    before, exactly the records of the file that are at most 72 hours old
    at one of the first three readings of the clock by the constructor, in
    the order of the file: at the reading of its second load or, when the
    save of the first load failed after the file was opened and left it
    truncated, at the reading of its first load.  The second load of the
    constructor changes nothing but that instant. *)
Theorem init_loads_fresh_records (w : world) (ts : dict (dict json)) :
  task_file w = Json (json_of_tasks ts) ->
  tasks_wf ts ->
  (forall n m : nat, (n <= m)%nat -> clock w n <= clock w m) ->
  exists n : nat,
    (n = ticks w \/ n = S (ticks w) \/ n = S (S (ticks w)))
    /\ tasks (snd (init_analysis w)) = keep_fresh (clock w n) ts
    /\ fst (init_analysis w) = Ok tt
    /\ (n = ticks w ->
        disk_ok w = false /\ exists written : nat, disk_failure w = AfterOpen written)
    /\ (n <> ticks w ->
        n = ticks (snd ((modify (with_tasks []) ;; _load_tasks) w))).
Proof.
  intros Hfile Hwf Hmono.
  unfold init_analysis, bind, modify. rewrite !_load_tasks_eq. cbn [fst snd].
  destruct (loaded_world_of_table (with_tasks [] w) ts Hfile Hwf)
    as (Htasks1 & Hclock & Hfile1 & Hticks1).
  cbn [clock ticks task_file tasks with_tasks disk_ok disk_failure]
    in Htasks1, Hclock, Hfile1, Hticks1.
  destruct Hfile1 as [Hfile1|[Hfile1|(Hfile1 & Hd & Hn)]].
  - rewrite Hfile in Hfile1.
    destruct (loaded_world_of_table _ ts Hfile1 Hwf) as (Htasks & _).
    exists (ticks (loaded_world (with_tasks [] w))).
    split; [destruct Hticks1 as [->| ->]; auto|].
    split; [now rewrite Htasks, Hclock|]. split; [reflexivity|].
    split; [intros Heq; destruct Hticks1 as [H|H]; rewrite H in Heq; lia|reflexivity].
  - assert (tasks_wf (keep_fresh (clock w (S (ticks w))) (keep_fresh (clock w (ticks w)) ts)))
      as Hwf' by now do 2 apply tasks_wf_filter.
    destruct (loaded_world_of_table _ _ Hfile1 Hwf') as (Htasks & _).
    exists (ticks (loaded_world (with_tasks [] w))).
    split; [destruct Hticks1 as [->| ->]; auto|]. split.
    + rewrite Htasks, Hclock.
      rewrite !keep_fresh_twice; [reflexivity| |]; apply Hmono;
        destruct Hticks1 as [->| ->]; lia.
    + split; [reflexivity|].
      split; [intros Heq; destruct Hticks1 as [H|H]; rewrite H in Heq; lia|reflexivity].
  - exists (ticks w). split; [now left|]. split.
    + unfold loaded_world at 1. rewrite Hfile1. exact Htasks1.
    + split; [reflexivity|]. split; [intros _; split; assumption|].
      intros H. now destruct H.
Qed.
End InitFacts.

Lemma persisted_table_wf :
  tasks_wf [("600519_20240220_100000_000000", old_record);
            ("hk00700_20240301_080000_000000", new_record)].
Proof.
  split.
  - repeat constructor; simpl; intuition discriminate.
  - repeat constructor; simpl.
    + exists (Iso.instant 2024 2 20 10 0 0), "2024-02-20T10:00:00".
      repeat split. discriminate.
    + exists (Iso.instant 2024 3 1 8 0 0), "2024-03-01T08:00:00".
      repeat split. discriminate.
Defined.

(** The service built on the file of [persisted_world] holds the record
    of the last hour. *)
Lemma init_loads_fresh_records_witness :
  exists n : nat,
    (n = 0%nat \/ n = 1%nat \/ n = 2%nat)
    /\ tasks (snd (init_analysis persisted_world))
       = keep_fresh (clock persisted_world n)
                    [("600519_20240220_100000_000000", old_record);
                     ("hk00700_20240301_080000_000000", new_record)]
    /\ fst (init_analysis persisted_world) = Ok tt
    /\ (n = 0%nat ->
        disk_ok persisted_world = false
        /\ exists written : nat, disk_failure persisted_world = AfterOpen written)
    /\ (n <> 0%nat ->
        n = ticks (snd ((modify (with_tasks []) ;; _load_tasks) persisted_world))).
Proof.
  apply (@init_loads_fresh_records iso_platform persisted_world
           [("600519_20240220_100000_000000", old_record);
            ("hk00700_20240301_080000_000000", new_record)]).
  - reflexivity.
  - exact persisted_table_wf.
  - intros n m Hnm.
    change (clock persisted_world) with (fun k : nat => t_morning + Z.of_nat k * 1000000).
    cbv beta. lia.
Defined.

Example init_run :
  tasks (snd (init_analysis persisted_world))
  = [("hk00700_20240301_080000_000000", new_record)]
  /\ task_file (snd (init_analysis persisted_world))
     = Json (JObj [("hk00700_20240301_080000_000000", JObj new_record)]).
Proof. vm_compute. split; reflexivity. Qed.

(** Records that go stale while the constructor runs: the first load
    keeps both at the first reading of the clock and its save, at the
    second reading, writes both; the second load, at the third reading,
    keeps the younger one only, and its save, at the fourth reading,
    writes none. *)
Example init_records_going_stale :
  dict_keys (tasks (snd (init_analysis going_stale_world))) = ["000006_x"]
  /\ task_file (snd (init_analysis going_stale_world)) = Json (JObj [])
  /\ ticks (snd (init_analysis going_stale_world)) = 4%nat.
Proof. vm_compute. repeat split; reflexivity. Qed.

(* ================================================================= *)
(** ** The end of a job and the other records *)

Section JobFrame.
Context {P : Platform}.

Lemma dict_keys_set_present {V} (d : dict V) (k : string) (v v' : V) :
  dict_get k d = Some v -> dict_keys (dict_set k v' d) = dict_keys d.
Proof.
  unfold dict_keys. induction d as [|[k0 v0] d IH]; simpl; [discriminate|].
  destruct (String.eqb_spec k0 k) as [->|Hne]; simpl; [reflexivity|].
  intros H. now rewrite IH.
Qed.

(** X17. When the record of a job is in the table at the return of the
    pipeline, the end of [_run_analysis] touches that record only: the
    table keeps its keys in their order, every other record is the one it
    was, and in the record of the job every field other than [status],
    [end_time], [result] and [error] is as it was, the start time, the
    code and the task id among them. *)
Theorem run_end_keeps_other_fields (code task_id : string) (outcome : analysis)
        (w : world) (task : dict json) :
  dict_get task_id (tasks w) = Some task ->
  let w' := snd (run_end code task_id outcome w) in
  dict_keys (tasks w') = dict_keys (tasks w)
  /\ (forall k : string, k <> task_id -> dict_get k (tasks w') = dict_get k (tasks w))
  /\ exists task' : dict json,
       dict_get task_id (tasks w') = Some task'
       /\ forall f : string,
            f <> "status" -> f <> "end_time" -> f <> "result" -> f <> "error" ->
            dict_get f task' = dict_get f task.
Proof.
  intros Hget w'. subst w'.
  destruct (run_end_cases code task_id outcome w)
    as [[Hnone _]|(task0 & fields & answer & Hsome & -> & Hkeys)]; [congruence|].
  assert (task0 = task) as -> by congruence.
  cbn [snd]. rewrite !saved_world_tasks. cbn [tasks with_tasks].
  split; [now apply (dict_keys_set_present _ _ task)|].
  split; [intros k Hk; now apply dict_get_set_other|].
  exists (dict_update fields task). split; [apply dict_get_set_same|].
  intros f H1 H2 H3 H4. apply dict_get_update_other. apply dict_get_None.
  destruct Hkeys as [->| ->]; simpl; intuition congruence.
Qed.
End JobFrame.

(** A job that completes next to another record. *)
Lemma run_end_keeps_other_fields_witness :
  let w' := snd (run_end "hk00700" "hk00700_20240301_080000_000000"
                         (Analysed (JStr "ok")) recent_world) in
  dict_keys (tasks w') = dict_keys (tasks recent_world)
  /\ (forall k : string,
        k <> "hk00700_20240301_080000_000000" ->
        dict_get k (tasks w') = dict_get k (tasks recent_world))
  /\ exists task' : dict json,
       dict_get "hk00700_20240301_080000_000000" (tasks w') = Some task'
       /\ forall f : string,
            f <> "status" -> f <> "end_time" -> f <> "result" -> f <> "error" ->
            dict_get f task' = dict_get f new_record.
Proof.
  exact (@run_end_keeps_other_fields iso_platform "hk00700"
           "hk00700_20240301_080000_000000" (Analysed (JStr "ok")) recent_world
           new_record eq_refl).
Defined.

(* ================================================================= *)
(** ** The table of a running service *)

Section Reachable.
Context {P : Platform}.

Lemma loaded_world_clock (w : world) : clock (loaded_world w) = clock w.
Proof.
  unfold loaded_world. destruct (task_file w) as [| |doc]; try reflexivity.
  destruct doc; try reflexivity.
  destruct (load_scan _ _ _ _) as [[valid changed]|e]; [|reflexivity].
  destruct changed; [|reflexivity].
  now destruct (saved_world_fields (with_tasks valid (with_ticks (S (ticks w)) w)))
    as (_ & _ & _ & _ & _ & -> & _).
Qed.

Lemma saved_world_clock (w : world) : clock (saved_world w) = clock w.
Proof. apply saved_world_fields. Qed.

Lemma evict_expired_clock (w : world) : clock (snd (evict_expired w)) = clock w.
Proof.
  rewrite evict_expired_eq. destruct (expired_scan _ _ _) as [ids|e]; [|reflexivity].
  unfold evicted_world. now destruct ids.
Qed.

Lemma perform_clock (e : event) (w : world) : clock (perform e w) = clock w.
Proof.
  destruct e as [code|code task_id|code task_id outcome|task_id|task_id|limit|];
    cbn [perform].
  - now rewrite submit_analysis_eq.
  - rewrite run_begin_eq. unfold begun_world. cbn [snd]. now rewrite !saved_world_clock.
  - cbv zeta. cbn [clock with_running].
    destruct (run_end_cases code task_id outcome w)
      as [[_ ->]|(task & fields & answer & _ & -> & _)]; cbn [snd]; [reflexivity|].
    now rewrite !saved_world_clock.
  - reflexivity.
  - rewrite delete_task_eq. destruct (dict_mem task_id (tasks w)); cbn [snd];
      [now rewrite saved_world_clock|reflexivity].
  - unfold list_tasks, bind.
    pose proof (evict_expired_clock w) as H1.
    destruct (evict_expired w) as [[[]|e] w1]; cbn [snd] in *; [|exact H1].
    pose proof (evict_expired_clock w1) as H2.
    destruct (evict_expired w1) as [[[]|e] w2]; cbn [snd] in *; [|congruence].
    unfold gets, lift, ret. destruct (sort_by_start_time _); cbn [snd]; congruence.
  - rewrite _save_tasks_eq. cbn [snd clock with_threads]. apply saved_world_clock.
Qed.

Lemma perform_wf_parsing (e : event) (w : world) :
  clock_parses w -> tasks_wf (tasks w) -> tasks_wf (tasks (perform e w)).
Proof.
  intros Hparse Hwf.
  destruct e as [code|code task_id|code task_id outcome|task_id|task_id|limit|];
    cbn [perform].
  - now rewrite submit_analysis_eq.
  - rewrite run_begin_eq. unfold begun_world. cbn [snd].
    rewrite !saved_world_tasks. cbn [tasks with_tasks clock ticks with_pool with_running].
    destruct (Hparse (ticks w)) as [Hne [t Ht]].
    apply (tasks_wf_set _ _ _ t Hwf). exists (isoformat (clock w (ticks w))). auto.
  - now apply run_end_wf.
  - exact Hwf.
  - now apply delete_task_wf.
  - now apply list_tasks_wf.
  - rewrite _save_tasks_eq. cbn [snd tasks with_threads]. now rewrite saved_world_tasks.
Qed.

(** X18. In every state that a task service reaches after it was built,
    whatever was in memory and in the file before, and whatever
    submissions, job starts, job ends, lookups, deletions, listings and
    detached saves happen in whatever order, the task table holds one
    record per key and every record has a [start_time] that is a
    non-empty string parsing to a naive instant, provided [fromisoformat]
    reads what [isoformat] writes for the readings of the clock.  So no
    record of a running service is ever skipped by the eviction for want
    of a usable start time, and the eviction scans never raise. *)
Theorem tasks_wf_reachable (events : list event) (w : world) :
  clock_parses w ->
  tasks_wf (tasks (after_events events w))
  /\ forall now : Z,
       Forall (fun kv => is_unusable now (snd kv) = false
                         /\ is_faulty now (snd kv) = false)
              (tasks (after_events events w)).
Proof.
  intros Hparse.
  assert (tasks_wf (tasks (after_events events w))) as Hwf.
  { unfold after_events.
    assert (clock_parses (snd (init_analysis w))) as Hparse0.
    { unfold init_analysis, bind, modify. rewrite !_load_tasks_eq. cbn [snd].
      intros n. rewrite !loaded_world_clock. apply Hparse. }
    generalize (init_analysis_wf w) Hparse0.
    generalize (snd (init_analysis w)). clear Hparse Hparse0.
    induction events as [|e events IH]; intros w0 Hw0 Hp0; [exact Hw0|].
    simpl. apply IH.
    - now apply perform_wf_parsing.
    - intros n. rewrite perform_clock. apply Hp0. }
  split; [exact Hwf|]. intros now.
  destruct Hwf as [_ Hall]. eapply Forall_impl; [|exact Hall].
  intros kv [t Ht]. apply (started_fresh_or_stale now) in Ht as (Hf & Hu & _).
  split; assumption.
Qed.
End Reachable.

Lemma frozen_clock_parses : clock_parses frozen_clock_world.
Proof.
  intros n. split.
  - vm_compute. discriminate.
  - exists t_morning. vm_compute. reflexivity.
Defined.

(** A service built on the file of [persisted_world], then a job that is
    submitted, runs and is deleted, with a listing and a detached save. *)
Lemma tasks_wf_reachable_witness :
  let events :=
    [Submitted "600519"; JobBegun "600519" "600519_20240301_090507_000000";
     Listed 5;
     JobEnded "600519" "600519_20240301_090507_000000" (Analysed (JStr "ok"));
     Deleted "hk00700_20240301_080000_000000"; SavedInBackground] in
  tasks_wf (tasks (after_events events frozen_clock_world))
  /\ forall now : Z,
       Forall (fun kv => is_unusable now (snd kv) = false
                         /\ is_faulty now (snd kv) = false)
              (tasks (after_events events frozen_clock_world)).
Proof.
  exact (@tasks_wf_reachable iso_platform
           [Submitted "600519"; JobBegun "600519" "600519_20240301_090507_000000";
            Listed 5;
            JobEnded "600519" "600519_20240301_090507_000000" (Analysed (JStr "ok"));
            Deleted "hk00700_20240301_080000_000000"; SavedInBackground]
           frozen_clock_world frozen_clock_parses).
Defined.

Example reachable_run :
  dict_keys
    (tasks (after_events
              [Submitted "600519"; JobBegun "600519" "600519_20240301_090507_000000";
               Listed 5;
               JobEnded "600519" "600519_20240301_090507_000000" (Analysed (JStr "ok"));
               Deleted "hk00700_20240301_080000_000000"; SavedInBackground]
              frozen_clock_world))
  = ["600519_20240301_090507_000000"].
Proof. vm_compute. reflexivity. Qed.

(* ================================================================= *)
(** ** A job among the other events *)

Section JobsAmongEvents.
Context {P : Platform}.

Lemma dict_get_filter_by_key {V} (g : string -> bool) (d : dict V) (k : string) :
  dict_get k (filter (fun kv => g (fst kv)) d) = if g k then dict_get k d else None.
Proof.
  destruct (g k) eqn:Hg; induction d as [|[k' v] d IH]; simpl; try reflexivity;
    (destruct (String.eqb_spec k' k) as [->|Hne];
     [rewrite Hg; simpl; rewrite ?String.eqb_refl; auto
     |destruct (g k'); simpl; [|exact IH];
      destruct (String.eqb_spec k' k); [contradiction|exact IH]]).
Qed.

Lemma dict_get_del_other {V} (d : dict V) (k k' : string) :
  k' <> k -> dict_get k (dict_del k' d) = dict_get k d.
Proof.
  intros Hne. unfold dict_del.
  pose proof (dict_get_filter_by_key (fun x => negb (x =? k')%string) d k) as H.
  cbv beta in H. rewrite H.
  destruct (String.eqb_spec k k'); [congruence|reflexivity].
Qed.

Lemma dict_get_del_all {V} (ids : list string) (d : dict V) (k : string) :
  dict_get k (fold_left (fun d tid => dict_del tid d) ids d)
  = if existsb (String.eqb k) ids then None else dict_get k d.
Proof.
  rewrite delete_all_filter.
  pose proof (dict_get_filter_by_key (fun x => negb (existsb (String.eqb x) ids)) d k) as H.
  cbv beta in H. rewrite H. now destruct (existsb _ _).
Qed.


Lemma evicted_world_tasks (w : world) (ids : list string) :
  tasks (evicted_world w ids) = fold_left (fun d tid => dict_del tid d) ids (tasks w).
Proof. unfold evicted_world. now destruct ids. Qed.

(** A cleaning block leaves a record as it is or removes it. *)
Lemma evict_expired_record (w : world) (k : string) :
  dict_get k (tasks (snd (evict_expired w))) = dict_get k (tasks w)
  \/ dict_get k (tasks (snd (evict_expired w))) = None.
Proof.
  rewrite evict_expired_eq. destruct (expired_scan _ _ _) as [ids|e]; [|now left].
  cbn [snd]. rewrite evicted_world_tasks, dict_get_del_all.
  destruct (existsb _ _); auto.
Qed.

Lemma list_tasks_record (limit : Z) (w : world) (k : string) :
  dict_get k (tasks (snd (list_tasks limit w))) = dict_get k (tasks w)
  \/ dict_get k (tasks (snd (list_tasks limit w))) = None.
Proof.
  destruct (list_tasks_tasks limit w) as [->| ->]; [|apply evict_expired_record].
  destruct (evict_expired_record (snd (evict_expired w)) k) as [->|H]; [|now right].
  apply evict_expired_record.
Qed.

(** An event that is no step of the job leaves the record of the job as
    it is, unless it is a deletion of the id or a listing, which may
    remove it. *)
Lemma perform_other_record (e : event) (w : world) (k : string) :
  job_event k e = false ->
  dict_get k (tasks (perform e w)) = dict_get k (tasks w)
  \/ (dict_get k (tasks (perform e w)) = None
      /\ (deletion_of k e = true \/ exists limit, e = Listed limit)).
Proof.
  intros He.
  destruct e as [code|code task_id|code task_id outcome|task_id|task_id|limit|];
    cbn [perform job_event] in *.
  - left. now rewrite submit_analysis_eq.
  - left. rewrite run_begin_eq. unfold begun_world. cbn [snd].
    rewrite !saved_world_tasks. cbn [tasks with_tasks with_running with_pool with_ticks].
    apply dict_get_set_other. intros ->. now rewrite String.eqb_refl in He.
  - left. cbv zeta. cbn [tasks with_running].
    destruct (run_end_cases code task_id outcome w)
      as [[_ ->]|(task & fields & answer & _ & -> & _)]; cbn [snd]; [reflexivity|].
    rewrite !saved_world_tasks. cbn [tasks with_tasks with_ticks].
    apply dict_get_set_other. intros ->. now rewrite String.eqb_refl in He.
  - now left.
  - rewrite delete_task_eq. destruct (dict_mem task_id (tasks w)); cbn [snd]; [|now left].
    rewrite saved_world_tasks. cbn [tasks with_tasks].
    destruct (String.eqb_spec task_id k) as [->|Hne].
    + right. split; [apply dict_get_del_same|]. left. cbn [deletion_of].
      apply String.eqb_refl.
    + left. now apply dict_get_del_other.
  - destruct (list_tasks_record limit w k) as [H|H]; [now left|].
    right. split; [exact H|]. right. now exists limit.
  - left. rewrite _save_tasks_eq. cbn [snd tasks with_threads]. now rewrite saved_world_tasks.
Qed.

(** While no step of the job happens, its record is the one it was or is
    gone. *)
Lemma events_other_record (events : list event) (w : world) (k : string) :
  Forall (fun e => job_event k e = false) events ->
  dict_get k (tasks (fold_left (fun w0 e => perform e w0) events w)) = dict_get k (tasks w)
  \/ dict_get k (tasks (fold_left (fun w0 e => perform e w0) events w)) = None.
Proof.
  intros Hall. revert w. induction Hall as [|e events He _ IH]; intros w; [now left|].
  simpl. destruct (IH (perform e w)) as [->|H]; [|now right].
  destruct (perform_other_record e w k He) as [->|[-> _]]; auto.
Qed.








Lemma perform_begun_record (code task_id : string) (w : world) :
  dict_get task_id (tasks (perform (JobBegun code task_id) w))
  = Some (running_record code task_id (clock w (ticks w))).
Proof.
  cbn [perform]. rewrite run_begin_eq.
  match goal with |- context [begun_world code task_id ?w0] =>
    exact (begun_world_record code task_id w0)
  end.
Qed.
End JobsAmongEvents.

(* ================================================================= *)
(** ** The records of the worker *)

Section WorkerRecords.
Context {P : Platform}.

End WorkerRecords.



(* ================================================================= *)
(** ** Submission and the start of the job *)

Section SubmitAndStart.
Context {P : Platform}.

Lemma saved_world_workers (w : world) :
  running (saved_world w) = running w /\ max_workers (saved_world w) = max_workers w.
Proof.
  destruct (saved_world_fields w)
    as (_ & _ & _ & _ & _ & _ & _ & _ & _ & _ & _ & _ & Hr & Hm).
  now split.
Qed.

Lemma evict_expired_workers (w : world) :
  running (snd (evict_expired w)) = running w
  /\ max_workers (snd (evict_expired w)) = max_workers w.
Proof.
  rewrite evict_expired_eq. destruct (expired_scan _ _ _) as [ids|e]; [|now split].
  unfold evicted_world. destruct ids; now split.
Qed.

Lemma list_tasks_workers (limit : Z) (w : world) :
  running (snd (list_tasks limit w)) = running w
  /\ max_workers (snd (list_tasks limit w)) = max_workers w.
Proof.
  unfold list_tasks, bind.
  destruct (evict_expired_workers w) as (Hr1 & Hm1).
  destruct (evict_expired w) as [[[]|e] w1]; cbn [snd] in *; [|now split].
  destruct (evict_expired_workers w1) as (Hr2 & Hm2).
  destruct (evict_expired w1) as [[[]|e] w2]; cbn [snd] in *;
    [|split; congruence].
  unfold gets, lift, ret. destruct (sort_by_start_time _); cbn [snd];
    split; congruence.
Qed.

(** An event that is no step of a job leaves the workers as they are. *)
Lemma perform_workers (e : event) (w : world) :
  match e with
  | JobBegun _ _ | JobEnded _ _ _ => True
  | _ => running (perform e w) = running w /\ max_workers (perform e w) = max_workers w
  end.
Proof.
  destruct e as [code|code task_id|code task_id outcome|task_id|task_id|limit|];
    cbn [perform]; try exact I.
  - rewrite submit_analysis_eq. now split.
  - now split.
  - rewrite delete_task_eq. destruct (dict_mem task_id (tasks w)); cbn [snd]; [|now split].
    match goal with |- context [saved_world ?w0] =>
      destruct (saved_world_workers w0) as [Hr Hm]
    end.
    cbn [running max_workers with_tasks] in Hr, Hm. now split.
  - apply list_tasks_workers.
  - rewrite _save_tasks_eq. cbn [snd running max_workers with_threads].
    apply saved_world_workers.
Qed.

(** While every worker is busy and no job ends, no job begins, and an id
    without record stays without record. *)
Lemma busy_workers_start_nothing (events : list event) (w : world) (k : string) :
  (max_workers w <= List.length (running w))%nat ->
  dict_get k (tasks w) = None ->
  Forall (fun e => job_end e = false) events ->
  scheduled events w = true ->
  dict_get k (tasks (fold_left (fun w0 e => perform e w0) events w)) = None.
Proof.
  intros Hbusy Hnone Hends. revert w Hbusy Hnone.
  induction Hends as [|e events He _ IH]; intros w Hbusy Hnone Hsched; [exact Hnone|].
  simpl in Hsched. apply andb_prop in Hsched as [Hallowed Hrest]. simpl.
  assert (job_event k e = false
          /\ running (perform e w) = running w
          /\ max_workers (perform e w) = max_workers w) as (Hjob & Hr & Hm).
  { pose proof (perform_workers e w) as Hw.
    destruct e as [code|code task_id|code task_id outcome|task_id|task_id|limit|];
      try discriminate He; try (split; [reflexivity|exact Hw]).
    exfalso. unfold can_begin in Hallowed. apply andb_prop in Hallowed as [Hfree _].
    apply Nat.ltb_lt in Hfree. lia. }
  apply IH; [rewrite Hr, Hm; exact Hbusy| |exact Hrest].
  destruct (perform_other_record e w k Hjob) as [->|[-> _]]; auto.
Qed.

(** C1, amended. [submit_analysis] returns without raising an answer that
    carries the task id and puts the job at the end of the queue of the
    executor; it writes nothing to the task table.  The executor may
    begin the job at once when its queue was empty and one of its workers
    is idle.  The running record is written by the worker, as the first
    step of [_run_analysis]: once that step has run, in whatever world
    the executor begins the job, a lookup of the id finds a record whose
    status is running, and whatever happens to the service before the
    collaborator returns (any events that are no step of a job with that
    id), a lookup of the id finds nothing or a record whose status is
    running.  While every worker is busy and no job ends,
    the job does not begin: a lookup of an id that had no record finds
    nothing, whatever else happens to the service. *)
Theorem submit_then_worker_start (code : string) (events : list event) (w : world) :
  let task_id := task_id_at code (clock w (ticks w)) in
  let w1 := snd (submit_analysis code w) in
  (exists answer,
      fst (submit_analysis code w) = Ok answer /\ returned_task_id answer = task_id)
  /\ tasks w1 = tasks w
  /\ pool w1 = pool w ++ [(code, task_id)]
  /\ (pool w = [] -> (List.length (running w) < max_workers w)%nat ->
      can_begin (code, task_id) w1 = true)
  /\ (forall w2 : world,
         let begun := perform (JobBegun code task_id) w2 in
         (exists record,
             fst (get_task_status task_id begun) = Ok (Some record)
             /\ has_status "running" record)
         /\ (Forall (fun e => job_event task_id e = false) events ->
             forall record,
               fst (get_task_status task_id
                      (fold_left (fun w0 e => perform e w0) events begun))
               = Ok (Some record) ->
               has_status "running" record))
  /\ ((max_workers w <= List.length (running w))%nat ->
      dict_get task_id (tasks w) = None ->
      Forall (fun e => job_end e = false) events ->
      scheduled events w1 = true ->
      (forall job, can_begin job w1 = false)
      /\ fst (get_task_status task_id (fold_left (fun w0 e => perform e w0) events w1))
         = Ok None).
Proof.
  intros task_id w1. subst w1. rewrite submit_analysis_eq. cbn [fst snd].
  fold task_id. split; [|split; [|split; [|split; [|split]]]].
  - eexists. split; reflexivity.
  - reflexivity.
  - reflexivity.
  - intros Hpool Hfree. unfold can_begin.
    cbn [running max_workers pool with_pool with_ticks fst snd]. rewrite Hpool.
    cbn [app]. cbn [fst snd]. rewrite !String.eqb_refl.
    apply Nat.ltb_lt in Hfree. now rewrite Hfree.
  - intros w2. set (begun := perform (JobBegun code task_id) w2).
    pose proof (perform_begun_record code task_id w2) as Hfirst. fold begun in Hfirst.
    split.
    + unfold get_task_status. run_monad. rewrite Hfirst. eexists.
      split; [reflexivity|]. apply running_record_ok.
    + intros Hjob record. unfold get_task_status. run_monad.
      destruct (events_other_record events begun task_id Hjob) as [->| ->];
        [|discriminate].
      rewrite Hfirst. intros [= <-]. apply running_record_ok.
  - intros Hbusy Hnone Hends Hsched. split.
    + intros job. unfold can_begin. cbn [running max_workers with_pool with_ticks].
      apply Nat.ltb_ge in Hbusy. now rewrite Hbusy.
    + unfold get_task_status. run_monad. f_equal.
      now apply busy_workers_start_nothing.
Qed.
End SubmitAndStart.

(** The three jobs of [saturated_world] were begun as the executor
    allows: each found an idle worker. *)
Example three_jobs_scheduled :
  scheduled three_jobs (snd (init_analysis quiet_world)) = true
  /\ List.length (running saturated_world) = max_workers saturated_world.
Proof. vm_compute. split; reflexivity. Qed.

(** C1 as stated fails: the three workers of the service are busy, so the
    job that [submit_analysis "600519"] hands to the executor waits in
    its queue, and the lookup of the id that the submission returned
    finds no record. *)
Lemma submit_to_busy_pool_status_absent :
  fst ((answer <- submit_analysis "600519" ;;
        get_task_status (returned_task_id answer)) saturated_world)
  = Ok None
  /\ pool (snd (submit_analysis "600519" saturated_world))
     = [("600519", "600519_20240301_090519_000000")]
  /\ can_begin ("600519", "600519_20240301_090519_000000")
               (snd (submit_analysis "600519" saturated_world))
     = false.
Proof. vm_compute. repeat split; reflexivity. Qed.

(** On a service with an idle worker the job can begin at once, and the
    lookup then finds the running record. *)
Example submit_to_idle_pool :
  let w1 := snd (submit_analysis "600519" (snd (init_analysis quiet_world))) in
  let task_id := "600519_20240301_090507_000000" in
  can_begin ("600519", task_id) w1 = true
  /\ option_map (py_get "status")
                (dict_get task_id (tasks (perform (JobBegun "600519" task_id) w1)))
     = Some (JStr "running").
Proof. vm_compute. split; reflexivity. Qed.

(** While the three workers are busy, a fourth job is submitted, the
    table is looked up and listed and another job is submitted: the
    lookup of the id of the fourth job finds nothing. *)
Lemma submit_then_worker_start_witness :
  let events :=
    [StatusRead "600519_20240301_090519_000000"; Listed 10; Submitted "000004";
     SavedInBackground] in
  (forall job,
      can_begin job (snd (submit_analysis "600519" saturated_world)) = false)
  /\ fst (get_task_status "600519_20240301_090519_000000"
            (fold_left (fun w0 e => perform e w0) events
                       (snd (submit_analysis "600519" saturated_world))))
     = Ok None.
Proof.
  intros events.
  destruct (@submit_then_worker_start iso_platform "600519" events saturated_world)
    as (_ & _ & _ & _ & _ & Hbusy).
  apply Hbusy.
  - vm_compute. apply le_n.
  - vm_compute. reflexivity.
  - repeat constructor.
  - vm_compute. reflexivity.
Defined.

(* ================================================================= *)
(** ** Records without a usable start time *)

Section UnusableRecords.
Context {P : Platform}.






End UnusableRecords.



Example cluttered_file_run :
  fst (list_tasks 100 (after_events
                         [Submitted "600519";
                          JobBegun "600519" "600519_20240301_090507_000000"]
                         cluttered_file_world))
  = Ok [running_record "600519" "600519_20240301_090507_000000" t_morning; new_record].
Proof. vm_compute. reflexivity. Qed.
